(** * ilastik data selection and DVID export: a shallow embedding

    The development follows three source files:
    - [ilastik/applets/dataSelection/opDataSelection.py]
      ([DatasetInfo] and [OpDataSelection]),
    - [lazyflow/operators/ioOperators/opExportDvidVolume.py]
      ([OpExportDvidVolume]).

    Python exceptions are values of [exn]; a call that may raise returns a
    [result].  Code that mutates [self] before raising is a state
    transformer returning both the outcome and the state it leaves behind. *)

From Stdlib Require Import ZArith Ascii String.
From stdpp Require Import base option list sorting strings gmap.

Local Open Scope string_scope.

(** ** Python values and exceptions *)
Module Py.

Inductive exn : Type :=
| AssertionError (msg : string)
| Exception (msg : string)
| NameError (name : string)
| AttributeError (attr : string)
| IndexError (msg : string)
| KeyError (msg : string)
| ValueError (msg : string)
| RecursionError
| DatasetConstraintError (appletName message : string)
| InvalidDimensionalityError (message : string)
| OperatorError (operator message : string).

Inductive result (A : Type) : Type :=
| Ok (a : A)
| Raise (e : exn).
Arguments Ok {A} a.
Arguments Raise {A} e.

Definition bind {A B : Type} (r : result A) (k : A -> result B) : result B :=
  match r with
  | Ok a => k a
  | Raise e => Raise e
  end.

Definition raises {A : Type} (r : result A) : Prop :=
  match r with
  | Ok _ => False
  | Raise _ => True
  end.

Definition is_constraint_error (e : exn) : bool :=
  match e with
  | DatasetConstraintError _ _ => true
  | _ => false
  end.

(** The name of the applet or operator an exception carries, for the
    exception classes that have one. *)
Definition operator_name (e : exn) : option string :=
  match e with
  | DatasetConstraintError appletName _ => Some appletName
  | OperatorError operator _ => Some operator
  | _ => None
  end.

(** [assert cond, msg] *)
Definition assert (cond : bool) (msg : string) : result unit :=
  if cond then Ok tt else Raise (AssertionError msg).

(** Truth value of an optional string: [None] and [''] are falsy. *)
Definition truthy (s : option string) : bool :=
  match s with
  | Some (String _ _) => true
  | _ => false
  end.

(** [a or b] on optional strings. *)
Definition or_else (a b : option string) : option string :=
  if truthy a then a else b.

(** [c in s] for a one-character [c]. *)
Fixpoint contains (c : ascii) (s : string) : bool :=
  match s with
  | EmptyString => false
  | String d s' => if decide (c = d) then true else contains c s'
  end.

Fixpoint is_prefix (p s : string) : bool :=
  match p, s with
  | EmptyString, _ => true
  | String a p', String b s' => if decide (a = b) then is_prefix p' s' else false
  | String _ _, EmptyString => false
  end.

(** [s.split(sep)] for a non-empty separator.  [cur] holds the current
    piece in reverse; [skip] counts the characters of a separator that was
    just matched and are still to be dropped. *)
Fixpoint split_go (sep : string) (cur : string) (skip : nat) (s : string)
  : list string :=
  match s with
  | EmptyString => [String.rev cur]
  | String a s' =>
      match skip with
      | S n => split_go sep cur n s'
      | O =>
          if is_prefix sep s
          then String.rev cur :: split_go sep "" (String.length sep - 1) s'
          else split_go sep (String a cur) 0 s'
      end
  end.

Definition split (sep s : string) : list string := split_go sep "" 0 s.

(** [sep.join(parts)] *)
Fixpoint join (sep : string) (parts : list string) : string :=
  match parts with
  | [] => ""
  | [p] => p
  | p :: rest => p +:+ sep +:+ join sep rest
  end.

(** [s.lstrip(c)] for a one-character [c]. *)
Fixpoint lstrip (c : ascii) (s : string) : string :=
  match s with
  | String a s' => if decide (a = c) then lstrip c s' else s
  | EmptyString => ""
  end.

(** [s.replace(a, b)] for one-character [a] and [b]. *)
Fixpoint replace (a b : ascii) (s : string) : string :=
  match s with
  | EmptyString => ""
  | String x s' => String (if decide (x = a) then b else x) (replace a b s')
  end.

(** [sorted(l, key=key)]: Python's sort is stable, so an element is put in
    front of the first later element whose key is not smaller. *)
Section Sorted.
Context {A : Type} (le : A -> A -> bool).

Fixpoint insert_sorted (x : A) (l : list A) : list A :=
  match l with
  | [] => [x]
  | y :: l' => if le x y then x :: l else y :: insert_sorted x l'
  end.

Definition sorted (l : list A) : list A := foldr insert_sorted [] l.
End Sorted.

Definition sorted_str : list string -> list string := sorted String.leb.

Definition sorted_by_len : list string -> list string :=
  sorted (fun a b => Nat.leb (String.length a) (String.length b)).

(** [os.path.commonprefix] of two strings, and of a list. *)
Fixpoint commonprefix2 (a b : string) : string :=
  match a, b with
  | String x a', String y b' =>
      if decide (x = y) then String x (commonprefix2 a' b') else ""
  | _, _ => ""
  end.

Definition commonprefix (l : list string) : string :=
  match l with
  | [] => ""
  | s :: rest => foldl commonprefix2 s rest
  end.

(** POSIX [os.path]: separator ['/'], list separator [':']. *)
Definition sep : string := "/".
Definition pathsep : string := ":".

Definition isabs (p : string) : bool := is_prefix sep p.

Definition ends_with_sep (p : string) : bool :=
  is_prefix sep (String.rev p).

Definition path_join (a b : string) : string :=
  if isabs b then b
  else if decide (a = "") then b
  else if ends_with_sep a then a +:+ b
  else a +:+ sep +:+ b.

(** Decimal text of a natural number, for [str.format]. *)
Definition digit (n : nat) : ascii := ascii_of_nat (48 + n).

Fixpoint str_of_nat_go (fuel n : nat) (acc : string) : string :=
  match fuel with
  | O => acc
  | S fuel' =>
      let acc' := String (digit (n mod 10)) acc in
      if Nat.eqb (n / 10) 0 then acc' else str_of_nat_go fuel' (n / 10) acc'
  end.

Definition str_of_nat (n : nat) : string := str_of_nat_go (S n) n "".

End Py.

Export Py.

(** [result] is a monad; stdpp's [x ← c; k] sequences calls that may raise. *)
Global Instance result_ret : MRet result := @Ok.
Global Instance result_bind : MBind result := fun A B k r => Py.bind r k.

(** ** Array metadata shared by both operators *)

Inductive Dtype : Type :=
| uint8 | uint16 | uint32 | uint64
| int8 | int16 | int32 | int64
| float32 | float64.

Global Instance Dtype_eq_dec : EqDecision Dtype.
Proof. solve_decision. Defined.

Definition dtype_name (d : Dtype) : string :=
  match d with
  | uint8 => "uint8" | uint16 => "uint16" | uint32 => "uint32"
  | uint64 => "uint64" | int8 => "int8" | int16 => "int16"
  | int32 => "int32" | int64 => "int64" | float32 => "float32"
  | float64 => "float64"
  end.

(** [vigra.AxisTags], reduced to the sequence of axis keys: the code only
    reads [tag.key], tests [key in axistags] and builds tags from keys with
    [vigra.defaultAxistags]. *)
Abbreviation AxisTags := (list ascii).

Definition defaultAxistags (keys : string) : AxisTags :=
  list_ascii_of_string keys.

(** A display range [(lo, hi)]; the code only copies it. *)
Abbreviation DRange := (Z * Z)%type.

(** A sub-volume region [(start, stop)]. *)
Abbreviation Roi := (list Z * list Z)%type.

(** A numpy or vigra array as far as the code looks at it: [dtype],
    [shape], the [axistags] attribute when there is one, and the outcome of
    [bool(array)] ([None] when numpy refuses to give a truth value). *)
Record Array : Type := {
  arr_dtype : Dtype;
  arr_shape : list nat;
  arr_axistags : option AxisTags;
  arr_truth : option bool
}.

(** ** [class DatasetInfo] *)
Module DatasetInfo.

Inductive Location : Type :=
| FileSystem
| ProjectInternal
| PreloadedArray.

Global Instance Location_eq_dec : EqDecision Location.
Proof. solve_decision. Defined.

(** A [DatasetInfo] object.  [nickname] and [expanded_paths] are [None]
    while the attribute has never been assigned.  The attribute
    [_datasetId], which the setter of [filePath] regenerates, is kept
    beside these attributes in [instance] below. *)
Record t : Type := {
  preloaded_array : option Array;
  filePath : option string;
  allowLabels : bool;
  drange : option DRange;
  normalizeDisplay : option bool;
  sequenceAxis : option string;
  axistags : option AxisTags;
  original_axistags : option AxisTags;
  laneShape : option (list nat);
  laneDtype : option Dtype;
  realDataSource : bool;
  subvolume_roi : option Roi;
  location : Location;
  display_mode : string;
  fromstack : bool;
  original_paths : list string;
  nickname : option string;
  expanded_paths : option (list string)
}.

(** A [DatasetInfo] object together with its [_datasetId]. *)
Record instance : Type := {
  attributes : t;
  _datasetId : string
}.

(** [lazyflow.utility.PathComponents(path)], as far as it is read here. *)
Record Components : Type := {
  externalPath : string;
  extension : string;
  internalPath : option string
}.

(** What the class takes from outside this file: the file system
    ([os.getcwd], [glob.glob], [os.path.expanduser]), the helpers of
    [lazyflow.utility] ([PathComponents], [splitPath], [isUrl]), the HDF5
    and N5 libraries (open the file, [globH5N5], close it), [re.sub], and
    the interpreter's recursion limit. *)
Record Env : Type := {
  getcwd : string;
  glob : string -> list string;
  expanduser : string -> string;
  PathComponents : string -> Components;
  splitPath : option string -> list string;
  isUrl : string -> bool;
  h5py_glob : string -> string -> result (list string);
  z5py_glob : string -> string -> result (list string);
  re_sub : string -> string -> string -> string;
  recursion_limit : nat
}.

(** The namespace object handed over by a [JsonConfigParser]. *)
Record Namespace : Type := {
  ns_filepath : option string;
  ns_drange : option DRange;
  ns_nickname : option string;
  ns_axistags : option string;
  ns_subvolume_roi : option Roi
}.

(** The arguments of [__init__], with their defaults. *)
Record InitArgs : Type := {
  filepath : option string;
  jsonNamespace : option Namespace;
  cwd : option string;
  arg_preloaded_array : option Array;
  sequence_axis : option string;
  arg_allowLabels : bool;
  arg_subvolume_roi : option Roi;
  arg_location : Location;
  arg_axistags : option AxisTags;
  arg_drange : option DRange;
  arg_display_mode : string;
  arg_nickname : string;
  arg_original_axistags : option AxisTags;
  arg_laneShape : option (list nat);
  arg_normalizeDisplay : option bool;
  arg_laneDtype : option Dtype
}.

Definition default_args : InitArgs := {|
  filepath := None; jsonNamespace := None; cwd := None;
  arg_preloaded_array := None; sequence_axis := None;
  arg_allowLabels := true; arg_subvolume_roi := None;
  arg_location := FileSystem; arg_axistags := None; arg_drange := None;
  arg_display_mode := "default"; arg_nickname := "";
  arg_original_axistags := None; arg_laneShape := None;
  arg_normalizeDisplay := None; arg_laneDtype := None
|}.

Section WithEnv.
Variable env : Env.

Definition pathIsHdf5 (path : string) : bool :=
  bool_decide (extension (PathComponents env path) ∈ [".ilp"; ".h5"; ".hdf5"]).

Definition pathIsN5 (path : string) : bool :=
  bool_decide (extension (PathComponents env path) ∈ [".n5"]).

Definition fileHasInternalPaths (path : string) : bool :=
  pathIsHdf5 path || pathIsN5 path.

(** [cwd = cwd or os.getcwd()] *)
Definition cwd_or_getcwd (cwd : option string) : string :=
  if truthy cwd then default "" cwd else getcwd env.

(** [expandPath] and [globInternalPaths] call each other.  The bodies are
    written over the recursive call [expandPath_rec]; [expandPath] below
    ties the knot on the depth of the call stack. *)
Section Bodies.
Variable expandPath_rec : string -> option string -> result (list string).

(** One turn of the loop of [globInternalPaths]. *)
Definition glob_in_file (glob_str path : string) : result (list string) :=
  if pathIsHdf5 path then h5py_glob env path (lstrip "/" glob_str)
  else if pathIsN5 path then z5py_glob env path (lstrip "/" glob_str)
  else Raise (Exception (path +:+ " is not an 'n5' or 'h5' file")).

Fixpoint glob_in_files (glob_str : string) (paths : list string)
    (common_internal_paths : gset string) : result (gset string) :=
  match paths with
  | [] => Ok common_internal_paths
  | path :: rest =>
      found ← glob_in_file glob_str path;
      glob_in_files glob_str rest (common_internal_paths ∪ list_to_set found)
  end.

Definition globInternalPaths_body (file_path glob_str : string)
    (cwd : option string) : result (list string) :=
  paths ← expandPath_rec file_path cwd;
  common_internal_paths ← glob_in_files glob_str paths ∅;
  Ok (sorted_str (elements common_internal_paths)).

(** The inner loop of [expandPath], over the files one glob matched. *)
Fixpoint expand_unglobbed (components : Components)
    (unglobbed_paths expanded_paths : list string) : result (list string) :=
  match unglobbed_paths with
  | [] => Ok expanded_paths
  | ext_path :: rest =>
      if negb (fileHasInternalPaths ext_path)
         || negb (truthy (internalPath components))
      then expand_unglobbed components rest (expanded_paths ++ [ext_path])
      else
        internal_paths ←
          globInternalPaths_body ext_path
            (default "" (internalPath components)) None;
        expand_unglobbed components rest
          (expanded_paths ++ map (path_join ext_path) internal_paths)
  end.

(** The outer loop of [expandPath], over the components of the path. *)
Fixpoint expand_components (cwd : string) (pathComponents : list Components)
    (expanded_paths : list string) : result (list string) :=
  match pathComponents with
  | [] => Ok expanded_paths
  | components :: rest =>
      let externalPath' :=
        if isabs (externalPath components) then externalPath components
        else path_join cwd (externalPath components) in
      let unglobbed_paths := glob env (expanduser env externalPath') in
      match unglobbed_paths with
      | [] =>
          Raise (Exception
                   ("Could not find file at " +:+ externalPath components))
      | _ =>
          expanded_paths' ←
            expand_unglobbed components unglobbed_paths expanded_paths;
          expand_components cwd rest expanded_paths'
      end
  end.

Definition expandPath_body (file_path : string) (cwd : option string)
  : result (list string) :=
  let cwd := cwd_or_getcwd cwd in
  let pathComponents :=
    map (PathComponents env) (splitPath env (Some file_path)) in
  expanded_paths ← expand_components cwd pathComponents [];
  Ok (sorted_str expanded_paths).

End Bodies.

(** [depth] is the number of nested calls the interpreter still allows. *)
Fixpoint expandPath_at (depth : nat) (file_path : string)
    (cwd : option string) : result (list string) :=
  match depth with
  | O => Raise RecursionError
  | S depth' => expandPath_body (expandPath_at depth') file_path cwd
  end.

Definition expandPath : string -> option string -> result (list string) :=
  expandPath_at (recursion_limit env).

Definition globInternalPaths
  : string -> string -> option string -> result (list string) :=
  globInternalPaths_body expandPath.

(** [create_nickname].  The message of the [raise] on mixed extensions is
    an f-string over [filePath], a name that is bound nowhere (the
    parameter is [filepath]): evaluating it raises [NameError]. *)
Definition create_nickname (filepath : string) (cwd : option string)
  : result (string * list string) :=
  expanded_paths ← expandPath filepath cwd;
  let components := map (PathComponents env) expanded_paths in
  if existsb
       (fun comp =>
          negb (bool_decide
                  (extension comp = default "" (extension <$> head components))))
       components
  then Raise (NameError "filePath")
  else
    let external_nickname :=
      commonprefix
        (map (fun comp =>
                re_sub env (extension comp +:+ "$") "" (externalPath comp))
             components) in
    external_nickname ←
      (if truthy (Some external_nickname)
       then Ok (List.last (split sep external_nickname) "")
       else
         match expanded_paths with
         | [] => Raise (IndexError "list index out of range")
         | first :: _ =>
             Ok ("stack_at-" +:+ externalPath (PathComponents env first))
         end);
    let internal_nickname :=
      lstrip "/"
        (commonprefix
           (map (fun ep =>
                   default ""
                     (or_else (internalPath (PathComponents env ep)) (Some "")))
                expanded_paths)) in
    let nickname :=
      external_nickname +:+
      (if truthy (Some internal_nickname)
       then "-" +:+ replace "/" "-" internal_nickname
       else "") in
    Ok (nickname, expanded_paths).

(** [updateFromJson] *)
Definition updateFromJson (self : t) (namespace : Namespace) : result t :=
  let filePath' := or_else (ns_filepath namespace) (filePath self) in
  let drange' :=
    match ns_drange namespace with
    | Some d => Some d
    | None => drange self
    end in
  nickname' ←
    (if truthy (ns_nickname namespace) then Ok (ns_nickname namespace)
     else
       match nickname self with
       | Some n => Ok (Some n)
       | None => Raise (AttributeError "nickname")
       end);
  let axistags' :=
    match ns_axistags namespace with
    | Some keys => Some (defaultAxistags keys)
    | None => axistags self
    end in
  let subvolume_roi' :=
    match ns_subvolume_roi namespace with
    | Some r => Some r
    | None => subvolume_roi self
    end in
  Ok {| preloaded_array := preloaded_array self;
        filePath := filePath';
        allowLabels := allowLabels self;
        drange := drange';
        normalizeDisplay := normalizeDisplay self;
        sequenceAxis := sequenceAxis self;
        axistags := axistags';
        original_axistags := original_axistags self;
        laneShape := laneShape self;
        laneDtype := laneDtype self;
        realDataSource := realDataSource self;
        subvolume_roi := subvolume_roi';
        location := location self;
        display_mode := display_mode self;
        fromstack := fromstack self;
        original_paths := original_paths self;
        nickname := nickname';
        expanded_paths := expanded_paths self |}.

(** [updateFromJson] with the effect of the [filePath] setter (lines 201
    to 205).  The first statement of the method assigns [self.filePath]
    whatever the namespace holds, and every such assignment replaces
    [_datasetId] by [generate_id()], a new [uuid1]; [fresh] is the
    identifier that call returns.  No other statement of the method
    touches [_datasetId]. *)
Definition updateFromJson_id (self : instance) (namespace : Namespace)
    (fresh : string) : result instance :=
  attributes' ← updateFromJson (attributes self) namespace;
  Ok {| attributes := attributes'; _datasetId := fresh |}.

(** The precondition of [__init__]:
    [assert preloaded_array is None or not filepath]. *)
Definition init_precondition (args : InitArgs) : result unit :=
  assert (bool_decide (arg_preloaded_array args = None)
          || negb (truthy (filepath args)))
    "You can't provide filepath and a preloaded_array".

(** The object after the plain attribute assignments of [__init__]. *)
Definition init_fields (args : InitArgs) : t := {|
  preloaded_array := arg_preloaded_array args;
  filePath := filepath args;
  allowLabels := arg_allowLabels args;
  drange := arg_drange args;
  normalizeDisplay :=
    match arg_normalizeDisplay args with
    | None => Some (bool_decide (arg_drange args <> None))
    | Some b => Some b
    end;
  sequenceAxis := sequence_axis args;
  axistags := arg_axistags args;
  original_axistags := arg_original_axistags args;
  laneShape := arg_laneShape args;
  laneDtype := arg_laneDtype args;
  realDataSource := true;
  subvolume_roi := arg_subvolume_roi args;
  location := arg_location args;
  display_mode := arg_display_mode args;
  fromstack := false;
  original_paths := splitPath env (filepath args);
  nickname := None;
  expanded_paths := None
|}.

(** [if self.preloaded_array:] asks the array for its truth value. *)
Definition array_truth (a : option Array) : result bool :=
  match a with
  | None => Ok false
  | Some arr =>
      match arr_truth arr with
      | Some b => Ok b
      | None =>
          Raise (ValueError
                   "The truth value of an array with more than one element is ambiguous")
      end
  end.

Definition with_filesystem_paths (self : t) (args : InitArgs)
    (nick : string) (expanded : list string) : t :=
  {| preloaded_array := preloaded_array self;
     filePath := Some (join pathsep expanded);
     allowLabels := allowLabels self;
     drange := drange self;
     normalizeDisplay := normalizeDisplay self;
     sequenceAxis := sequence_axis args;
     axistags := axistags self;
     original_axistags := original_axistags self;
     laneShape := laneShape self;
     laneDtype := laneDtype self;
     realDataSource := realDataSource self;
     subvolume_roi := subvolume_roi self;
     location := FileSystem;
     display_mode := display_mode self;
     fromstack := bool_decide (1 < length expanded);
     original_paths := original_paths self;
     nickname := Some nick;
     expanded_paths := Some expanded |}.

Definition with_nickname (self : t) (nick : option string) : t :=
  {| preloaded_array := preloaded_array self;
     filePath := filePath self;
     allowLabels := allowLabels self;
     drange := drange self;
     normalizeDisplay := normalizeDisplay self;
     sequenceAxis := sequenceAxis self;
     axistags := axistags self;
     original_axistags := original_axistags self;
     laneShape := laneShape self;
     laneDtype := laneDtype self;
     realDataSource := realDataSource self;
     subvolume_roi := subvolume_roi self;
     location := location self;
     display_mode := display_mode self;
     fromstack := fromstack self;
     original_paths := original_paths self;
     nickname := nick;
     expanded_paths := expanded_paths self |}.

(** The three-way branch of [__init__] on where the data lives.  In the
    first branch the source reads the bare name [Location], which is a
    class attribute and not in scope inside the method. *)
Definition init_location (self : t) (args : InitArgs) : result t :=
  preloaded ← array_truth (preloaded_array self);
  if (preloaded : bool) then Raise (NameError "Location")
  else if truthy (filepath args)
          && negb (isUrl env (default "" (filepath args)))
          && bool_decide (arg_location args = FileSystem)
  then
    '(nick, expanded) ←
      create_nickname (default "" (filepath args))
        (Some (cwd_or_getcwd (cwd args)));
    if bool_decide (1 < length expanded) && negb (truthy (sequence_axis args))
    then Raise (Exception
                  "sequence_axis must be specified when creating DatasetInfo out of stacks")
    else Ok (with_filesystem_paths self args nick expanded)
  else Ok self.

(** [DatasetInfo.__init__] *)
Definition init (args : InitArgs) : result t :=
  _ ← init_precondition args;
  self ← init_location (init_fields args) args;
  self ←
    match jsonNamespace args with
    | Some namespace => updateFromJson self namespace
    | None => Ok self
    end;
  Ok (if truthy (Some (arg_nickname args))
      then with_nickname self (Some (arg_nickname args))
      else self).

(** [is_path_relative] and [is_path_absolute] *)
Definition is_path_relative (self : t) : bool :=
  negb (existsb (fun p => isUrl env p || isabs p) (original_paths self)).

Definition is_path_absolute (self : t) : bool :=
  negb (is_path_relative self).

(** The property [effective_uris].  [expanded_paths] is an attribute that
    only the file-system branch of [__init__] assigns; reading it on an
    object that went another way raises [AttributeError].  The entry for
    a project-internal dataset is its [filePath], [None] included. *)
Definition effective_uris (self : t) : result (list (option string)) :=
  match location self with
  | PreloadedArray => Ok []
  | ProjectInternal => Ok [filePath self]
  | FileSystem =>
      if is_path_absolute self then
        match expanded_paths self with
        | Some paths => Ok (Some <$> paths)
        | None => Raise (AttributeError "expanded_paths")
        end
      else Ok (Some <$> original_paths self)
  end.

(** The arguments of the call [cls(file_path)]. *)
Definition args_of_path (file_path : string) : InitArgs := {|
  filepath := Some file_path;
  jsonNamespace := jsonNamespace default_args;
  cwd := cwd default_args;
  arg_preloaded_array := arg_preloaded_array default_args;
  sequence_axis := sequence_axis default_args;
  arg_allowLabels := arg_allowLabels default_args;
  arg_subvolume_roi := arg_subvolume_roi default_args;
  arg_location := arg_location default_args;
  arg_axistags := arg_axistags default_args;
  arg_drange := arg_drange default_args;
  arg_display_mode := arg_display_mode default_args;
  arg_nickname := arg_nickname default_args;
  arg_original_axistags := arg_original_axistags default_args;
  arg_laneShape := arg_laneShape default_args;
  arg_normalizeDisplay := arg_normalizeDisplay default_args;
  arg_laneDtype := arg_laneDtype default_args
|}.

(** [from_file_path]: a shallow copy of [instance] that takes [filePath],
    [location] and [nickname] from a fresh [DatasetInfo(file_path)].
    Reading [nickname] of the fresh object raises [AttributeError] when
    its constructor never assigned one. *)
Definition from_file_path (instance : t) (file_path : string) : result t :=
  default_info ← init (args_of_path file_path);
  let result := instance in
  nickname' ←
    match nickname default_info with
    | Some n => Ok n
    | None => Raise (AttributeError "nickname")
    end;
  Ok {| preloaded_array := preloaded_array result;
        filePath := filePath default_info;
        allowLabels := allowLabels result;
        drange := drange result;
        normalizeDisplay := normalizeDisplay result;
        sequenceAxis := sequenceAxis result;
        axistags := axistags result;
        original_axistags := original_axistags result;
        laneShape := laneShape result;
        laneDtype := laneDtype result;
        realDataSource := realDataSource result;
        subvolume_roi := subvolume_roi result;
        location := location default_info;
        display_mode := display_mode result;
        fromstack := fromstack result;
        original_paths := original_paths result;
        nickname := Some nickname';
        expanded_paths := expanded_paths result |}.

End WithEnv.

End DatasetInfo.

(** ** Slot metadata *)

Inductive MetaValue : Type :=
| VStr (s : string)
| VNames (names : list string)
| VDRange (d : DRange)
| VBool (b : bool)
| VAxisTags (tags : AxisTags)
| VRoi (roi : Roi).

(** Modelled from the spec: [lazyflow.metaDict.MetaDict].  A ready slot has
    [shape], [dtype] and [axistags]; every other key ([drange],
    [channel_names], [nickname], extension keys) lives in [extra]. *)
Record MetaDict : Type := {
  shape : list nat;
  dtype : Dtype;
  axistags : AxisTags;
  extra : gmap string MetaValue
}.

(** An [OrderedDict] from axis keys to extents: first insertion fixes the
    position, a later insertion of the same key replaces the value. *)
Fixpoint od_set (k : ascii) (v : nat) (d : list (ascii * nat))
  : list (ascii * nat) :=
  match d with
  | [] => [(k, v)]
  | (k', v') :: d' =>
      if decide (k = k') then (k, v) :: d' else (k', v') :: od_set k v d'
  end.

Fixpoint od_get (k : ascii) (d : list (ascii * nat)) : option nat :=
  match d with
  | [] => None
  | (k', v) :: d' => if decide (k = k') then Some v else od_get k d'
  end.

Definition getAxisKeys (m : MetaDict) : list ascii := axistags m.

(** [OrderedDict(zip(self.getAxisKeys(), self.shape))] *)
Definition getTaggedShape (m : MetaDict) : list (ascii * nat) :=
  foldl (fun d kv => od_set kv.1 kv.2 d) [] (zip (getAxisKeys m) (shape m)).

(** Modelled from the spec: the output metadata of [OpMetadataInjector],
    a key-wise override of the provider's metadata by the injected
    mapping; keys that are not injected pass through unchanged. *)
Definition OpMetadataInjector_Output (metadata : gmap string MetaValue)
    (m : MetaDict) : MetaDict :=
  {| shape := shape m;
     dtype := dtype m;
     axistags :=
       match metadata !! "axistags" with
       | Some (VAxisTags tags) => tags
       | _ => axistags m
       end;
     extra := delete "axistags" metadata ∪ extra m |}.

(** Modelled from the spec: the output metadata of [OpReorderAxes], the
    reordering stage that transposes the axes of its input to [order] and
    inserts a singleton axis for every key of [order] the input lacks. *)
Definition OpReorderAxes_Output (order : string) (m : MetaDict) : MetaDict :=
  {| shape :=
       map (fun a => default 1 (od_get a (getTaggedShape m)))
           (list_ascii_of_string order);
     dtype := dtype m;
     axistags := defaultAxistags order;
     extra := extra m |}.

(** [repr] of a list of quote-free strings, as f-strings print it. *)
Definition repr_list (items : list string) : string :=
  "[" +:+ join ", " (map (fun s => "'" +:+ s +:+ "'") items) +:+ "]".

Definition repr_keys (keys : list ascii) : string :=
  repr_list (map (fun k => String k "") keys).

(** ** [class OpDataSelection] *)
Module OpDataSelection.

(** The constructor argument [forceAxisOrder]: a list of axis orders, or
    some other value ([None], [False], a bare string), of which only the
    truth value matters. *)
Inductive ForceAxisOrder : Type :=
| AxisOrders (orders : list string)
| NotAList (truth : bool).

Definition force_truthy (f : ForceAxisOrder) : bool :=
  match f with
  | AxisOrders orders => bool_decide (orders <> [])
  | NotAList truth => truth
  end.

(** The operators of lazyflow that [setupOutputs] instantiates. *)
Inductive OperatorClass : Type :=
| OpStreamingH5N5Reader
| OpArrayPiper
| OpInputDataReader
| OpZeroDefault
| OpMetadataInjector
| OpReorderAxes.

(** A child operator: [serial] numbers the children of one parent in the
    order of their construction. *)
Record Child : Type := {
  serial : nat;
  class : OperatorClass
}.

Global Instance OperatorClass_eq_dec : EqDecision OperatorClass.
Proof. solve_decision. Defined.

Global Instance Child_eq_dec : EqDecision Child.
Proof. solve_decision. Defined.

(** The operator.  Input slots hold their value; an output slot holds
    [Some] of what it publishes when it is ready and [None] when it is
    not.  [children] are the operators constructed with [parent=self] and
    not cleaned up since, oldest first; [cleaned_up] records every
    [cleanUp()] call on a child, in the order of the calls. *)
Record Op : Type := {
  forceAxisOrder : ForceAxisOrder;
  RoleName : string;
  ProjectFile : option string;
  ProjectDataGroup : option string;
  WorkingDirectory : string;
  Dataset : DatasetInfo.t;
  _opReaders : list Child;
  children : list Child;
  constructed : nat;
  cleaned_up : list Child;
  Image : option MetaDict;
  AllowLabels : option bool;
  _NonTransposedImage : option MetaDict;
  ImageName : option (option string)
}.

(** What [setupOutputs] takes from outside this file: the readers (each
    function stands for setting the inputs of the freshly constructed
    reader, which runs the reader's own [setupOutputs] and may raise, and
    gives the metadata of its output slot), [get_default_axisordering],
    [Point5D.LABELS], the keys of [getShape5D().to_squeezed_dict()], and
    which element [set.pop()] removes. *)
Record Env : Type := {
  streaming_reader : option string -> option string -> result MetaDict;
  input_data_reader :
    option Roi -> string -> option string -> option string -> result MetaDict;
  zero_default :
    option (list nat) -> option Dtype -> option DRange -> option AxisTags ->
    result MetaDict;
  get_default_axisordering : list nat -> result string;
  Point5D_LABELS : string;
  squeezed_keys : list (ascii * nat) -> result (list ascii);
  set_pick : gset ascii -> ascii
}.

(** Code that mutates [self] and may raise. *)
Definition M (A : Type) : Type := Op -> result A * Op.

Definition ret {A : Type} (a : A) : M A := fun self => (Ok a, self).

Definition bindM {A B : Type} (m : M A) (k : A -> M B) : M B :=
  fun self =>
    match m self with
    | (Ok a, self') => k a self'
    | (Raise e, self') => (Raise e, self')
    end.

Definition lift {A : Type} (r : result A) : M A := fun self => (r, self).

Definition read {A : Type} (field : Op -> A) : M A :=
  fun self => (Ok (field self), self).

Definition modify (f : Op -> Op) : M unit := fun self => (Ok tt, f self).

Notation "'do' x <- m ; k" := (bindM m (fun x => k))
  (at level 10, x name, m at level 100, k at level 200).
Notation "'do' ' pat <- m ; k" := (bindM m (fun x => let 'pat := x in k))
  (at level 10, pat pattern, m at level 100, k at level 200).
Notation "m ;; k" := (bindM m (fun _ => k))
  (at level 100, k at level 200, right associativity).

(** *** Field updates *)

Definition set_readers (l : list Child) (self : Op) : Op :=
  {| forceAxisOrder := forceAxisOrder self; RoleName := RoleName self;
     ProjectFile := ProjectFile self;
     ProjectDataGroup := ProjectDataGroup self;
     WorkingDirectory := WorkingDirectory self; Dataset := Dataset self;
     _opReaders := l; children := children self;
     constructed := constructed self; cleaned_up := cleaned_up self;
     Image := Image self; AllowLabels := AllowLabels self;
     _NonTransposedImage := _NonTransposedImage self;
     ImageName := ImageName self |}.

Definition set_children (l : list Child) (n : nat) (log : list Child)
    (self : Op) : Op :=
  {| forceAxisOrder := forceAxisOrder self; RoleName := RoleName self;
     ProjectFile := ProjectFile self;
     ProjectDataGroup := ProjectDataGroup self;
     WorkingDirectory := WorkingDirectory self; Dataset := Dataset self;
     _opReaders := _opReaders self; children := l;
     constructed := n; cleaned_up := log;
     Image := Image self; AllowLabels := AllowLabels self;
     _NonTransposedImage := _NonTransposedImage self;
     ImageName := ImageName self |}.

Definition set_Dataset (d : DatasetInfo.t) (self : Op) : Op :=
  {| forceAxisOrder := forceAxisOrder self; RoleName := RoleName self;
     ProjectFile := ProjectFile self;
     ProjectDataGroup := ProjectDataGroup self;
     WorkingDirectory := WorkingDirectory self; Dataset := d;
     _opReaders := _opReaders self; children := children self;
     constructed := constructed self; cleaned_up := cleaned_up self;
     Image := Image self; AllowLabels := AllowLabels self;
     _NonTransposedImage := _NonTransposedImage self;
     ImageName := ImageName self |}.

Definition set_Image (v : option MetaDict) (self : Op) : Op :=
  {| forceAxisOrder := forceAxisOrder self; RoleName := RoleName self;
     ProjectFile := ProjectFile self;
     ProjectDataGroup := ProjectDataGroup self;
     WorkingDirectory := WorkingDirectory self; Dataset := Dataset self;
     _opReaders := _opReaders self; children := children self;
     constructed := constructed self; cleaned_up := cleaned_up self;
     Image := v; AllowLabels := AllowLabels self;
     _NonTransposedImage := _NonTransposedImage self;
     ImageName := ImageName self |}.

Definition set_NonTransposedImage (v : option MetaDict) (self : Op) : Op :=
  {| forceAxisOrder := forceAxisOrder self; RoleName := RoleName self;
     ProjectFile := ProjectFile self;
     ProjectDataGroup := ProjectDataGroup self;
     WorkingDirectory := WorkingDirectory self; Dataset := Dataset self;
     _opReaders := _opReaders self; children := children self;
     constructed := constructed self; cleaned_up := cleaned_up self;
     Image := Image self; AllowLabels := AllowLabels self;
     _NonTransposedImage := v;
     ImageName := ImageName self |}.

Definition set_AllowLabels (v : option bool) (self : Op) : Op :=
  {| forceAxisOrder := forceAxisOrder self; RoleName := RoleName self;
     ProjectFile := ProjectFile self;
     ProjectDataGroup := ProjectDataGroup self;
     WorkingDirectory := WorkingDirectory self; Dataset := Dataset self;
     _opReaders := _opReaders self; children := children self;
     constructed := constructed self; cleaned_up := cleaned_up self;
     Image := Image self; AllowLabels := v;
     _NonTransposedImage := _NonTransposedImage self;
     ImageName := ImageName self |}.

Definition set_ImageName (v : option (option string)) (self : Op) : Op :=
  {| forceAxisOrder := forceAxisOrder self; RoleName := RoleName self;
     ProjectFile := ProjectFile self;
     ProjectDataGroup := ProjectDataGroup self;
     WorkingDirectory := WorkingDirectory self; Dataset := Dataset self;
     _opReaders := _opReaders self; children := children self;
     constructed := constructed self; cleaned_up := cleaned_up self;
     Image := Image self; AllowLabels := AllowLabels self;
     _NonTransposedImage := _NonTransposedImage self;
     ImageName := v |}.

(** *** Slots and children *)

(** [Class(parent=self)]: the new operator becomes a child of [self]. *)
Definition construct (c : OperatorClass) : M Child :=
  fun self =>
    let child := {| serial := constructed self; class := c |} in
    (Ok child,
     set_children (children self ++ [child]) (S (constructed self))
       (cleaned_up self) self).

(** [child.cleanUp()]: the child leaves its parent. *)
Definition cleanUp (child : Child) (self : Op) : Op :=
  set_children (filter (fun c => c <> child) (children self))
    (constructed self) (cleaned_up self ++ [child]) self.

(** [self._opReaders.append(op)] *)
Definition append_reader (child : Child) : M unit :=
  modify (fun self => set_readers (_opReaders self ++ [child]) self).

(** [__init__]: no reader, no child, the outputs not ready. *)
Definition init (force : ForceAxisOrder) (role : string)
    (project_file project_data_group : option string)
    (working_directory : string) (dataset : DatasetInfo.t) : Op :=
  {| forceAxisOrder := force; RoleName := role;
     ProjectFile := project_file; ProjectDataGroup := project_data_group;
     WorkingDirectory := working_directory; Dataset := dataset;
     _opReaders := []; children := []; constructed := 0; cleaned_up := [];
     Image := None; AllowLabels := None; _NonTransposedImage := None;
     ImageName := None |}.

(** [internalCleanup] *)
Definition internalCleanup (self : Op) : Op :=
  if bool_decide (0 < length (_opReaders self)) then
    let self := set_Image None self in
    let self := set_NonTransposedImage None self in
    let self := foldl (fun s reader => cleanUp reader s) self
                      (reverse (_opReaders self)) in
    set_readers [] self
  else self.

(** *** Stage 1: select the provider (lines 426 to 462) *)

(** The metadata a slot takes from an array set as its value. *)
Definition array_meta (a : Array) : MetaDict :=
  {| shape := arr_shape a; dtype := arr_dtype a;
     axistags := default [] (arr_axistags a); extra := ∅ |}.

(** [vigra.taggedView(array, axisorder)] *)
Definition taggedView (a : Array) (axisorder : string) : Array :=
  {| arr_dtype := arr_dtype a; arr_shape := arr_shape a;
     arr_axistags := Some (defaultAxistags axisorder);
     arr_truth := arr_truth a |}.

Definition select_provider (env : Env) : M MetaDict :=
  do datasetInfo <- read Dataset;
  do '(opReader, providerSlot) <-
    match DatasetInfo.location datasetInfo with
    | DatasetInfo.ProjectInternal =>
        do opReader <- construct OpStreamingH5N5Reader;
        do project_file <- read ProjectFile;
        do providerSlot <-
          lift (streaming_reader env project_file (DatasetInfo.filePath datasetInfo));
        ret (opReader, providerSlot)
    | DatasetInfo.PreloadedArray =>
        do preloaded_array <-
          lift (match DatasetInfo.preloaded_array datasetInfo with
                | Some a => Ok a
                | None => Raise (AssertionError "")
                end);
        do preloaded_array <-
          lift (match arr_axistags preloaded_array with
                | Some _ => Ok preloaded_array
                | None =>
                    axisorder ←
                      get_default_axisordering env (arr_shape preloaded_array);
                    Ok (taggedView preloaded_array axisorder)
                end);
        do opReader <- construct OpArrayPiper;
        ret (opReader, array_meta preloaded_array)
    | DatasetInfo.FileSystem =>
        if DatasetInfo.realDataSource datasetInfo then
          do opReader <- construct OpInputDataReader;
          do working_directory <- read WorkingDirectory;
          do providerSlot <-
            lift (input_data_reader env (DatasetInfo.subvolume_roi datasetInfo)
                    working_directory (DatasetInfo.sequenceAxis datasetInfo)
                    (DatasetInfo.filePath datasetInfo));
          ret (opReader, providerSlot)
        else
          do opReader <- construct OpZeroDefault;
          do providerSlot <-
            lift (zero_default env (DatasetInfo.laneShape datasetInfo)
                    (DatasetInfo.laneDtype datasetInfo) (DatasetInfo.drange datasetInfo)
                    (DatasetInfo.axistags datasetInfo));
          ret (opReader, providerSlot)
    end;
  append_reader opReader ;;
  ret providerSlot.

(** *** Stage 2: inject metadata (lines 464 to 525) *)

Definition channel_names (role_name : string) (m : MetaDict) : list string :=
  let num_channels := default 0 (od_get "c" (getTaggedShape m)) in
  if bool_decide (1 < num_channels)
  then map (fun i => role_name +:+ "-" +:+ str_of_nat i) (seq 0 num_channels)
  else [role_name].

(** Lines 479 to 482. *)
Definition inject_drange (datasetInfo : DatasetInfo.t) (m : MetaDict)
    (metadata : gmap string MetaValue) : gmap string MetaValue :=
  match DatasetInfo.drange datasetInfo with
  | Some d => <["drange" := VDRange d]> metadata
  | None =>
      if decide (dtype m = uint8)
      then <["drange" := VDRange (0, 255)%Z]> metadata
      else metadata
  end.

(** [s.pop()] on a set. *)
Definition set_pop (env : Env) (s : gset ascii) : result (ascii * gset ascii) :=
  match elements s with
  | [] => Raise (KeyError "pop from an empty set")
  | first :: _ =>
      let a := if bool_decide (set_pick env s ∈ s) then set_pick env s
               else first in
      Ok (a, s ∖ {[a]})
  end.

(** The loop of lines 497 to 501. *)
Fixpoint reinterpret_axes (env : Env) (items : list (ascii * nat))
    (provider_squeezed_shape : list ascii) (info_keys : list ascii)
    (dummy_axes : gset ascii) (out_axes : string) : result string :=
  match items with
  | [] => Ok out_axes
  | (k, _) :: rest =>
      if bool_decide (k ∈ provider_squeezed_shape) then
        match info_keys with
        | [] => Raise (IndexError "pop from empty list")
        | a :: info_keys' =>
            reinterpret_axes env rest provider_squeezed_shape info_keys'
              dummy_axes (out_axes +:+ String a "")
        end
      else
        '(a, dummy_axes') ← set_pop env dummy_axes;
        reinterpret_axes env rest provider_squeezed_shape info_keys
          dummy_axes' (out_axes +:+ String a "")
  end.

Definition repr_tagged (d : list (ascii * nat)) : string :=
  "OrderedDict([" +:+
  join ", "
    (map (fun kv => "('" +:+ String kv.1 "" +:+ "', " +:+ str_of_nat kv.2 +:+ ")")
         d) +:+
  "])".

(** Lines 485 to 505, for [datasetInfo.axistags = info]. *)
Definition inject_axistags (env : Env) (info : AxisTags) (m : MetaDict)
    (metadata : gmap string MetaValue) : result (gmap string MetaValue) :=
  let info_keys := info in
  let provider_shape := shape m in
  let provider_keys := getAxisKeys m in
  provider_squeezed_shape ← squeezed_keys env (getTaggedShape m);
  if bool_decide (length info_keys = length provider_shape) then
    Ok (<["axistags" := VAxisTags info]> metadata)
  else if bool_decide (S (length info_keys) = length provider_shape)
          && bool_decide
               ((list_to_set provider_keys : gset ascii) ∖ list_to_set info_keys
                = {["c"%char]})
  then
    Ok (<["axistags" :=
            VAxisTags (defaultAxistags (string_of_list_ascii info_keys +:+ "c"))]>
          metadata)
  else if bool_decide
            (length info_keys = length (provider_squeezed_shape : list ascii))
  then
    let dummy_axes : gset ascii :=
      list_to_set (list_ascii_of_string (Point5D_LABELS env))
      ∖ list_to_set info_keys in
    out_axes ←
      reinterpret_axes env (getTaggedShape m) provider_squeezed_shape
        info_keys dummy_axes "";
    Ok (<["axistags" := VAxisTags (defaultAxistags out_axes)]> metadata)
  else
    Raise (Exception
             ("Cannot reinterpret input with shape " +:+
              repr_tagged (getTaggedShape m) +:+
              " using given axis order of " +:+ repr_keys info_keys)).

(** The dictionary [metadata] of lines 466 to 510. *)
Definition build_metadata (env : Env) (role_name : string)
    (datasetInfo : DatasetInfo.t) (m : MetaDict)
  : result (gmap string MetaValue) :=
  let metadata : gmap string MetaValue := ∅ in
  let metadata := <["display_mode" := VStr (DatasetInfo.display_mode datasetInfo)]> metadata in
  let metadata :=
    <["channel_names" := VNames (channel_names role_name m)]> metadata in
  let metadata := inject_drange datasetInfo m metadata in
  let metadata :=
    match DatasetInfo.normalizeDisplay datasetInfo with
    | Some b => <["normalizeDisplay" := VBool b]> metadata
    | None => metadata
    end in
  metadata ←
    match DatasetInfo.axistags datasetInfo with
    | Some info => inject_axistags env info m metadata
    | None => Ok metadata
    end;
  let metadata :=
    match DatasetInfo.original_axistags datasetInfo with
    | Some tags => <["original_axistags" := VAxisTags tags]> metadata
    | None => metadata
    end in
  let metadata :=
    match DatasetInfo.subvolume_roi datasetInfo with
    | Some roi => <["subvolume_roi" := VRoi roi]> metadata
    | None => metadata
    end in
  Ok metadata.

Definition inject_metadata (env : Env) (providerSlot : MetaDict) : M MetaDict :=
  do datasetInfo <- read Dataset;
  do role_name <- read RoleName;
  do metadata <- lift (build_metadata env role_name datasetInfo providerSlot);
  do opMetadataInjector <- construct OpMetadataInjector;
  let providerSlot := OpMetadataInjector_Output metadata providerSlot in
  append_reader opMetadataInjector ;;
  modify (set_NonTransposedImage (Some providerSlot)) ;;
  ret providerSlot.

(** *** Stage 3: normalize the axis order (lines 527 to 564) *)

Definition xy_message : string :=
  "Data must always have at leaset the axes x and y for ilastik to work.".

(** Lines 528 to 530. *)
Definition require_xy (m : MetaDict) : result unit :=
  if negb (bool_decide ("x"%char ∈ axistags m))
     || negb (bool_decide ("y"%char ∈ axistags m))
  then Raise (DatasetConstraintError "DataSelection" xy_message)
  else Ok tt.

(** [{k for k, v in tagged_provider_shape.items() if v > 1}] *)
Definition minimal_axes (m : MetaDict) : gset ascii :=
  list_to_set (map fst (filter (fun kv => 1 < kv.2) (getTaggedShape m))).

(** [minimal_axes.issubset(set(order))] *)
Definition covers (m : MetaDict) (order : string) : bool :=
  bool_decide (minimal_axes m ⊆ list_to_set (list_ascii_of_string order)).

Definition incompatible_message (m : MetaDict) (orders : list string) : string :=
  "The axes of your dataset (" +:+ repr_keys (getAxisKeys m) +:+
  ") are not compatible with any of the allowed axis configurations used by this workflow ("
  +:+ repr_list orders +:+ ").".

(** Lines 532 to 559. *)
Definition choose_output_order (force : ForceAxisOrder) (m : MetaDict)
  : result string :=
  output_order ←
    (if force_truthy force then
       match force with
       | NotAList _ =>
           Raise (AssertionError
                    "forceAxisOrder should be a *list* of preferred axis orders")
       | AxisOrders orders =>
           let candidate_orders := orders in
           let candidate_orders := List.filter (covers m) candidate_orders in
           match sorted_by_len candidate_orders with
           | [] =>
               Raise (DatasetConstraintError "DataSelection"
                        (incompatible_message m orders))
           | shortest :: _ => Ok shortest
           end
       end
     else Ok (string_of_list_ascii (getAxisKeys m)));
  Ok (if contains "c" output_order then output_order
      else output_order +:+ "c").

Definition normalize_axes (providerSlot : MetaDict) : M unit :=
  lift (require_xy providerSlot) ;;
  do force <- read forceAxisOrder;
  do output_order <- lift (choose_output_order force providerSlot);
  do op5 <- construct OpReorderAxes;
  append_reader op5 ;;
  modify (set_Image (Some (OpReorderAxes_Output output_order providerSlot))).

(** *** The end of [setupOutputs] (lines 566 to 574) *)

Definition meta_nickname (m : MetaDict) : option string :=
  match extra m !! "nickname" with
  | Some (VStr n) => Some n
  | _ => None
  end.

Definition publish_names : M unit :=
  do datasetInfo <- read Dataset;
  modify (set_AllowLabels (Some (DatasetInfo.allowLabels datasetInfo))) ;;
  do image <- read Image;
  let datasetInfo :=
    match image ≫= meta_nickname with
    | Some n => DatasetInfo.with_nickname datasetInfo (Some n)
    | None => datasetInfo
    end in
  modify (set_Dataset datasetInfo) ;;
  do imageName <-
    lift (match DatasetInfo.nickname datasetInfo with
          | Some n => Ok n
          | None => Raise (AttributeError "nickname")
          end);
  let imageName :=
    if decide (imageName = "") then DatasetInfo.filePath datasetInfo else Some imageName in
  modify (set_ImageName (Some imageName)).

(** Stages 1 and 2: the provider slot, with the metadata injected. *)
Definition provide (env : Env) : M MetaDict :=
  do providerSlot <- select_provider env;
  inject_metadata env providerSlot.

(** The body of the [try] block. *)
Definition configure (env : Env) : M unit :=
  do providerSlot <- provide env;
  normalize_axes providerSlot ;;
  publish_names.

(** [setupOutputs]: the [except] clause cleans up and re-raises. *)
Definition setupOutputs (env : Env) (self : Op) : result unit * Op :=
  let self := internalCleanup self in
  match configure env self with
  | (Ok _, self) => (Ok tt, self)
  | (Raise e, self) => (Raise e, internalCleanup self)
  end.

(** [self.Dataset.setValue(info)]: the new value is stored and
    [setupOutputs] runs. *)
Definition Dataset_setValue (env : Env) (info : DatasetInfo.t) (self : Op)
  : result unit * Op :=
  setupOutputs env (set_Dataset info self).

End OpDataSelection.

(** ** [class OpExportDvidVolume] *)
Module OpExportDvidVolume.

(** [dvidclient.volume_metainfo.MetaInfo(shape, dtype, axistags)] *)
Record MetaInfo : Type := {
  mi_shape : list nat;
  mi_dtype : Dtype;
  mi_axistags : AxisTags
}.

Record Op : Type := {
  _transpose_axes : bool;
  Input : MetaDict;
  NodeDataUrl : string
}.

(** What [run_export] takes from outside this file: the upstream request
    [self.Input[:].wait()] and the two calls to the DVID server, each of
    which may raise. *)
Record Env : Type := {
  Input_wait : result Array;
  create_volume : string -> string -> string -> MetaInfo -> result unit;
  modify_subvolume :
    string -> string -> string -> list nat * list nat -> Array -> result unit
}.

(** [axistags.channelIndex]: the position of the channel axis, or the
    number of axes when there is none. *)
Fixpoint channelIndex (tags : AxisTags) : nat :=
  match tags with
  | [] => 0
  | k :: rest => if decide (k = "c"%char) then 0 else S (channelIndex rest)
  end.

Definition setupOutputs (self : Op) : result unit :=
  if _transpose_axes self then
    assert (bool_decide (S (channelIndex (axistags (Input self)))
                         = length (axistags (Input self)))) ""
  else
    assert (bool_decide (channelIndex (axistags (Input self)) = 0)) "".

(** [vigra.taggedView(array, axistags)] *)
Definition taggedView_tags (a : Array) (tags : AxisTags) : Array :=
  {| arr_dtype := arr_dtype a; arr_shape := arr_shape a;
     arr_axistags := Some tags; arr_truth := arr_truth a |}.

(** [data.transpose()] on a tagged array reverses the axes. *)
Definition transpose (a : Array) : Array :=
  {| arr_dtype := arr_dtype a; arr_shape := reverse (arr_shape a);
     arr_axistags := reverse <$> arr_axistags a; arr_truth := arr_truth a |}.

(** [roiFromShape(shape)] *)
Definition roiFromShape (shape : list nat) : list nat * list nat :=
  (map (fun _ => 0) shape, shape).

(** [url.split('://')[1]] *)
Definition url_path (url : string) : result string :=
  match split "://" url with
  | _ :: path :: _ => Ok path
  | _ => Raise (IndexError "list index out of range")
  end.

(** [hostname, api, node, uuid, dataname = url_path.split('/')] *)
Definition unpack5 (parts : list string)
  : result (string * string * string * string * string) :=
  match parts with
  | [hostname; api; node; uuid; dataname] =>
      Ok (hostname, api, node, uuid, dataname)
  | _ =>
      Raise (ValueError
               (if bool_decide (length parts < 5)
                then "not enough values to unpack (expected 5, got "
                     +:+ str_of_nat (length parts) +:+ ")"
                else "too many values to unpack (expected 5)"))
  end.

(** Code that calls [self.progressSignal] and may raise: the outcome, and
    the values passed to the signal so far, in the order of the calls. *)
Definition Emit (A : Type) : Type := list Z -> result A * list Z.

Definition progressSignal (percent : Z) : Emit unit :=
  fun calls => (Ok tt, (calls ++ [percent])%list).

Definition call {A : Type} (r : result A) : Emit A := fun calls => (r, calls).

Definition andThen {A B : Type} (m : Emit A) (k : A -> Emit B) : Emit B :=
  fun calls =>
    match m calls with
    | (Ok a, calls') => k a calls'
    | (Raise e, calls') => (Raise e, calls')
    end.

Notation "'let*' x := m 'in' k" := (andThen m (fun x => k))
  (at level 10, x name, m at level 100, k at level 200).
Notation "'let*' ' pat := m 'in' k" :=
  (andThen m (fun x => let 'pat := x in k))
  (at level 10, pat pattern, m at level 100, k at level 200).

Definition run_export_steps (env : Env) (self : Op) : Emit unit :=
  let* _ := progressSignal 0 in
  let url := NodeDataUrl self in
  let* url_path := call (url_path url) in
  let* '(hostname, api, node, uuid, dataname) :=
    call (unpack5 (split "/" url_path)) in
  let* _ := call (assert (bool_decide (api = "api")) "") in
  let* _ := call (assert (bool_decide (node = "node")) "") in
  let* data := call (Input_wait env) in
  let data := taggedView_tags data (axistags (Input self)) in
  let data := if _transpose_axes self then transpose data else data in
  let metainfo :=
    {| mi_shape := arr_shape data; mi_dtype := arr_dtype data;
       mi_axistags := default [] (arr_axistags data) |} in
  let* _ := progressSignal 5 in
  let* _ := call (create_volume env hostname uuid dataname metainfo) in
  let* _ :=
    call (modify_subvolume env hostname uuid dataname
            (roiFromShape (arr_shape data)) data) in
  progressSignal 100.

(** [run_export]: the outcome and the calls of the progress signal. *)
Definition run_export (env : Env) (self : Op) : result unit * list Z :=
  run_export_steps env self [].

End OpExportDvidVolume.

(** ** Concrete inputs used as test cases *)
Module Scenario.

(** A provider whose output has the given shape and axes. *)
Definition provider (sh : list nat) (keys : string) (d : Dtype) : MetaDict :=
  {| shape := sh; dtype := d; axistags := defaultAxistags keys; extra := ∅ |}.

(** An environment in which every reader yields [outcome]. *)
Definition env (outcome : result MetaDict) : OpDataSelection.Env := {|
  OpDataSelection.streaming_reader := fun _ _ => outcome;
  OpDataSelection.input_data_reader := fun _ _ _ _ => outcome;
  OpDataSelection.zero_default := fun _ _ _ _ => outcome;
  OpDataSelection.get_default_axisordering := fun _ => Ok "yx";
  OpDataSelection.Point5D_LABELS := "txyzc";
  OpDataSelection.squeezed_keys :=
    fun d => Ok (map fst (filter (fun kv => kv.2 <> 1) d));
  OpDataSelection.set_pick := fun s => default "x"%char (head (elements s))
|}.

(** A dataset on the file system, as [DatasetInfo] leaves it for one
    existing file. *)
Definition dataset (path nick : string) : DatasetInfo.t := {|
  DatasetInfo.preloaded_array := None;
  DatasetInfo.filePath := Some path;
  DatasetInfo.allowLabels := true;
  DatasetInfo.drange := None;
  DatasetInfo.normalizeDisplay := Some false;
  DatasetInfo.sequenceAxis := None;
  DatasetInfo.axistags := None;
  DatasetInfo.original_axistags := None;
  DatasetInfo.laneShape := None;
  DatasetInfo.laneDtype := None;
  DatasetInfo.realDataSource := true;
  DatasetInfo.subvolume_roi := None;
  DatasetInfo.location := DatasetInfo.FileSystem;
  DatasetInfo.display_mode := "default";
  DatasetInfo.fromstack := false;
  DatasetInfo.original_paths := [path];
  DatasetInfo.nickname := Some nick;
  DatasetInfo.expanded_paths := Some [path]
|}.

(** The same dataset with the axis order [keys] chosen by the user. *)
Definition dataset_with_axes (path nick keys : string) : DatasetInfo.t := {|
  DatasetInfo.preloaded_array := None;
  DatasetInfo.filePath := Some path;
  DatasetInfo.allowLabels := true;
  DatasetInfo.drange := None;
  DatasetInfo.normalizeDisplay := Some false;
  DatasetInfo.sequenceAxis := None;
  DatasetInfo.axistags := Some (defaultAxistags keys);
  DatasetInfo.original_axistags := None;
  DatasetInfo.laneShape := None;
  DatasetInfo.laneDtype := None;
  DatasetInfo.realDataSource := true;
  DatasetInfo.subvolume_roi := None;
  DatasetInfo.location := DatasetInfo.FileSystem;
  DatasetInfo.display_mode := "default";
  DatasetInfo.fromstack := false;
  DatasetInfo.original_paths := [path];
  DatasetInfo.nickname := Some nick;
  DatasetInfo.expanded_paths := Some [path]
|}.

(** A freshly constructed operator with its required inputs set. *)
Definition operator (orders : list string) : OpDataSelection.Op :=
  OpDataSelection.init (OpDataSelection.AxisOrders orders) "Raw Data" None
    None "/data" (dataset "/data/volume.npy" "volume").

(** An operator whose dataset carries the axis order [keys]. *)
Definition operator_with_axes (orders : list string) (keys : string)
  : OpDataSelection.Op :=
  OpDataSelection.init (OpDataSelection.AxisOrders orders) "Raw Data" None
    None "/data" (dataset_with_axes "/data/volume.npy" "volume" keys).

(** The provider slot and the operator once the provider stages of
    [setupOutputs] have run. *)
Definition provided (e : OpDataSelection.Env) (op : OpDataSelection.Op)
  : MetaDict :=
  match (OpDataSelection.provide e (OpDataSelection.internalCleanup op)).1 with
  | Ok m => m
  | Raise _ => provider [] "" uint8
  end.

Definition after_provide (e : OpDataSelection.Env) (op : OpDataSelection.Op)
  : OpDataSelection.Op :=
  (OpDataSelection.provide e (OpDataSelection.internalCleanup op)).2.

(** Scenario A of the specification. *)
Definition provider_A : MetaDict := provider [1; 1; 50; 50; 1] "tzyxc" uint8.

(** A provider without spatial axes. *)
Definition provider_tc : MetaDict := provider [7; 3] "tc" uint8.

(** A colour image. *)
Definition provider_rgb : MetaDict := provider [50; 60; 3] "yxc" uint8.

(** Providers of rank 2 and of rank 3. *)
Definition provider_2d : MetaDict := provider [50; 60] "yx" float32.
Definition provider_3d : MetaDict := provider [40; 50; 60] "zyx" float32.

(** Readers that find a flat image at [/data/flat.npy] and a volume at
    every other path. *)
Definition env_by_path : OpDataSelection.Env := {|
  OpDataSelection.streaming_reader := fun _ _ => Ok provider_3d;
  OpDataSelection.input_data_reader :=
    fun _ _ _ path =>
      if decide (path = Some "/data/flat.npy") then Ok provider_2d
      else Ok provider_3d;
  OpDataSelection.zero_default := fun _ _ _ _ => Ok provider_3d;
  OpDataSelection.get_default_axisordering := fun _ => Ok "yx";
  OpDataSelection.Point5D_LABELS := "txyzc";
  OpDataSelection.squeezed_keys :=
    fun d => Ok (map fst (filter (fun kv => kv.2 <> 1) d));
  OpDataSelection.set_pick := fun s => default "x"%char (head (elements s))
|}.

(** An operator for a workflow that handles 2D and 3D data, first given
    the flat image. *)
Definition operator_2d_3d : OpDataSelection.Op :=
  OpDataSelection.init (OpDataSelection.AxisOrders ["yxc"; "zyxc"])
    "Raw Data" None None "/data" (dataset "/data/flat.npy" "flat").

(** A provider whose metadata carries a nickname, and an operator whose
    dataset has an empty one. *)
Definition provider_named : MetaDict :=
  {| shape := [50; 60]; dtype := uint8; axistags := defaultAxistags "yx";
     extra := {["nickname" := VStr "from-file"]} |}.

Definition operator_unnamed : OpDataSelection.Op :=
  OpDataSelection.init (OpDataSelection.AxisOrders ["yxc"]) "Raw Data"
    None None "/data" (dataset "/data/volume.npy" "").

(** A file system with the image stack [/data/s0.png], [/data/s1.png]. *)
Definition stack_files : DatasetInfo.Env := {|
  DatasetInfo.getcwd := "/data";
  DatasetInfo.glob :=
    fun pattern =>
      if decide (pattern = "/data/s*.png")
      then ["/data/s1.png"; "/data/s0.png"]
      else [];
  DatasetInfo.expanduser := fun p => p;
  DatasetInfo.PathComponents :=
    fun p =>
      {| DatasetInfo.externalPath := p;
         DatasetInfo.extension := "." +:+ List.last (split "." p) "";
         DatasetInfo.internalPath := None |};
  DatasetInfo.splitPath :=
    fun p => match p with Some s => split pathsep s | None => [] end;
  DatasetInfo.isUrl := fun _ => false;
  DatasetInfo.h5py_glob := fun _ _ => Ok [];
  DatasetInfo.z5py_glob := fun _ _ => Ok [];
  DatasetInfo.re_sub := fun _ _ s => s;
  DatasetInfo.recursion_limit := 1000
|}.

(** A one-element array whose element is true, and an empty array. *)
Definition array_true : Array :=
  {| arr_dtype := uint8; arr_shape := [1]; arr_axistags := None;
     arr_truth := Some true |}.

Definition array_empty : Array :=
  {| arr_dtype := uint8; arr_shape := [0]; arr_axistags := None;
     arr_truth := Some false |}.

Definition args_for_array (a : Array) : DatasetInfo.InitArgs := {|
  DatasetInfo.filepath := None;
  DatasetInfo.jsonNamespace := None;
  DatasetInfo.cwd := None;
  DatasetInfo.arg_preloaded_array := Some a;
  DatasetInfo.sequence_axis := None;
  DatasetInfo.arg_allowLabels := true;
  DatasetInfo.arg_subvolume_roi := None;
  DatasetInfo.arg_location := DatasetInfo.FileSystem;
  DatasetInfo.arg_axistags := None;
  DatasetInfo.arg_drange := None;
  DatasetInfo.arg_display_mode := "default";
  DatasetInfo.arg_nickname := "";
  DatasetInfo.arg_original_axistags := None;
  DatasetInfo.arg_laneShape := None;
  DatasetInfo.arg_normalizeDisplay := None;
  DatasetInfo.arg_laneDtype := None
|}.

(** A namespace that renames the dataset and gives it a display range. *)
Definition namespace_rename : DatasetInfo.Namespace := {|
  DatasetInfo.ns_filepath := None;
  DatasetInfo.ns_drange := Some (0, 65535)%Z;
  DatasetInfo.ns_nickname := Some "renamed";
  DatasetInfo.ns_axistags := Some "zyx";
  DatasetInfo.ns_subvolume_roi := None
|}.

(** A reader that cannot open its file. *)
Definition unreadable : result MetaDict :=
  Raise (OperatorError "OpInputDataReader" "Unable to open file").

(** A file system with the two files [/data/a.png] and [/data/b.jpg]. *)
Definition files : DatasetInfo.Env := {|
  DatasetInfo.getcwd := "/data";
  DatasetInfo.glob :=
    fun pattern =>
      if decide (pattern = "/data/a.png") then ["/data/a.png"]
      else if decide (pattern = "/data/b.jpg") then ["/data/b.jpg"]
      else if decide (pattern = "/data/*") then ["/data/a.png"; "/data/b.jpg"]
      else [];
  DatasetInfo.expanduser := fun p => p;
  DatasetInfo.PathComponents :=
    fun p =>
      {| DatasetInfo.externalPath := p;
         DatasetInfo.extension :=
           "." +:+ List.last (split "." p) "";
         DatasetInfo.internalPath := None |};
  DatasetInfo.splitPath :=
    fun p => match p with Some s => split pathsep s | None => [] end;
  DatasetInfo.isUrl := fun _ => false;
  DatasetInfo.h5py_glob := fun _ _ => Ok [];
  DatasetInfo.z5py_glob := fun _ _ => Ok [];
  DatasetInfo.re_sub := fun _ _ s => s;
  DatasetInfo.recursion_limit := 1000
|}.

(** The same file system, with [isUrl] recognising [http://] paths. *)
Definition web : DatasetInfo.Env := {|
  DatasetInfo.getcwd := DatasetInfo.getcwd files;
  DatasetInfo.glob := DatasetInfo.glob files;
  DatasetInfo.expanduser := DatasetInfo.expanduser files;
  DatasetInfo.PathComponents := DatasetInfo.PathComponents files;
  DatasetInfo.splitPath :=
    fun p => match p with Some s => [s] | None => [] end;
  DatasetInfo.isUrl := is_prefix "http://";
  DatasetInfo.h5py_glob := DatasetInfo.h5py_glob files;
  DatasetInfo.z5py_glob := DatasetInfo.z5py_glob files;
  DatasetInfo.re_sub := DatasetInfo.re_sub files;
  DatasetInfo.recursion_limit := DatasetInfo.recursion_limit files
|}.

Definition args_for (path : string) : DatasetInfo.InitArgs := {|
  DatasetInfo.filepath := Some path;
  DatasetInfo.jsonNamespace := None;
  DatasetInfo.cwd := None;
  DatasetInfo.arg_preloaded_array := None;
  DatasetInfo.sequence_axis := Some "z";
  DatasetInfo.arg_allowLabels := true;
  DatasetInfo.arg_subvolume_roi := None;
  DatasetInfo.arg_location := DatasetInfo.FileSystem;
  DatasetInfo.arg_axistags := None;
  DatasetInfo.arg_drange := None;
  DatasetInfo.arg_display_mode := "default";
  DatasetInfo.arg_nickname := "";
  DatasetInfo.arg_original_axistags := None;
  DatasetInfo.arg_laneShape := None;
  DatasetInfo.arg_normalizeDisplay := None;
  DatasetInfo.arg_laneDtype := None
|}.

(** An export to a mock DVID server that accepts every call. *)
Definition dvid : OpExportDvidVolume.Env := {|
  OpExportDvidVolume.Input_wait :=
    Ok {| arr_dtype := uint8; arr_shape := [4; 10; 100; 200; 4];
          arr_axistags := None; arr_truth := None |};
  OpExportDvidVolume.create_volume := fun _ _ _ _ => Ok tt;
  OpExportDvidVolume.modify_subvolume := fun _ _ _ _ _ => Ok tt
|}.

Definition exporter : OpExportDvidVolume.Op := {|
  OpExportDvidVolume._transpose_axes := true;
  OpExportDvidVolume.Input := provider [4; 10; 100; 200; 4] "tzyxc" uint8;
  OpExportDvidVolume.NodeDataUrl :=
    "http://localhost:8000/api/node/abcde/indices_data"
|}.

(** An exporter whose URL says [nodes] where [node] is required. *)
Definition exporter_bad_url : OpExportDvidVolume.Op := {|
  OpExportDvidVolume._transpose_axes := true;
  OpExportDvidVolume.Input := provider [4; 10; 100; 200; 4] "tzyxc" uint8;
  OpExportDvidVolume.NodeDataUrl :=
    "http://localhost:8000/api/nodes/abcde/indices_data"
|}.

End Scenario.

Import Scenario.

(** ** Predicates used in the statements *)

Definition nondecreasing (l : list Z) : Prop :=
  forall i a b, l !! i = Some a -> l !! S i = Some b -> (a <= b)%Z.

(** The pattern [expandPath] hands to [glob.glob] for one component. *)
Definition glob_pattern (env : DatasetInfo.Env) (cwd : string)
    (c : DatasetInfo.Components) : string :=
  DatasetInfo.expanduser env
    (if isabs (DatasetInfo.externalPath c) then DatasetInfo.externalPath c
     else path_join cwd (DatasetInfo.externalPath c)).

(** Some component of [file_path] matches no existing file. *)
Definition unmatched (env : DatasetInfo.Env) (file_path : string)
    (cwd : option string) : Prop :=
  exists c,
    c ∈ map (DatasetInfo.PathComponents env)
          (DatasetInfo.splitPath env (Some file_path)) /\
    DatasetInfo.glob env
      (glob_pattern env (DatasetInfo.cwd_or_getcwd env cwd) c) = [].

(** The slots and settings of the operator that are no child
    bookkeeping and no image output. *)
Definition settings (self : OpDataSelection.Op) :=
  (OpDataSelection.forceAxisOrder self, OpDataSelection.RoleName self,
   OpDataSelection.ProjectFile self, OpDataSelection.ProjectDataGroup self,
   OpDataSelection.WorkingDirectory self).

(** Reader lists as [setupOutputs] builds them: in the order of
    construction, and only of children constructed so far. *)
Fixpoint ascending (bound : nat) (l : list OpDataSelection.Child) : Prop :=
  match l with
  | [] => True
  | c :: rest =>
      OpDataSelection.serial c < bound /\
      Forall (fun c' => OpDataSelection.serial c < OpDataSelection.serial c')
        rest /\
      ascending bound rest
  end.

Fixpoint descending (l : list OpDataSelection.Child) : Prop :=
  match l with
  | [] => True
  | c :: rest =>
      Forall (fun c' => OpDataSelection.serial c' < OpDataSelection.serial c)
        rest /\
      descending rest
  end.

(** The invariant of [OpDataSelection]: an image output is connected only
    while there are readers, and the readers are listed as constructed. *)
Definition consistent (self : OpDataSelection.Op) : Prop :=
  (OpDataSelection._opReaders self = [] ->
   OpDataSelection.Image self = None /\
   OpDataSelection._NonTransposedImage self = None) /\
  ascending (OpDataSelection.constructed self)
    (OpDataSelection._opReaders self).

(** The states an operator goes through: constructed, then any sequence
    of [setupOutputs] runs, new [Dataset] values and unready
    notifications. *)
Inductive reachable (env : OpDataSelection.Env) : OpDataSelection.Op -> Prop :=
| reach_init force role project_file group directory dataset :
    reachable env
      (OpDataSelection.init force role project_file group directory dataset)
| reach_setupOutputs self :
    reachable env self ->
    reachable env (OpDataSelection.setupOutputs env self).2
| reach_Dataset info self :
    reachable env self ->
    reachable env (OpDataSelection.Dataset_setValue env info self).2
| reach_unready self :
    reachable env self ->
    reachable env (OpDataSelection.internalCleanup self).

(** * Properties *)

Local Open Scope list_scope.

(** ** Lists and sorting *)

Section SortedFacts.
Context {A : Type} (key : A -> nat).

Let le (a b : A) : bool := Nat.leb (key a) (key b).

Lemma insert_sorted_not_nil (x : A) (l : list A) : insert_sorted le x l <> [].
Proof. destruct l as [|y l]; simpl; [done|]. by destruct (le x y). Qed.

Lemma sorted_nil_inv (l : list A) : sorted le l = [] -> l = [].
Proof.
  destruct l as [|x l]; [done|]. simpl. intros H.
  by apply insert_sorted_not_nil in H.
Qed.

(** The head of a stably sorted list is the first element of minimal key:
    everything before it in the input is strictly larger, everything after
    it is at least as large. *)
Lemma sorted_head_first_minimal (l : list A) (o : A) (rest : list A) :
  sorted le l = o :: rest ->
  exists pre post,
    l = pre ++ o :: post /\
    Forall (fun o' => key o < key o') pre /\
    Forall (fun o' => key o <= key o') post.
Proof.
  revert o rest. induction l as [|x l IH]; intros o rest; [done|].
  simpl. destruct (sorted le l) as [|y r] eqn:Hs.
  - apply sorted_nil_inv in Hs as ->. simpl. intros [= <- <-].
    exists [], []. by repeat split.
  - destruct (IH y r eq_refl) as (pre & post & -> & Hpre & Hpost).
    simpl. unfold le at 1. destruct (Nat.leb (key x) (key y)) eqn:Hle.
    + intros [= <- <-]. apply Nat.leb_le in Hle.
      exists [], (pre ++ y :: post). repeat split; [constructor|].
      apply Forall_app. split; [|constructor].
      * eapply Forall_impl; [exact Hpre|]. simpl. lia.
      * exact Hle.
      * eapply Forall_impl; [exact Hpost|]. simpl. lia.
    + intros [= <- <-]. apply Nat.leb_gt in Hle.
      exists (x :: pre), post. repeat split; [|done].
      by constructor.
Qed.

End SortedFacts.

Lemma filter_split_inv {A : Type} (P : A -> bool) (l pre post : list A) (o : A) :
  List.filter P l = pre ++ o :: post ->
  exists pre0 post0,
    l = pre0 ++ o :: post0 /\ P o = true /\
    List.filter P pre0 = pre /\ List.filter P post0 = post.
Proof.
  revert pre. induction l as [|x l IH]; intros pre; simpl.
  - by destruct pre.
  - destruct (P x) eqn:Hx.
    + destruct pre as [|p pre]; simpl.
      * intros [= -> <-]. exists [], l. by repeat split.
      * intros [= -> H]. destruct (IH _ H) as (pre0 & post0 & -> & ? & ? & ?).
        exists (p :: pre0), post0. repeat split; [done| |done].
        simpl. rewrite Hx. by f_equal.
    + intros H. destruct (IH _ H) as (pre0 & post0 & -> & ? & ? & ?).
      exists (x :: pre0), post0. repeat split; [done| |done].
      simpl. by rewrite Hx.
Qed.

Lemma Forall_filter_inv {A : Type} (P : A -> bool) (Q : A -> Prop) (l : list A) :
  Forall Q (List.filter P l) -> Forall (fun a => P a = true -> Q a) l.
Proof.
  induction l as [|x l IH]; simpl; [constructor|].
  destruct (P x) eqn:Hx.
  - intros H. apply Forall_cons in H as [? ?]. constructor; auto.
  - intros H. constructor; [congruence|auto].
Qed.

(** ** [OpExportDvidVolume.run_export] *)

(** C7: a successful [run_export] calls the progress signal with 0, then
    5, then 100: every value is an integer between 0 and 100, the first is
    0, the last is 100, and the sequence never decreases. *)
Theorem C7_run_export_progress (env : OpExportDvidVolume.Env)
    (self : OpExportDvidVolume.Op) (calls : list Z) :
  OpExportDvidVolume.run_export env self = (Ok tt, calls) ->
  calls = [0; 5; 100]%Z /\
  Forall (fun p => 0 <= p <= 100)%Z calls /\
  head calls = Some 0%Z /\
  last calls = Some 100%Z /\
  nondecreasing calls.
Proof.
  intros Hrun.
  assert (calls = [0; 5; 100]%Z) as ->.
  { revert Hrun.
    unfold OpExportDvidVolume.run_export, OpExportDvidVolume.run_export_steps,
      OpExportDvidVolume.andThen, OpExportDvidVolume.call,
      OpExportDvidVolume.progressSignal.
    simpl.
    destruct (OpExportDvidVolume.url_path _) as [path|]; [|done].
    destruct (OpExportDvidVolume.unpack5 _) as [[[[[host api] node] uuid] name]|];
      [|done].
    destruct (assert (bool_decide (api = "api")) "") as [[]|]; [|done].
    destruct (assert (bool_decide (node = "node")) "") as [[]|]; [|done].
    destruct (OpExportDvidVolume.Input_wait env) as [data|]; [|done].
    simpl.
    destruct (OpExportDvidVolume.create_volume _ _ _ _ _) as [[]|]; [|done].
    destruct (OpExportDvidVolume.modify_subvolume _ _ _ _ _ _) as [[]|];
      [|done].
    by intros [= <-]. }
  split; [done|]. split; [repeat constructor; lia|].
  split; [done|]. split; [done|].
  intros [|[|[|i]]] a b; simpl; intros [= <-] [= <-] || intros [=]; lia.
Qed.

Lemma C7_run_export_progress_witness :
  OpExportDvidVolume.run_export dvid exporter = (Ok tt, [0; 5; 100]%Z) /\
  nondecreasing [0; 5; 100]%Z.
Proof.
  split; [reflexivity|].
  apply (C7_run_export_progress dvid exporter [0; 5; 100]%Z).
  reflexivity.
Defined.

(** ** [DatasetInfo] *)

Section DatasetInfoFacts.
Import DatasetInfo.
Variable env : Env.

Lemma expand_components_raises
    (rec : string -> option string -> result (list string)) (cwd : string)
    (comps : list Components) (acc : list string) :
  (exists c, c ∈ comps /\ glob env (glob_pattern env cwd c) = []) ->
  raises (expand_components env rec cwd comps acc).
Proof.
  revert acc. induction comps as [|c0 comps IH]; intros acc (c & Hin & Hg).
  - by apply elem_of_nil in Hin.
  - simpl. destruct (proj1 (elem_of_cons _ _ _) Hin) as [->|Hin'].
    + unfold glob_pattern in Hg. by rewrite Hg.
    + assert (forall acc', raises (expand_components env rec cwd comps acc'))
        as IH' by (intros; apply IH; eauto).
      clear Hg. destruct (glob env _) as [|u us]; [done|].
      destruct (expand_unglobbed env rec c0 (u :: us) acc) as [acc'|e];
        [|done].
      cbn. apply IH'.
Qed.

Lemma expandPath_at_raises (depth : nat) (file_path : string)
    (cwd : option string) :
  unmatched env file_path cwd ->
  raises (expandPath_at env depth file_path cwd).
Proof.
  intros Hun. destruct depth as [|depth]; [done|].
  simpl. unfold expandPath_body.
  pose proof (expand_components_raises (expandPath_at env depth)
                (cwd_or_getcwd env cwd)
                (map (PathComponents env) (splitPath env (Some file_path)))
                [] Hun) as Hr.
  by destruct (expand_components _ _ _ _ _).
Qed.

Lemma cwd_or_getcwd_idem (cwd : option string) :
  cwd_or_getcwd env (Some (cwd_or_getcwd env cwd)) = cwd_or_getcwd env cwd.
Proof.
  unfold cwd_or_getcwd. destruct cwd as [[|a c]|]; simpl;
    by destruct (getcwd env).
Qed.

End DatasetInfoFacts.

(** C6: when a component of a file-system path matches no existing file,
    the error is raised while the path is expanded: [expandPath] raises,
    so does [create_nickname], and so does the construction of a
    [DatasetInfo] for that path; no object is built whose later read
    could fail instead. *)
Theorem C6_unmatched_path_raises_eagerly (env : DatasetInfo.Env)
    (file_path : string) (cwd : option string) :
  unmatched env file_path cwd ->
  raises (DatasetInfo.expandPath env file_path cwd) /\
  raises (DatasetInfo.create_nickname env file_path cwd) /\
  forall args : DatasetInfo.InitArgs,
    DatasetInfo.filepath args = Some file_path ->
    truthy (Some file_path) = true ->
    DatasetInfo.isUrl env file_path = false ->
    DatasetInfo.arg_location args = DatasetInfo.FileSystem ->
    DatasetInfo.cwd args = cwd ->
    raises (DatasetInfo.init env args).
Proof.
  intros Hun.
  assert (forall cwd', unmatched env file_path cwd' ->
            raises (DatasetInfo.create_nickname env file_path cwd')) as Hnick.
  { intros cwd' Hun'. unfold DatasetInfo.create_nickname.
    pose proof (expandPath_at_raises env (DatasetInfo.recursion_limit env)
                  file_path cwd' Hun') as Hr.
    unfold DatasetInfo.expandPath.
    by destruct (DatasetInfo.expandPath_at _ _ _ _). }
  split; [by apply expandPath_at_raises|]. split; [by apply Hnick|].
  intros args Hpath Htruthy Hurl Hloc Hcwd.
  unfold DatasetInfo.init.
  destruct (DatasetInfo.init_precondition args) as [[]|] eqn:Hpre; [|done].
  cbn. unfold DatasetInfo.init_location, DatasetInfo.init_fields. cbn.
  unfold DatasetInfo.init_precondition, assert in Hpre.
  rewrite Hpath, Htruthy in Hpre. simpl in Hpre.
  rewrite orb_false_r in Hpre.
  destruct (bool_decide (DatasetInfo.arg_preloaded_array args = None)) eqn:Hnone;
    [|done].
  apply bool_decide_eq_true in Hnone. rewrite Hnone. cbn.
  rewrite Hpath, Htruthy. cbn. rewrite Hurl, Hloc. cbn.
  assert (unmatched env file_path
            (Some (DatasetInfo.cwd_or_getcwd env (DatasetInfo.cwd args)))) as Hun'.
  { destruct Hun as (c & Hin & Hg). exists c. split; [done|].
    by rewrite cwd_or_getcwd_idem, Hcwd. }
  apply Hnick in Hun'.
  by destruct (DatasetInfo.create_nickname _ _ _).
Qed.

Lemma C6_unmatched_path_raises_eagerly_witness :
  DatasetInfo.init files (args_for "/data/missing.png")
  = Raise (Exception "Could not find file at /data/missing.png") /\
  raises (DatasetInfo.init files (args_for "/data/missing.png")).
Proof.
  split; [reflexivity|].
  refine (proj2 (proj2 (C6_unmatched_path_raises_eagerly files
                          "/data/missing.png" None _))
            (args_for "/data/missing.png") _ _ _ _ _);
    try reflexivity.
  exists (DatasetInfo.PathComponents files "/data/missing.png").
  split; [|reflexivity].
  apply list_elem_of_singleton. reflexivity.
Defined.

(** C5 as the code has it: when the files a path expands to do not all
    share one extension, [create_nickname] raises and returns no nickname.
    What it raises is the [NameError] of the name [filePath], which the
    message of the intended plain [Exception] reads: not a
    [DatasetConstraintError], and an exception that carries no operator
    name. *)
Theorem C5_mixed_extensions_raise (env : DatasetInfo.Env) (filepath : string)
    (cwd : option string) (paths : list string) (p q : string) :
  DatasetInfo.expandPath env filepath cwd = Ok paths ->
  p ∈ paths -> q ∈ paths ->
  DatasetInfo.extension (DatasetInfo.PathComponents env p)
  <> DatasetInfo.extension (DatasetInfo.PathComponents env q) ->
  exists e,
    DatasetInfo.create_nickname env filepath cwd = Raise e /\
    e = NameError "filePath" /\
    is_constraint_error e = false /\
    operator_name e = None.
Proof.
  intros Hexp Hp Hq Hne. unfold DatasetInfo.create_nickname.
  rewrite Hexp. cbn.
  set (first := default "" _).
  assert (existsb
            (fun comp => negb (bool_decide (DatasetInfo.extension comp = first)))
            (map (DatasetInfo.PathComponents env) paths) = true) as ->.
  { apply existsb_exists.
    destruct (decide (DatasetInfo.extension (DatasetInfo.PathComponents env p)
                      = first)) as [Hpf|Hpf].
    - exists (DatasetInfo.PathComponents env q). split.
      + apply list_elem_of_In, list_elem_of_fmap. eauto.
      + apply negb_true_iff, bool_decide_eq_false. congruence.
    - exists (DatasetInfo.PathComponents env p). split.
      + apply list_elem_of_In, list_elem_of_fmap. eauto.
      + by apply negb_true_iff, bool_decide_eq_false. }
  eexists. repeat split; reflexivity.
Qed.

Lemma C5_mixed_extensions_raise_witness :
  exists e,
    DatasetInfo.create_nickname files "/data/*" None = Raise e /\
    e = NameError "filePath" /\
    is_constraint_error e = false /\
    operator_name e = None.
Proof.
  apply (C5_mixed_extensions_raise files "/data/*" None
           ["/data/a.png"; "/data/b.jpg"] "/data/a.png" "/data/b.jpg").
  - reflexivity.
  - apply list_elem_of_here.
  - apply list_elem_of_further, list_elem_of_here.
  - discriminate.
Defined.

(** The files [/data/a.png] and [/data/b.jpg] form a stack of mixed
    extensions, and [create_nickname] raises [NameError] on it: no
    [DatasetConstraintError], no operator name, no explanation. *)
Lemma C5_counterexample :
  DatasetInfo.expandPath files "/data/*" None
  = Ok ["/data/a.png"; "/data/b.jpg"] /\
  DatasetInfo.create_nickname files "/data/*" None
  = Raise (NameError "filePath") /\
  ~ (exists name message,
       DatasetInfo.create_nickname files "/data/*" None
       = Raise (DatasetConstraintError name message)).
Proof.
  split; [reflexivity|]. split; [reflexivity|].
  intros (name & message & H). discriminate H.
Qed.

(** C9: the constructor fails on its first line when both a preloaded
    array and a non-empty [filepath] are given, and that assertion passes
    whenever at most one of the two is given. *)
Theorem C9_filepath_and_array_exclusive (env : DatasetInfo.Env)
    (args : DatasetInfo.InitArgs) :
  (DatasetInfo.arg_preloaded_array args <> None ->
   truthy (DatasetInfo.filepath args) = true ->
   DatasetInfo.init env args
   = Raise (AssertionError "You can't provide filepath and a preloaded_array"))
  /\
  (DatasetInfo.arg_preloaded_array args = None
   \/ truthy (DatasetInfo.filepath args) = false ->
   DatasetInfo.init_precondition args = Ok tt).
Proof.
  unfold DatasetInfo.init, DatasetInfo.init_precondition, assert. split.
  - intros Harr Hpath. rewrite Hpath.
    by rewrite bool_decide_eq_false_2.
  - intros [Harr|Hpath].
    + by rewrite bool_decide_eq_true_2.
    + rewrite Hpath. by rewrite orb_true_r.
Qed.

Lemma C9_filepath_and_array_exclusive_witness :
  let array := {| arr_dtype := uint8; arr_shape := [2; 2];
                  arr_axistags := None; arr_truth := None |} in
  let args :=
    {| DatasetInfo.filepath := Some "/data/a.png";
       DatasetInfo.jsonNamespace := None; DatasetInfo.cwd := None;
       DatasetInfo.arg_preloaded_array := Some array;
       DatasetInfo.sequence_axis := None;
       DatasetInfo.arg_allowLabels := true;
       DatasetInfo.arg_subvolume_roi := None;
       DatasetInfo.arg_location := DatasetInfo.FileSystem;
       DatasetInfo.arg_axistags := None; DatasetInfo.arg_drange := None;
       DatasetInfo.arg_display_mode := "default";
       DatasetInfo.arg_nickname := "";
       DatasetInfo.arg_original_axistags := None;
       DatasetInfo.arg_laneShape := None;
       DatasetInfo.arg_normalizeDisplay := None;
       DatasetInfo.arg_laneDtype := None |} in
  DatasetInfo.init files args
  = Raise (AssertionError "You can't provide filepath and a preloaded_array")
  /\ DatasetInfo.init_precondition (args_for "/data/a.png") = Ok tt.
Proof.
  intros array args. split.
  - apply (proj1 (C9_filepath_and_array_exclusive files args));
      [discriminate|reflexivity].
  - apply (proj2 (C9_filepath_and_array_exclusive files
                    (args_for "/data/a.png"))).
    left. reflexivity.
Defined.

(** ** [OpDataSelection]: metadata injection *)

Lemma inject_axistags_drange (env : OpDataSelection.Env) (info : AxisTags)
    (m : MetaDict) (metadata metadata' : gmap string MetaValue) :
  OpDataSelection.inject_axistags env info m metadata = Ok metadata' ->
  metadata' !! "drange" = metadata !! "drange".
Proof.
  unfold OpDataSelection.inject_axistags.
  destruct (OpDataSelection.squeezed_keys env _) as [squeezed|]; [|done].
  cbn. repeat case_match; try done.
  - intros [= <-]. by rewrite lookup_insert_ne.
  - intros [= <-]. by rewrite lookup_insert_ne.
  - destruct (OpDataSelection.reinterpret_axes _ _ _ _ _ _); [|done].
    cbn. intros [= <-]. by rewrite lookup_insert_ne.
Qed.

Lemma inject_drange_lookup (info : DatasetInfo.t) (m : MetaDict)
    (metadata : gmap string MetaValue) :
  metadata !! "drange" = None ->
  OpDataSelection.inject_drange info m metadata !! "drange"
  = match DatasetInfo.drange info with
    | Some d => Some (VDRange d)
    | None =>
        if decide (dtype m = uint8) then Some (VDRange (0, 255)%Z) else None
    end.
Proof.
  intros Hnone. unfold OpDataSelection.inject_drange.
  destruct (DatasetInfo.drange info); [by rewrite lookup_insert_eq|].
  destruct (decide (dtype m = uint8)); [by rewrite lookup_insert_eq|done].
Qed.

(** The key [drange] of the dictionary [metadata]: no statement after
    lines 479 to 482 touches it. *)
Lemma build_metadata_drange (env : OpDataSelection.Env) (role_name : string)
    (datasetInfo : DatasetInfo.t) (m : MetaDict)
    (metadata : gmap string MetaValue) :
  OpDataSelection.build_metadata env role_name datasetInfo m = Ok metadata ->
  metadata !! "drange"
  = match DatasetInfo.drange datasetInfo with
    | Some d => Some (VDRange d)
    | None =>
        if decide (dtype m = uint8) then Some (VDRange (0, 255)%Z) else None
    end.
Proof.
  unfold OpDataSelection.build_metadata.
  set (md0 := <["channel_names" := _]> _).
  assert (md0 !! "drange" = None) as H0.
  { unfold md0. by rewrite !lookup_insert_ne. }
  pose proof (inject_drange_lookup datasetInfo m md0 H0) as H1.
  set (md1 := OpDataSelection.inject_drange datasetInfo m md0) in *.
  set (md2 := match DatasetInfo.normalizeDisplay datasetInfo with
              | Some b => <["normalizeDisplay" := VBool b]> md1
              | None => md1
              end).
  assert (md2 !! "drange" = md1 !! "drange") as H2.
  { unfold md2. destruct (DatasetInfo.normalizeDisplay datasetInfo);
      [by rewrite lookup_insert_ne|done]. }
  destruct (match DatasetInfo.axistags datasetInfo with
            | Some info => OpDataSelection.inject_axistags env info m md2
            | None => Ok md2
            end) as [md3|] eqn:H3; [|done].
  assert (md3 !! "drange" = md2 !! "drange") as H3'.
  { destruct (DatasetInfo.axistags datasetInfo).
    - by eapply inject_axistags_drange.
    - by injection H3 as <-. }
  cbn. intros [= <-]. rewrite <- H1, <- H2, <- H3'.
  destruct (DatasetInfo.original_axistags datasetInfo),
    (DatasetInfo.subvolume_roi datasetInfo);
    by rewrite ?lookup_insert_ne.
Qed.

(** ** [OpDataSelection]: cleanup *)

Section CleanupFacts.
Import OpDataSelection.

Lemma cleanUp_all_fields (l : list Child) (s : Op) :
  let s' := foldl (fun s reader => cleanUp reader s) s l in
  settings s' = settings s /\ Dataset s' = Dataset s /\
  _opReaders s' = _opReaders s /\ constructed s' = constructed s /\
  cleaned_up s' = cleaned_up s ++ l /\
  Image s' = Image s /\ _NonTransposedImage s' = _NonTransposedImage s /\
  AllowLabels s' = AllowLabels s /\ ImageName s' = ImageName s.
Proof.
  revert s. induction l as [|c l IH]; intros s; simpl.
  - rewrite app_nil_r. by repeat split.
  - destruct (IH (cleanUp c s)) as (-> & -> & -> & -> & -> & -> & -> & -> & ->).
    simpl. rewrite <- app_assoc. by repeat split.
Qed.

Lemma internalCleanup_fields (s : Op) :
  let s' := internalCleanup s in
  settings s' = settings s /\ Dataset s' = Dataset s /\
  _opReaders s' = [] /\ constructed s' = constructed s /\
  cleaned_up s' = cleaned_up s ++ reverse (_opReaders s) /\
  Image s' = (if decide (_opReaders s = []) then Image s else None) /\
  _NonTransposedImage s'
  = (if decide (_opReaders s = []) then _NonTransposedImage s else None) /\
  AllowLabels s' = AllowLabels s /\ ImageName s' = ImageName s.
Proof.
  unfold internalCleanup. simpl.
  destruct (_opReaders s) as [|c l] eqn:Hr; simpl.
  - rewrite ?Hr, app_nil_r. by repeat split.
  - destruct (cleanUp_all_fields (reverse (c :: l))
                (set_NonTransposedImage None (set_Image None s)))
      as (H1 & H2 & H3 & H4 & H5 & H6 & H7 & H8 & H9).
    unfold settings in *. simpl in *. by repeat split.
Qed.

Lemma internalCleanup_idempotent (s : Op) :
  internalCleanup (internalCleanup s) = internalCleanup s.
Proof.
  destruct (internalCleanup_fields s) as (_ & _ & Hr & _).
  unfold internalCleanup at 1. simpl in Hr. by rewrite Hr.
Qed.

Lemma descending_snoc (l : list Child) (c : Child) :
  descending l -> Forall (fun c' => serial c < serial c') l ->
  descending (l ++ [c]).
Proof.
  induction l as [|d l IH]; simpl; [done|].
  intros [Hd Hl] Hall. apply Forall_cons in Hall as [Hcd Hall].
  split; [|by apply IH].
  apply Forall_app. split; [done|]. by constructor.
Qed.

Lemma ascending_reverse (bound : nat) (l : list Child) :
  ascending bound l -> descending (reverse l).
Proof.
  induction l as [|c l IH]; simpl; [done|].
  intros (_ & Hall & Hl). rewrite reverse_cons.
  apply descending_snoc; [by apply IH|].
  by apply Forall_reverse.
Qed.

End CleanupFacts.

(** C8: on a state of the operator, [internalCleanup] disconnects [Image]
    and [_NonTransposedImage], calls [cleanUp] on the readers from the
    last constructed to the first, leaves the reader list empty, and a
    second call changes nothing. *)
Theorem C8_internalCleanup_idempotent (self : OpDataSelection.Op) :
  consistent self ->
  let self' := OpDataSelection.internalCleanup self in
  OpDataSelection.Image self' = None /\
  OpDataSelection._NonTransposedImage self' = None /\
  OpDataSelection._opReaders self' = [] /\
  OpDataSelection.cleaned_up self'
  = OpDataSelection.cleaned_up self
    ++ reverse (OpDataSelection._opReaders self) /\
  descending (reverse (OpDataSelection._opReaders self)) /\
  OpDataSelection.internalCleanup self' = self'.
Proof.
  intros [Himg Hasc].
  destruct (internalCleanup_fields self)
    as (_ & _ & Hr & _ & Hc & Hi & Hn & _).
  simpl in *. rewrite Hi, Hn.
  destruct (decide (OpDataSelection._opReaders self = [])) as [He|He].
  - destruct (Himg He) as [-> ->].
    repeat split; try done.
    + by eapply ascending_reverse.
    + apply internalCleanup_idempotent.
  - repeat split; try done.
    + by eapply ascending_reverse.
    + apply internalCleanup_idempotent.
Qed.

(** ** [OpDataSelection]: the stages of [setupOutputs] *)

Section StageFacts.
Import OpDataSelection.

Local Arguments build_metadata : simpl never.
Local Arguments require_xy : simpl never.
Local Arguments choose_output_order : simpl never.
Local Arguments OpReorderAxes_Output : simpl never.
Local Arguments OpMetadataInjector_Output : simpl never.
Local Arguments array_meta : simpl never.
Local Arguments taggedView : simpl never.
Local Arguments meta_nickname : simpl never.

(** Run the state monad of one stage down to its outcomes. *)
Local Ltac run_stage :=
  unfold bindM, lift, read, modify, ret, construct, append_reader in *;
  simpl in *;
  repeat (case_match; simplify_eq/=).

(** What [provide] leaves behind: it touches neither the settings nor the
    [Image], [AllowLabels] and [ImageName] outputs; when it returns, two
    children were constructed and appended to the readers and
    [_NonTransposedImage] is connected; when it raises, at most one reader
    was appended and [_NonTransposedImage] is as before. *)
Lemma provide_outcome (env : Env) (s s' : Op) (r : result MetaDict) :
  provide env s = (r, s') ->
  settings s' = settings s /\ Dataset s' = Dataset s /\
  Image s' = Image s /\ AllowLabels s' = AllowLabels s /\
  ImageName s' = ImageName s /\ cleaned_up s' = cleaned_up s /\
  match r with
  | Ok m =>
      exists c0 c1,
        _opReaders s' = _opReaders s ++ [c0; c1] /\
        serial c0 = constructed s /\ serial c1 = S (constructed s) /\
        constructed s' = S (S (constructed s)) /\
        _NonTransposedImage s' = Some m
  | Raise _ =>
      _NonTransposedImage s' = _NonTransposedImage s /\
      constructed s <= constructed s' /\
      (_opReaders s' = _opReaders s \/
       exists c0,
         _opReaders s' = _opReaders s ++ [c0] /\
         serial c0 = constructed s /\ constructed s' = S (constructed s))
  end.
Proof.
  destruct s. unfold provide, select_provider, inject_metadata, settings.
  intros H. run_stage.
  all: repeat split; try done; try lia.
  all: try (rewrite <- app_assoc; simpl; eauto 10).
  all: try (left; done).
  all: try (right; eauto 10).
Qed.

(** What [normalize_axes] leaves behind. *)
Lemma normalize_axes_outcome (m : MetaDict) (s s' : Op) (r : result unit) :
  normalize_axes m s = (r, s') ->
  settings s' = settings s /\ Dataset s' = Dataset s /\
  AllowLabels s' = AllowLabels s /\ ImageName s' = ImageName s /\
  _NonTransposedImage s' = _NonTransposedImage s /\
  cleaned_up s' = cleaned_up s /\
  match require_xy m with
  | Raise e => r = Raise e /\ s' = s
  | Ok _ =>
      match choose_output_order (forceAxisOrder s) m with
      | Raise e => r = Raise e /\ s' = s
      | Ok output_order =>
          r = Ok tt /\
          Image s' = Some (OpReorderAxes_Output output_order m) /\
          _opReaders s'
          = _opReaders s
            ++ [{| serial := constructed s; class := OpReorderAxes |}] /\
          constructed s' = S (constructed s)
      end
  end.
Proof.
  destruct s. unfold normalize_axes, settings.
  intros H. run_stage. all: by repeat split.
Qed.

(** What [publish_names] leaves behind: it raises only when neither the
    image metadata nor the dataset has a nickname. *)
Lemma publish_names_outcome (s s' : Op) (r : result unit) :
  publish_names s = (r, s') ->
  settings s' = settings s /\ Image s' = Image s /\
  _NonTransposedImage s' = _NonTransposedImage s /\
  _opReaders s' = _opReaders s /\ constructed s' = constructed s /\
  cleaned_up s' = cleaned_up s /\
  AllowLabels s' = Some (DatasetInfo.allowLabels (Dataset s)) /\
  match r with
  | Ok _ => is_Some (ImageName s')
  | Raise e =>
      e = AttributeError "nickname" /\
      DatasetInfo.nickname (Dataset s) = None /\
      ImageName s' = ImageName s
  end.
Proof.
  destruct s as [? ? ? ? ? d ? ? ? ? ? ? ? ?]. destruct d.
  unfold publish_names, settings.
  intros H. run_stage. all: by repeat split.
Qed.

(** [select_provider] leaves the role name and the dataset alone. *)
Lemma select_provider_settings (env : Env) (s s' : Op) (r : result MetaDict) :
  select_provider env s = (r, s') ->
  RoleName s' = RoleName s /\ Dataset s' = Dataset s.
Proof.
  destruct s. unfold select_provider. intros H. run_stage. all: by split.
Qed.

(** When [inject_metadata] returns, what it returns and publishes on
    [_NonTransposedImage] is the output of the metadata injector, fed with
    the dictionary built from the dataset and the provider slot. *)
Lemma inject_metadata_outcome (env : Env) (providerSlot m : MetaDict)
    (s s' : Op) :
  inject_metadata env providerSlot s = (Ok m, s') ->
  exists metadata,
    build_metadata env (RoleName s) (Dataset s) providerSlot = Ok metadata /\
    m = OpMetadataInjector_Output metadata providerSlot /\
    _NonTransposedImage s' = Some m.
Proof.
  destruct s. unfold inject_metadata. intros H. run_stage.
  eexists. by repeat split.
Qed.

End StageFacts.

(** ** [OpDataSelection]: the choice of the axis order *)

Lemma covers_spec (m : MetaDict) (order : string) :
  OpDataSelection.covers m order = true <->
  forall k v, (k, v) ∈ getTaggedShape m -> 1 < v ->
              k ∈ list_ascii_of_string order.
Proof.
  unfold OpDataSelection.covers, OpDataSelection.minimal_axes.
  rewrite bool_decide_eq_true. split.
  - intros Hsub k v Hin Hv.
    assert (k ∈ (list_to_set (list_ascii_of_string order) : gset ascii)) as H.
    { apply Hsub, elem_of_list_to_set, list_elem_of_fmap.
      exists (k, v). split; [done|]. by apply list_elem_of_filter. }
    by apply elem_of_list_to_set in H.
  - intros H k Hk. apply elem_of_list_to_set in Hk.
    apply list_elem_of_fmap in Hk as ([k' v] & -> & Hin).
    apply list_elem_of_filter in Hin as [Hv Hin].
    apply elem_of_list_to_set. by eapply H.
Qed.

(** With a non-empty list of candidates, [choose_output_order] raises the
    constraint error when no candidate covers the axes of extent above
    one, and otherwise returns the first of the shortest covering
    candidates, with ['c'] appended when it has no channel axis. *)
Lemma choose_output_order_spec (m : MetaDict) (orders : list string) :
  orders <> [] ->
  match List.filter (OpDataSelection.covers m) orders with
  | [] =>
      OpDataSelection.choose_output_order (OpDataSelection.AxisOrders orders) m
      = Raise (DatasetConstraintError "DataSelection"
                 (OpDataSelection.incompatible_message m orders))
  | _ :: _ =>
      exists o pre post,
        orders = pre ++ o :: post /\
        OpDataSelection.covers m o = true /\
        Forall (fun o' => OpDataSelection.covers m o' = true ->
                          String.length o < String.length o') pre /\
        Forall (fun o' => OpDataSelection.covers m o' = true ->
                          String.length o <= String.length o') post /\
        OpDataSelection.choose_output_order
          (OpDataSelection.AxisOrders orders) m
        = Ok (if contains "c" o then o else o +:+ "c")
  end.
Proof.
  intros Hne. unfold OpDataSelection.choose_output_order. simpl.
  rewrite bool_decide_eq_true_2 by done.
  destruct (List.filter (OpDataSelection.covers m) orders) as [|f fs] eqn:Hf.
  - reflexivity.
  - unfold sorted_by_len.
    destruct (sorted _ (f :: fs)) as [|o rest] eqn:Hs.
    { by apply (sorted_nil_inv String.length) in Hs. }
    apply (sorted_head_first_minimal String.length) in Hs
      as (pre & post & Hsplit & Hpre & Hpost).
    rewrite <- Hf in Hsplit.
    apply filter_split_inv in Hsplit
      as (pre0 & post0 & -> & Ho & <- & <-).
    exists o, pre0, post0. repeat split; try done.
    + by apply Forall_filter_inv.
    + by apply Forall_filter_inv.
Qed.

(** ** [OpDataSelection.setupOutputs] *)

(** Once the provider stages have returned, [setupOutputs] is the rest of
    the [try] block followed by the [except] clause. *)
Lemma setupOutputs_after_provide (env : OpDataSelection.Env)
    (self st1 : OpDataSelection.Op) (m : MetaDict) :
  OpDataSelection.provide env (OpDataSelection.internalCleanup self)
  = (Ok m, st1) ->
  OpDataSelection.setupOutputs env self
  = match OpDataSelection.normalize_axes m st1 with
    | (Raise e, st2) => (Raise e, OpDataSelection.internalCleanup st2)
    | (Ok _, st2) =>
        match OpDataSelection.publish_names st2 with
        | (Ok _, st3) => (Ok tt, st3)
        | (Raise e, st3) => (Raise e, OpDataSelection.internalCleanup st3)
        end
    end.
Proof.
  intros Hp.
  unfold OpDataSelection.setupOutputs, OpDataSelection.configure,
    OpDataSelection.bindM.
  rewrite Hp.
  destruct (OpDataSelection.normalize_axes m st1) as [[[]|e] st2]; [|done].
  by destruct (OpDataSelection.publish_names st2) as [[[]|e] st3].
Qed.

Lemma require_xy_spec (m : MetaDict) :
  ("x"%char ∈ axistags m /\ "y"%char ∈ axistags m ->
   OpDataSelection.require_xy m = Ok tt) /\
  ("x"%char ∉ axistags m \/ "y"%char ∉ axistags m ->
   OpDataSelection.require_xy m
   = Raise (DatasetConstraintError "DataSelection"
              OpDataSelection.xy_message)).
Proof.
  unfold OpDataSelection.require_xy. split.
  - intros [Hx Hy]. by rewrite !bool_decide_eq_true_2.
  - intros [Hx|Hy].
    + by rewrite (bool_decide_eq_false_2 _ Hx).
    + rewrite (bool_decide_eq_false_2 _ Hy). by rewrite orb_true_r.
Qed.

(** C2: when the provider slot lacks the axis ['x'] or the axis ['y'],
    [setupOutputs] raises the constraint error of the data selection
    applet; afterwards [Image] and [_NonTransposedImage] are not ready and
    [AllowLabels] and [ImageName] are as they were before the call, so no
    output became ready.  When both axes are present the check passes. *)
Theorem C2_missing_spatial_axes (env : OpDataSelection.Env)
    (self st1 : OpDataSelection.Op) (m : MetaDict) :
  OpDataSelection.provide env (OpDataSelection.internalCleanup self)
  = (Ok m, st1) ->
  ("x"%char ∉ axistags m \/ "y"%char ∉ axistags m ->
   exists self',
     OpDataSelection.setupOutputs env self
     = (Raise (DatasetConstraintError "DataSelection"
                 OpDataSelection.xy_message), self') /\
     OpDataSelection.Image self' = None /\
     OpDataSelection._NonTransposedImage self' = None /\
     OpDataSelection.AllowLabels self' = OpDataSelection.AllowLabels self /\
     OpDataSelection.ImageName self' = OpDataSelection.ImageName self) /\
  ("x"%char ∈ axistags m /\ "y"%char ∈ axistags m ->
   OpDataSelection.require_xy m = Ok tt).
Proof.
  intros Hp. split; [|apply require_xy_spec].
  intros Hxy. rewrite (setupOutputs_after_provide _ _ _ _ Hp).
  destruct (OpDataSelection.normalize_axes m st1) as [r st2] eqn:Hn.
  apply normalize_axes_outcome in Hn as (_ & _ & _ & _ & _ & _ & Hn).
  rewrite (proj2 (require_xy_spec m) Hxy) in Hn. destruct Hn as [-> ->].
  eexists. split; [reflexivity|].
  apply provide_outcome in Hp
    as (_ & _ & _ & Ha & Hi & _ & c0 & c1 & Hr & _).
  destruct (internalCleanup_fields st1)
    as (_ & _ & _ & _ & _ & -> & -> & -> & ->).
  destruct (internalCleanup_fields self)
    as (_ & _ & _ & _ & _ & _ & _ & Ha0 & Hi0).
  simpl in *. rewrite Ha, Hi, Ha0, Hi0, Hr.
  destruct (decide (_ ++ [c0; c1] = [])) as [He|_]; [|done].
  by apply app_eq_nil in He as [_ ?].
Qed.

Lemma C2_missing_spatial_axes_witness :
  exists self',
    OpDataSelection.setupOutputs (env (Ok provider_tc)) (operator ["tczyx"])
    = (Raise (DatasetConstraintError "DataSelection"
                OpDataSelection.xy_message), self') /\
    OpDataSelection.Image self' = None /\
    OpDataSelection._NonTransposedImage self' = None /\
    OpDataSelection.AllowLabels self' = None /\
    OpDataSelection.ImageName self' = None.
Proof.
  set (E := env (Ok provider_tc)). set (O := operator ["tczyx"]).
  assert (OpDataSelection.provide E (OpDataSelection.internalCleanup O)
          = (Ok (provided E O), after_provide E O)) as Hp
    by (vm_compute; reflexivity).
  apply (proj1 (C2_missing_spatial_axes E O (after_provide E O)
                  (provided E O) Hp)).
  left. intros Hx%list_elem_of_In. vm_compute in Hx.
  intuition discriminate.
Defined.

(** What [provide] returns is the provider slot behind the metadata
    injector. *)
Lemma provide_injects (env : OpDataSelection.Env)
    (self st1 : OpDataSelection.Op) (m : MetaDict) :
  OpDataSelection.provide env (OpDataSelection.internalCleanup self)
  = (Ok m, st1) ->
  exists providerSlot metadata,
    (OpDataSelection.select_provider env
       (OpDataSelection.internalCleanup self)).1 = Ok providerSlot /\
    OpDataSelection.build_metadata env (OpDataSelection.RoleName self)
      (OpDataSelection.Dataset self) providerSlot = Ok metadata /\
    m = OpMetadataInjector_Output metadata providerSlot /\
    OpDataSelection._NonTransposedImage st1 = Some m.
Proof.
  intros Hp.
  destruct (internalCleanup_fields self) as (Hset0 & Hds0 & _).
  simpl in Hset0, Hds0.
  unfold OpDataSelection.provide, OpDataSelection.bindM in Hp.
  destruct (OpDataSelection.select_provider env
              (OpDataSelection.internalCleanup self)) as [[p|e] s0] eqn:Hs;
    [|done].
  apply select_provider_settings in Hs as [Hrole Hds].
  apply inject_metadata_outcome in Hp as (metadata & Hb & -> & Hnt).
  exists p, metadata. split; [done|]. split; [|done].
  rewrite <- Hb. f_equal; [|congruence].
  unfold settings in Hset0. congruence.
Qed.

(** A run of [setupOutputs] that returns keeps the slot that [provide]
    published on [_NonTransposedImage], and [Image] is a reordering of
    it. *)
Lemma setupOutputs_returns_provided (env : OpDataSelection.Env)
    (self st1 self' : OpDataSelection.Op) (m : MetaDict) :
  OpDataSelection.provide env (OpDataSelection.internalCleanup self)
  = (Ok m, st1) ->
  OpDataSelection.setupOutputs env self = (Ok tt, self') ->
  OpDataSelection._NonTransposedImage self' = Some m /\
  exists order,
    OpDataSelection.Image self' = Some (OpReorderAxes_Output order m).
Proof.
  intros Hp Hrun.
  rewrite (setupOutputs_after_provide _ _ _ _ Hp) in Hrun.
  apply provide_outcome in Hp as (_ & _ & _ & _ & _ & _ & _ & _ & _ & _ & _
                                  & _ & Hnt1).
  destruct (OpDataSelection.normalize_axes m st1) as [r2 st2] eqn:Hn.
  apply normalize_axes_outcome in Hn as (_ & _ & _ & _ & Hnt2 & _ & Hn).
  destruct (OpDataSelection.require_xy m) as [[]|].
  2: { destruct Hn as [-> ->]. done. }
  destruct (OpDataSelection.choose_output_order _ m) as [order|].
  2: { destruct Hn as [-> ->]. done. }
  destruct Hn as (-> & Himg & _).
  destruct (OpDataSelection.publish_names st2) as [[[]|e] st3] eqn:Hpub;
    [|done].
  injection Hrun as <-.
  apply publish_names_outcome in Hpub as (_ & Hi3 & Hnt3 & _).
  split; [congruence|]. exists order. congruence.
Qed.

(** C10: the dictionary that [setupOutputs] hands to the metadata injector
    has, as [drange], the dataset's [drange] when that is set, [(0, 255)]
    when it is not set and the provider's dtype is [uint8], and no such
    key otherwise.  The slot the injector publishes on
    [_NonTransposedImage] carries the injected value, or the provider's
    own where none is injected, and so does [Image] when [setupOutputs]
    returns. *)
Theorem C10_injected_drange (env : OpDataSelection.Env)
    (self st1 : OpDataSelection.Op) (m : MetaDict) :
  OpDataSelection.provide env (OpDataSelection.internalCleanup self)
  = (Ok m, st1) ->
  exists providerSlot metadata,
    (OpDataSelection.select_provider env
       (OpDataSelection.internalCleanup self)).1 = Ok providerSlot /\
    OpDataSelection.build_metadata env (OpDataSelection.RoleName self)
      (OpDataSelection.Dataset self) providerSlot = Ok metadata /\
    metadata !! "drange"
    = match DatasetInfo.drange (OpDataSelection.Dataset self) with
      | Some d => Some (VDRange d)
      | None =>
          if decide (dtype providerSlot = uint8)
          then Some (VDRange (0, 255)%Z) else None
      end /\
    m = OpMetadataInjector_Output metadata providerSlot /\
    OpDataSelection._NonTransposedImage st1 = Some m /\
    extra m !! "drange"
    = match metadata !! "drange" with
      | Some d => Some d
      | None => extra providerSlot !! "drange"
      end /\
    forall self',
      OpDataSelection.setupOutputs env self = (Ok tt, self') ->
      OpDataSelection._NonTransposedImage self' = Some m /\
      exists image,
        OpDataSelection.Image self' = Some image /\
        extra image !! "drange" = extra m !! "drange".
Proof.
  intros Hp.
  destruct (provide_injects _ _ _ _ Hp) as (p & metadata & Hs & Hb & Hm & Hnt).
  exists p, metadata.
  split; [done|]. split; [done|].
  split; [by eapply build_metadata_drange|].
  split; [done|]. split; [done|]. split.
  - rewrite Hm. unfold OpMetadataInjector_Output. simpl.
    rewrite lookup_union, lookup_delete_ne by done.
    destruct (metadata !! "drange"), (extra p !! "drange"); done.
  - intros self' Hrun.
    destruct (setupOutputs_returns_provided _ _ _ _ _ Hp Hrun)
      as (Hnt' & order & Himg).
    split; [done|]. by eexists.
Qed.

Lemma C10_injected_drange_witness :
  let E := env (Ok provider_A) in
  let O := operator ["tczyx"] in
  exists metadata,
    OpDataSelection.build_metadata E "Raw Data"
      (dataset "/data/volume.npy" "volume") provider_A = Ok metadata /\
    metadata !! "drange" = Some (VDRange (0, 255)%Z) /\
    OpDataSelection._NonTransposedImage (OpDataSelection.setupOutputs E O).2
    = Some (OpMetadataInjector_Output metadata provider_A) /\
    extra (OpMetadataInjector_Output metadata provider_A) !! "drange"
    = Some (VDRange (0, 255)%Z).
Proof.
  intros E O.
  assert (OpDataSelection.provide E (OpDataSelection.internalCleanup O)
          = (Ok (provided E O), after_provide E O)) as Hp
    by (vm_compute; reflexivity).
  destruct (C10_injected_drange E O (after_provide E O) (provided E O) Hp)
    as (p & metadata & Hs & Hb & Hd & Hm & _ & Hx & Hrun).
  assert (p = provider_A) as ->
    by (vm_compute in Hs; injection Hs as <-; reflexivity).
  exists metadata. split; [exact Hb|]. split; [exact Hd|].
  rewrite <- Hm. split.
  - apply (Hrun (OpDataSelection.setupOutputs E O).2).
    vm_compute. reflexivity.
  - rewrite Hx, Hd. reflexivity.
Defined.

(** C1 as the code has it: with a non-empty list of candidate orders and
    a provider slot that has its two spatial axes, [setupOutputs] raises
    the constraint error when no candidate contains every provider axis
    of extent above one; otherwise the output order is the first of the
    shortest such candidates, with ['c'] appended when it has no channel
    axis, and [Image] is connected to a reordering stage of that order.
    It stays connected when [setupOutputs] returns; the one way left to
    fail is a dataset without nickname. *)
Theorem C1_output_order_selection (env : OpDataSelection.Env)
    (self st1 : OpDataSelection.Op) (orders : list string) (m : MetaDict) :
  OpDataSelection.forceAxisOrder self = OpDataSelection.AxisOrders orders ->
  orders <> [] ->
  OpDataSelection.provide env (OpDataSelection.internalCleanup self)
  = (Ok m, st1) ->
  "x"%char ∈ axistags m -> "y"%char ∈ axistags m ->
  (List.filter (OpDataSelection.covers m) orders = [] ->
   exists self',
     OpDataSelection.setupOutputs env self
     = (Raise (DatasetConstraintError "DataSelection"
                 (OpDataSelection.incompatible_message m orders)), self')
     /\ OpDataSelection.Image self' = None)
  /\
  (List.filter (OpDataSelection.covers m) orders <> [] ->
      exists o pre post,
        orders = pre ++ o :: post /\
        (forall k v, (k, v) ∈ getTaggedShape m -> 1 < v ->
                     k ∈ list_ascii_of_string o) /\
        Forall (fun o' => OpDataSelection.covers m o' = true ->
                          String.length o < String.length o') pre /\
        Forall (fun o' => OpDataSelection.covers m o' = true ->
                          String.length o <= String.length o') post /\
        let output_order := if contains "c" o then o else o +:+ "c" in
        let image := OpReorderAxes_Output output_order m in
        axistags image = list_ascii_of_string output_order /\
        (exists st2,
           OpDataSelection.normalize_axes m st1 = (Ok tt, st2) /\
           OpDataSelection.Image st2 = Some image /\
           last (OpDataSelection._opReaders st2)
           = Some {| OpDataSelection.serial := OpDataSelection.constructed st1;
                     OpDataSelection.class := OpDataSelection.OpReorderAxes |})
        /\
        (forall r self',
           OpDataSelection.setupOutputs env self = (r, self') ->
           r = Ok tt /\ OpDataSelection.Image self' = Some image
           \/
           r = Raise (AttributeError "nickname") /\
           DatasetInfo.nickname (OpDataSelection.Dataset self) = None /\
           OpDataSelection.Image self' = None)).
Proof.
  intros Hforce Hne Hp Hx Hy.
  pose proof (choose_output_order_spec m orders Hne) as Hchoose.
  rewrite (setupOutputs_after_provide _ _ _ _ Hp).
  destruct (OpDataSelection.normalize_axes m st1) as [r2 st2] eqn:Hn.
  pose proof Hp as Hp'.
  apply provide_outcome in Hp' as (Hset & Hds & _ & _ & _ & _ & c0 & c1 & Hr1 & _).
  destruct (internalCleanup_fields self) as (Hset0 & Hds0 & _).
  simpl in Hset0, Hds0.
  assert (OpDataSelection.forceAxisOrder st1 = OpDataSelection.AxisOrders orders)
    as Hforce1.
  { unfold settings in Hset, Hset0. congruence. }
  apply normalize_axes_outcome in Hn
    as (_ & Hds2 & _ & _ & _ & _ & Hn).
  rewrite (proj1 (require_xy_spec m) (conj Hx Hy)), Hforce1 in Hn.
  destruct (List.filter (OpDataSelection.covers m) orders) as [|f fs];
    (split; [intros Hnil|intros Hcons]); try done.
  - rewrite Hchoose in Hn. destruct Hn as [-> ->].
    eexists. split; [reflexivity|].
    destruct (internalCleanup_fields st1) as (_ & _ & _ & _ & _ & -> & _).
    rewrite Hr1. destruct (decide (_ ++ [c0; c1] = [])) as [He|_]; [|done].
    by apply app_eq_nil in He as [_ ?].
  - destruct Hchoose as (o & pre & post & Hsplit & Hcov & Hpre & Hpost & Hc).
    exists o, pre, post. rewrite Hc in Hn.
    destruct Hn as (-> & Himg & Hr2 & Hcon).
    repeat split; try done.
    + by apply covers_spec.
    + exists st2. repeat split; [done|]. by rewrite Hr2, last_snoc.
    + intros r self'.
      destruct (OpDataSelection.publish_names st2) as [r3 st3] eqn:Hpub.
      apply publish_names_outcome in Hpub
        as (_ & Hi3 & _ & Hr3 & _ & _ & _ & Hpub).
      destruct r3 as [[]|e].
      * intros [= <- <-]. left. split; [done|]. by rewrite Hi3.
      * intros [= <- <-]. right. destruct Hpub as (-> & Hnick & _).
        repeat split; [congruence|].
        destruct (internalCleanup_fields st3) as (_ & _ & _ & _ & _ & -> & _).
        rewrite Hr3, Hr2.
        destruct (decide (_ ++ [_] = [])) as [He|_]; [|done].
        by apply app_eq_nil in He as [_ ?].
Qed.

(** Scenario A: a provider of shape (1,1,50,50,1) with axes "tzyxc" and
    the single candidate "tczyx". *)
Lemma C1_output_order_selection_witness :
  let run :=
    OpDataSelection.setupOutputs (env (Ok provider_A)) (operator ["tczyx"]) in
  run.1 = Ok tt /\
  axistags <$> OpDataSelection.Image run.2
  = Some (list_ascii_of_string "tczyx") /\
  shape <$> OpDataSelection.Image run.2 = Some [1; 1; 1; 50; 50].
Proof.
  intros run.
  set (E := env (Ok provider_A)). set (O := operator ["tczyx"]).
  assert (OpDataSelection.provide E (OpDataSelection.internalCleanup O)
          = (Ok (provided E O), after_provide E O)) as Hp
    by (vm_compute; reflexivity).
  assert ("x"%char ∈ axistags (provided E O)) as Hx
    by (apply list_elem_of_In; vm_compute; tauto).
  assert ("y"%char ∈ axistags (provided E O)) as Hy
    by (apply list_elem_of_In; vm_compute; tauto).
  assert (List.filter (OpDataSelection.covers (provided E O)) ["tczyx"] <> [])
    as Hcov by (vm_compute; discriminate).
  destruct (proj2 (C1_output_order_selection E O (after_provide E O)
                     ["tczyx"] (provided E O) eq_refl ltac:(discriminate)
                     Hp Hx Hy) Hcov)
    as (o & pre & post & Hsplit & _ & _ & _ & _ & _ & Hrun).
  assert (o = "tczyx") as ->.
  { clear -Hsplit. destruct pre as [|? [|? ?]]; simplify_eq/=; done. }
  destruct (Hrun run.1 run.2 (surjective_pairing _)) as [[Hr Hi]|[Hr _]].
  - split; [exact Hr|]. rewrite Hi. split; vm_compute; reflexivity.
  - vm_compute in Hr. discriminate Hr.
Defined.

(** ** [OpDataSelection]: the invariant *)

Lemma internalCleanup_consistent (x : OpDataSelection.Op) :
  (OpDataSelection._opReaders x = [] ->
   OpDataSelection.Image x = None /\
   OpDataSelection._NonTransposedImage x = None) ->
  consistent (OpDataSelection.internalCleanup x).
Proof.
  intros Hx.
  destruct (internalCleanup_fields x) as (_ & _ & Hr & _ & _ & Hi & Hn & _).
  simpl in *. split; [|by rewrite Hr].
  intros _. rewrite Hi, Hn.
  destruct (decide (OpDataSelection._opReaders x = [])); [auto|done].
Qed.

Lemma setupOutputs_provide_raises (env : OpDataSelection.Env)
    (self st1 : OpDataSelection.Op) (e : exn) :
  OpDataSelection.provide env (OpDataSelection.internalCleanup self)
  = (Raise e, st1) ->
  OpDataSelection.setupOutputs env self
  = (Raise e, OpDataSelection.internalCleanup st1).
Proof.
  intros Hp.
  unfold OpDataSelection.setupOutputs, OpDataSelection.configure,
    OpDataSelection.bindM.
  by rewrite Hp.
Qed.

Lemma setupOutputs_consistent (env : OpDataSelection.Env)
    (self : OpDataSelection.Op) :
  consistent self -> consistent (OpDataSelection.setupOutputs env self).2.
Proof.
  intros [Himg _].
  destruct (internalCleanup_fields self)
    as (_ & _ & Hr0 & Hc0 & _ & Hi0 & Hn0 & _).
  simpl in *.
  assert (OpDataSelection.Image (OpDataSelection.internalCleanup self) = None
          /\ OpDataSelection._NonTransposedImage
               (OpDataSelection.internalCleanup self) = None) as [Hi0' Hn0'].
  { rewrite Hi0, Hn0.
    destruct (decide (OpDataSelection._opReaders self = [])); auto. }
  destruct (OpDataSelection.provide env (OpDataSelection.internalCleanup self))
    as [[m|e] st1] eqn:Hp.
  - rewrite (setupOutputs_after_provide _ _ _ _ Hp).
    apply provide_outcome in Hp
      as (_ & _ & Hi1 & _ & _ & _ & c0 & c1 & Hr1 & Hs0 & Hs1 & Hc1 & _).
    rewrite Hr0 in Hr1. simpl in Hr1.
    destruct (OpDataSelection.normalize_axes m st1) as [r2 st2] eqn:Hn.
    apply normalize_axes_outcome in Hn as (_ & _ & _ & _ & _ & _ & Hn).
    destruct (OpDataSelection.require_xy m).
    2: { destruct Hn as [-> ->]. simpl. apply internalCleanup_consistent.
         by rewrite Hr1. }
    destruct (OpDataSelection.choose_output_order _ m).
    2: { destruct Hn as [-> ->]. simpl. apply internalCleanup_consistent.
         by rewrite Hr1. }
    destruct Hn as (-> & _ & Hr2 & Hc2). rewrite Hr1 in Hr2. simpl in Hr2.
    destruct (OpDataSelection.publish_names st2) as [r3 st3] eqn:Hpub.
    apply publish_names_outcome in Hpub
      as (_ & _ & _ & Hr3 & Hc3 & _).
    destruct r3 as [[]|e]; simpl.
    + split; rewrite Hr3, Hr2; [done|]. simpl.
      rewrite Hc3, Hc2, Hc1, Hs0, Hs1.
      repeat split; repeat constructor; simpl; lia.
    + apply internalCleanup_consistent. by rewrite Hr3, Hr2.
  - rewrite (setupOutputs_provide_raises _ _ _ _ Hp). simpl.
    apply provide_outcome in Hp as (_ & _ & Hi1 & _ & _ & _ & Hn1 & _ & Hr1).
    apply internalCleanup_consistent. intros _. split; congruence.
Qed.

(** Every state the operator goes through satisfies the invariant. *)
Lemma reachable_consistent (env : OpDataSelection.Env)
    (self : OpDataSelection.Op) :
  reachable env self -> consistent self.
Proof.
  induction 1 as [| self _ IH | info self _ IH | self _ IH].
  - by split.
  - by apply setupOutputs_consistent.
  - apply setupOutputs_consistent. destruct self. exact IH.
  - apply internalCleanup_consistent, IH.
Qed.

Lemma C8_internalCleanup_idempotent_witness :
  let self :=
    (OpDataSelection.setupOutputs (env (Ok provider_A))
       (operator ["tczyx"])).2 in
  let self' := OpDataSelection.internalCleanup self in
  map OpDataSelection.serial (OpDataSelection._opReaders self) = [0; 1; 2] /\
  map OpDataSelection.serial (OpDataSelection.cleaned_up self') = [2; 1; 0] /\
  OpDataSelection.Image self' = None /\
  OpDataSelection.internalCleanup self' = self'.
Proof.
  intros self self'.
  assert (consistent self) as Hc.
  { apply (reachable_consistent (env (Ok provider_A))).
    apply reach_setupOutputs. apply reach_init. }
  destruct (C8_internalCleanup_idempotent self Hc)
    as (Hi & _ & _ & Hlog & _ & Hidem).
  split; [reflexivity|]. split; [|by split].
  unfold self'. rewrite Hlog. vm_compute. reflexivity.
Defined.

(** What does hold when [setupOutputs] raises: the reader list is empty
    and the image outputs are not ready. *)
Lemma setupOutputs_raise_disconnects (env : OpDataSelection.Env)
    (self self' : OpDataSelection.Op) (e : exn) :
  consistent self ->
  OpDataSelection.setupOutputs env self = (Raise e, self') ->
  OpDataSelection._opReaders self' = [] /\
  OpDataSelection.Image self' = None /\
  OpDataSelection._NonTransposedImage self' = None.
Proof.
  intros Hc Hrun.
  pose proof (setupOutputs_consistent env self Hc) as [Himg _].
  rewrite Hrun in Himg. simpl in Himg.
  assert (OpDataSelection._opReaders self' = []) as Hr; [|by auto].
  revert Hrun. unfold OpDataSelection.setupOutputs.
  destruct (OpDataSelection.configure env _) as [[[]|e'] st]; [done|].
  intros [= _ <-].
  by destruct (internalCleanup_fields st) as (_ & _ & ? & _).
Qed.

(** C3, at the input on which the code leaks: the file reader raises when
    its inputs are set.  [setupOutputs] re-raises that exception, the
    reader list is empty and the image outputs are not ready, but the
    reader constructed during the call was never in [_opReaders]: it is
    still a child of the operator and [cleanUp] was not called on it. *)
Theorem C3_unregistered_reader_leaks :
  let run := OpDataSelection.setupOutputs (env unreadable) (operator ["tczyx"]) in
  let reader := {| OpDataSelection.serial := 0;
                   OpDataSelection.class := OpDataSelection.OpInputDataReader |} in
  run.1 = Raise (OperatorError "OpInputDataReader" "Unable to open file") /\
  OpDataSelection._opReaders run.2 = [] /\
  OpDataSelection.Image run.2 = None /\
  OpDataSelection._NonTransposedImage run.2 = None /\
  OpDataSelection.children (operator ["tczyx"]) = [] /\
  OpDataSelection.children run.2 = [reader] /\
  reader ∉ OpDataSelection.cleaned_up run.2.
Proof.
  vm_compute. repeat split; try reflexivity.
  intros H. inversion H.
Qed.

(** C4, at the input on which the code differs: the operator is set up
    with an image of rank 2, then [Dataset] is replaced by a volume of
    rank 3.  The second [setupOutputs] returns normally, with the outputs
    reconfigured to the new rank; no [InvalidDimensionalityError]. *)
Theorem C4_replacement_of_other_rank_accepted :
  let first := OpDataSelection.setupOutputs env_by_path operator_2d_3d in
  let second :=
    OpDataSelection.Dataset_setValue env_by_path
      (dataset "/data/stack.npy" "stack") first.2 in
  first.1 = Ok tt /\
  shape <$> OpDataSelection._NonTransposedImage first.2 = Some [50; 60] /\
  shape <$> OpDataSelection.Image first.2 = Some [50; 60; 1] /\
  second.1 = Ok tt /\
  shape <$> OpDataSelection._NonTransposedImage second.2 = Some [40; 50; 60] /\
  shape <$> OpDataSelection.Image second.2 = Some [40; 50; 60; 1] /\
  OpDataSelection.ImageName second.2 = Some (Some "stack").
Proof.
  vm_compute. repeat split; reflexivity.
Qed.

(** A provider with the axes "tc" of extents 7 and 3 and the candidate
    "tczyx": the candidate contains every axis of extent above one, yet no
    order is selected and [Image] is not connected, because the check for
    the spatial axes raises first. *)
Lemma C1_counterexample :
  let E := env (Ok provider_tc) in
  let O := operator ["tczyx"] in
  OpDataSelection.forceAxisOrder O = OpDataSelection.AxisOrders ["tczyx"] /\
  OpDataSelection.provide E (OpDataSelection.internalCleanup O)
  = (Ok (provided E O), after_provide E O) /\
  getTaggedShape (provided E O) = [("t"%char, 7); ("c"%char, 3)] /\
  List.filter (OpDataSelection.covers (provided E O)) ["tczyx"] = ["tczyx"] /\
  (OpDataSelection.setupOutputs E O).1
  = Raise (DatasetConstraintError "DataSelection" OpDataSelection.xy_message)
  /\
  OpDataSelection.Image (OpDataSelection.setupOutputs E O).2 = None.
Proof.
  vm_compute. repeat split; reflexivity.
Qed.

(** The spatial axes are looked for behind the metadata injector, where
    the axis order of the dataset has replaced the provider's.  A provider
    with the axes "tc" and a dataset that declares "yx": the provider's
    metadata lacks both spatial axes, yet [setupOutputs] returns with all
    outputs ready.  A provider with the axes "yx" and a dataset that
    declares "tc": the provider's metadata has both spatial axes, yet the
    check raises. *)
Lemma C2_counterexample :
  let E := env (Ok provider_tc) in
  let O := operator_with_axes ["yxc"] "yx" in
  let E' := env (Ok provider_2d) in
  let O' := operator_with_axes ["tc"] "tc" in
  ((OpDataSelection.select_provider E (OpDataSelection.internalCleanup O)).1
   = Ok provider_tc /\
   axistags provider_tc = ["t"; "c"]%char /\
   (OpDataSelection.setupOutputs E O).1 = Ok tt /\
   axistags <$> OpDataSelection._NonTransposedImage
                  (OpDataSelection.setupOutputs E O).2
   = Some ["y"; "x"]%char /\
   shape <$> OpDataSelection.Image (OpDataSelection.setupOutputs E O).2
   = Some [7; 3; 1]) /\
  ((OpDataSelection.select_provider E' (OpDataSelection.internalCleanup O')).1
   = Ok provider_2d /\
   axistags provider_2d = ["y"; "x"]%char /\
   (OpDataSelection.setupOutputs E' O').1
   = Raise (DatasetConstraintError "DataSelection" OpDataSelection.xy_message)
   /\
   OpDataSelection.Image (OpDataSelection.setupOutputs E' O').2 = None).
Proof.
  vm_compute. repeat split; reflexivity.
Qed.

(** * Further properties of the code *)

(** ** [OpDataSelection.setupOutputs]: what a successful run leaves *)

Section SuccessFacts.
Import OpDataSelection.

Local Arguments build_metadata : simpl never.
Local Arguments require_xy : simpl never.
Local Arguments choose_output_order : simpl never.
Local Arguments OpReorderAxes_Output : simpl never.
Local Arguments OpMetadataInjector_Output : simpl never.
Local Arguments array_meta : simpl never.
Local Arguments taggedView : simpl never.
Local Arguments meta_nickname : simpl never.

Local Ltac run_monad :=
  unfold bindM, lift, read, modify, ret, construct, append_reader in *;
  simpl in *;
  repeat (case_match; simplify_eq/=).

(** The two children [provide] registers when it returns. *)
Lemma provide_children (env : Env) (s s' : Op) (m : MetaDict) :
  provide env s = (Ok m, s') ->
  exists cls,
    _opReaders s'
    = _opReaders s
      ++ [{| serial := constructed s; class := cls |};
          {| serial := S (constructed s); class := OpMetadataInjector |}] /\
    cls <> OpMetadataInjector /\ cls <> OpReorderAxes.
Proof.
  destruct s. unfold provide, select_provider, inject_metadata.
  intros H. run_monad.
  all: eexists; rewrite <- app_assoc; simpl; by repeat split.
Qed.

(** The names [publish_names] publishes when it returns. *)
Lemma publish_names_names (s s' : Op) :
  publish_names s = (Ok tt, s') ->
  match Image s ≫= meta_nickname with
  | Some n =>
      Dataset s' = DatasetInfo.with_nickname (Dataset s) (Some n) /\
      ImageName s'
      = Some (if decide (n = "") then DatasetInfo.filePath (Dataset s)
              else Some n)
  | None =>
      Dataset s' = Dataset s /\
      exists n,
        DatasetInfo.nickname (Dataset s) = Some n /\
        ImageName s'
        = Some (if decide (n = "") then DatasetInfo.filePath (Dataset s)
                else Some n)
  end.
Proof.
  destruct s as [? ? ? ? ? d ? ? ? ? ? ? ? ?]. destruct d.
  unfold publish_names. intros H. run_monad.
  all: try by repeat split.
  all: split; [done|]; eexists; split; try done.
  all: case_decide; congruence.
Qed.

End SuccessFacts.

Lemma contains_append_self (c : ascii) (s : string) :
  contains c (s +:+ String c "") = true.
Proof.
  induction s as [|a s IH]; simpl.
  - by rewrite decide_True.
  - by destruct (decide (c = a)).
Qed.

Lemma with_channel_has_channel (o : string) :
  contains "c" (if contains "c" o then o else o +:+ "c") = true.
Proof.
  destruct (contains "c" o) eqn:Hc; [done|apply contains_append_self].
Qed.

Lemma chosen_order_has_channel (force : OpDataSelection.ForceAxisOrder)
    (m : MetaDict) (output_order : string) :
  OpDataSelection.choose_output_order force m = Ok output_order ->
  exists o, output_order = if contains "c" o then o else o +:+ "c".
Proof.
  unfold OpDataSelection.choose_output_order.
  match goal with
  | |- context [if ?b then ?x else ?y] => destruct (if b then x else y) as [o|]
  end; [|done].
  cbn. intros [= <-]. by exists o.
Qed.

(** X1: whatever [forceAxisOrder] is, an output order that
    [choose_output_order] returns has a channel axis. *)
Theorem X1_output_order_has_channel (force : OpDataSelection.ForceAxisOrder)
    (m : MetaDict) (output_order : string) :
  OpDataSelection.choose_output_order force m = Ok output_order ->
  contains "c" output_order = true.
Proof.
  intros Hch. apply chosen_order_has_channel in Hch as [o ->].
  destruct (contains "c" o) eqn:Hc; [done|].
  apply contains_append_self.
Qed.

Lemma X1_output_order_has_channel_witness :
  OpDataSelection.choose_output_order (OpDataSelection.NotAList false)
    provider_3d = Ok "zyxc" /\
  contains "c" "zyxc" = true.
Proof.
  split; [reflexivity|].
  apply (X1_output_order_has_channel (OpDataSelection.NotAList false)
           provider_3d).
  reflexivity.
Defined.

(** What a run of [setupOutputs] that returns leaves behind. *)
Lemma setupOutputs_success (env : OpDataSelection.Env)
    (self self' : OpDataSelection.Op) :
  OpDataSelection.setupOutputs env self = (Ok tt, self') ->
  exists m order cls st2,
    OpDataSelection.publish_names st2 = (Ok tt, self') /\
    OpDataSelection.Dataset st2 = OpDataSelection.Dataset self /\
    OpDataSelection._NonTransposedImage self' = Some m /\
    OpDataSelection.require_xy m = Ok tt /\
    OpDataSelection.choose_output_order
      (OpDataSelection.forceAxisOrder self) m = Ok order /\
    OpDataSelection.Image st2 = Some (OpReorderAxes_Output order m) /\
    OpDataSelection.Image self' = Some (OpReorderAxes_Output order m) /\
    OpDataSelection._opReaders self'
    = [{| OpDataSelection.serial := OpDataSelection.constructed self;
          OpDataSelection.class := cls |};
       {| OpDataSelection.serial := S (OpDataSelection.constructed self);
          OpDataSelection.class := OpDataSelection.OpMetadataInjector |};
       {| OpDataSelection.serial := S (S (OpDataSelection.constructed self));
          OpDataSelection.class := OpDataSelection.OpReorderAxes |}] /\
    cls <> OpDataSelection.OpMetadataInjector /\
    cls <> OpDataSelection.OpReorderAxes /\
    OpDataSelection.constructed self'
    = S (S (S (OpDataSelection.constructed self))) /\
    OpDataSelection.cleaned_up self'
    = OpDataSelection.cleaned_up self
      ++ reverse (OpDataSelection._opReaders self).
Proof.
  intros Hrun.
  destruct (internalCleanup_fields self)
    as (Hset0 & Hds0 & Hr0 & Hc0 & Hlog0 & _).
  simpl in *.
  destruct (OpDataSelection.provide env (OpDataSelection.internalCleanup self))
    as [[m|e] st1] eqn:Hp.
  2: { rewrite (setupOutputs_provide_raises _ _ _ _ Hp) in Hrun. done. }
  rewrite (setupOutputs_after_provide _ _ _ _ Hp) in Hrun.
  destruct (provide_children _ _ _ _ Hp) as (cls & Hr1 & Hcls1 & Hcls2).
  apply provide_outcome in Hp
    as (Hset1 & Hds1 & _ & _ & _ & Hlog1 & _ & _ & _ & _ & _ & Hc1 & Hnt1).
  rewrite Hr0, Hc0 in Hr1. simpl in Hr1.
  destruct (OpDataSelection.normalize_axes m st1) as [r2 st2] eqn:Hn.
  apply normalize_axes_outcome in Hn
    as (_ & Hds2 & _ & _ & Hnt2 & Hlog2 & Hn).
  destruct (OpDataSelection.require_xy m) as [[]|] eqn:Hxy.
  2: { destruct Hn as [-> ->]. done. }
  assert (OpDataSelection.forceAxisOrder st1
          = OpDataSelection.forceAxisOrder self) as Hf.
  { unfold settings in *. congruence. }
  rewrite Hf in Hn.
  destruct (OpDataSelection.choose_output_order _ m) as [order|] eqn:Hch.
  2: { destruct Hn as [-> ->]. done. }
  destruct Hn as (-> & Himg & Hr2 & Hc2).
  destruct (OpDataSelection.publish_names st2) as [[[]|e] st3] eqn:Hpub;
    [|done].
  injection Hrun as <-.
  pose proof Hpub as Hpub'.
  apply publish_names_outcome in Hpub'
    as (_ & Hi3 & Hnt3 & Hr3 & Hc3 & Hlog3 & _).
  exists m, order, cls, st2. repeat split; try done; try congruence.
  rewrite Hr3, Hr2, Hr1, Hc1, Hc0. reflexivity.
Qed.

(** X2: when [setupOutputs] returns, all four outputs are ready: the
    provider slot published on [_NonTransposedImage] has the axes ['x']
    and ['y'], [Image] is that slot behind a reordering stage whose order
    has a channel axis, [AllowLabels] holds the flag of the dataset. *)
Theorem X2_success_outputs_ready (env : OpDataSelection.Env)
    (self self' : OpDataSelection.Op) :
  OpDataSelection.setupOutputs env self = (Ok tt, self') ->
  exists m order,
    OpDataSelection._NonTransposedImage self' = Some m /\
    "x"%char ∈ axistags m /\ "y"%char ∈ axistags m /\
    OpDataSelection.Image self' = Some (OpReorderAxes_Output order m) /\
    contains "c" order = true /\
    OpDataSelection.AllowLabels self'
    = Some (DatasetInfo.allowLabels (OpDataSelection.Dataset self)) /\
    is_Some (OpDataSelection.ImageName self').
Proof.
  intros Hrun.
  destruct (setupOutputs_success _ _ _ Hrun)
    as (m & order & cls & st2 & Hpub & Hds & Hnt & Hxy & Hch & _ & Himg & _).
  exists m, order.
  assert ("x"%char ∈ axistags m /\ "y"%char ∈ axistags m) as [Hx Hy].
  { destruct (decide ("x"%char ∈ axistags m)) as [Hx|Hx];
      [destruct (decide ("y"%char ∈ axistags m)) as [Hy|Hy]; [done|]|].
    - rewrite (proj2 (require_xy_spec m) (or_intror Hy)) in Hxy. done.
    - rewrite (proj2 (require_xy_spec m) (or_introl Hx)) in Hxy. done. }
  apply publish_names_outcome in Hpub
    as (_ & _ & _ & _ & _ & _ & Hal & Hname).
  repeat split; try done.
  - apply chosen_order_has_channel in Hch as [o ->].
    apply with_channel_has_channel.
  - by rewrite Hal, Hds.
Qed.

Lemma X2_success_outputs_ready_witness :
  exists m order,
    OpDataSelection._NonTransposedImage
      (OpDataSelection.setupOutputs (env (Ok provider_A))
         (operator ["tczyx"])).2 = Some m /\
    "x"%char ∈ axistags m /\ "y"%char ∈ axistags m /\
    OpDataSelection.Image
      (OpDataSelection.setupOutputs (env (Ok provider_A))
         (operator ["tczyx"])).2 = Some (OpReorderAxes_Output order m) /\
    contains "c" order = true /\
    OpDataSelection.AllowLabels
      (OpDataSelection.setupOutputs (env (Ok provider_A))
         (operator ["tczyx"])).2 = Some true /\
    is_Some (OpDataSelection.ImageName
               (OpDataSelection.setupOutputs (env (Ok provider_A))
                  (operator ["tczyx"])).2).
Proof.
  apply (X2_success_outputs_ready (env (Ok provider_A)) (operator ["tczyx"])).
  vm_compute. reflexivity.
Defined.



(** X4: when [setupOutputs] returns, a nickname in the metadata of the
    image replaces the nickname of the dataset and is what [ImageName]
    publishes; without one the dataset keeps its nickname and that is
    published.  An empty nickname is replaced by the file path. *)
Theorem X4_success_image_name (env : OpDataSelection.Env)
    (self self' : OpDataSelection.Op) :
  OpDataSelection.setupOutputs env self = (Ok tt, self') ->
  exists m,
    OpDataSelection._NonTransposedImage self' = Some m /\
    match OpDataSelection.meta_nickname m with
    | Some n =>
        OpDataSelection.Dataset self'
        = DatasetInfo.with_nickname (OpDataSelection.Dataset self) (Some n) /\
        OpDataSelection.ImageName self'
        = Some (if decide (n = "")
                then DatasetInfo.filePath (OpDataSelection.Dataset self)
                else Some n)
    | None =>
        OpDataSelection.Dataset self' = OpDataSelection.Dataset self /\
        exists n,
          DatasetInfo.nickname (OpDataSelection.Dataset self) = Some n /\
          OpDataSelection.ImageName self'
          = Some (if decide (n = "")
                  then DatasetInfo.filePath (OpDataSelection.Dataset self)
                  else Some n)
    end.
Proof.
  intros Hrun.
  destruct (setupOutputs_success _ _ _ Hrun)
    as (m & order & cls & st2 & Hpub & Hds & Hnt & _ & _ & Himg & _).
  exists m. split; [done|].
  apply publish_names_names in Hpub. rewrite Himg, Hds in Hpub.
  exact Hpub.
Qed.

Lemma X4_success_image_name_witness :
  let run := OpDataSelection.setupOutputs (env (Ok provider_named))
               operator_unnamed in
  run.1 = Ok tt /\
  OpDataSelection.ImageName run.2 = Some (Some "from-file") /\
  DatasetInfo.nickname (OpDataSelection.Dataset run.2) = Some "from-file".
Proof.
  intros run.
  assert (OpDataSelection.setupOutputs (env (Ok provider_named))
            operator_unnamed = (Ok tt, run.2)) as Hrun
    by (vm_compute; reflexivity).
  destruct (X4_success_image_name _ _ _ Hrun) as (m & Hnt & Hm).
  assert (m = provided (env (Ok provider_named)) operator_unnamed) as ->.
  { assert (Some m = Some (provided (env (Ok provider_named)) operator_unnamed))
      as [= ->]; [|done].
    rewrite <- Hnt. vm_compute. reflexivity. }
  assert (OpDataSelection.meta_nickname
            (provided (env (Ok provider_named)) operator_unnamed)
          = Some "from-file") as Hn by (vm_compute; reflexivity).
  rewrite Hn in Hm. destruct Hm as [Hds Hname].
  split; [reflexivity|]. split; [exact Hname|].
  rewrite Hds. reflexivity.
Defined.

(** ** [DatasetInfo]: expansion and construction *)

Lemma insert_sorted_str_Sorted (x : string) (l : list string) :
  Sorted String.le l -> Sorted String.le (insert_sorted String.leb x l).
Proof.
  induction 1 as [|y l Hl IH Hhd]; simpl.
  - by repeat constructor.
  - destruct (String.leb x y) eqn:Hxy.
    + constructor; [by constructor|]. constructor.
      unfold String.le. by rewrite Hxy.
    + constructor; [done|].
      assert (String.le y x) as Hyx.
      { destruct (String.leb_total x y) as [H|H]; [congruence|].
        unfold String.le. by rewrite H. }
      destruct Hhd as [|z l Hyz]; simpl.
      * by constructor.
      * destruct (String.leb x z); by constructor.
Qed.

Lemma sorted_str_Sorted (l : list string) : Sorted String.le (sorted_str l).
Proof.
  unfold sorted_str, sorted. induction l as [|x l IH]; simpl.
  - constructor.
  - by apply insert_sorted_str_Sorted.
Qed.

(** X5: the paths [expandPath] returns are in ascending order: each one
    is at most every later one. *)
Theorem X5_expandPath_sorted (env : DatasetInfo.Env) (file_path : string)
    (cwd : option string) (paths : list string) :
  DatasetInfo.expandPath env file_path cwd = Ok paths ->
  StronglySorted String.le paths.
Proof.
  unfold DatasetInfo.expandPath.
  destruct (DatasetInfo.recursion_limit env) as [|depth]; [done|].
  simpl. unfold DatasetInfo.expandPath_body.
  destruct (DatasetInfo.expand_components _ _ _ _ _) as [expanded|]; [|done].
  cbn. intros [= <-].
  apply Sorted_StronglySorted; [apply _|apply sorted_str_Sorted].
Qed.

Lemma X5_expandPath_sorted_witness :
  DatasetInfo.expandPath stack_files "s*.png" None
  = Ok ["/data/s0.png"; "/data/s1.png"] /\
  StronglySorted String.le ["/data/s0.png"; "/data/s1.png"].
Proof.
  split; [reflexivity|].
  apply (X5_expandPath_sorted stack_files "s*.png" None). reflexivity.
Defined.

(** X6: when [create_nickname] returns, the paths it returns are those of
    [expandPath], and all of them have the same extension. *)
Theorem X6_create_nickname_one_extension (env : DatasetInfo.Env)
    (filepath : string) (cwd : option string) (nick : string)
    (paths : list string) :
  DatasetInfo.create_nickname env filepath cwd = Ok (nick, paths) ->
  DatasetInfo.expandPath env filepath cwd = Ok paths /\
  forall p q, p ∈ paths -> q ∈ paths ->
    DatasetInfo.extension (DatasetInfo.PathComponents env p)
    = DatasetInfo.extension (DatasetInfo.PathComponents env q).
Proof.
  unfold DatasetInfo.create_nickname.
  destruct (DatasetInfo.expandPath env filepath cwd) as [expanded|]; [|done].
  cbn.
  destruct (existsb _ _) eqn:Hex; [done|].
  intros Hret.
  assert (paths = expanded) as ->.
  { revert Hret. unfold mbind, result_bind, Py.bind.
    repeat case_match; congruence. }
  clear Hret. split; [done|].
  assert (forall p, p ∈ expanded ->
            DatasetInfo.extension (DatasetInfo.PathComponents env p)
            = default "" (DatasetInfo.extension
                            <$> head (map (DatasetInfo.PathComponents env)
                                          expanded))) as Hall.
  { intros p Hp.
    destruct (decide (DatasetInfo.extension (DatasetInfo.PathComponents env p)
                      = default "" (DatasetInfo.extension
                                      <$> head (map (DatasetInfo.PathComponents env)
                                                    expanded))))
      as [|Hne]; [done|].
    assert (existsb
              (fun comp =>
                 negb (bool_decide
                         (DatasetInfo.extension comp
                          = default "" (DatasetInfo.extension
                                          <$> head (map (DatasetInfo.PathComponents env)
                                                        expanded)))))
              (map (DatasetInfo.PathComponents env) expanded) = true) as Ht.
    { apply existsb_exists. exists (DatasetInfo.PathComponents env p). split.
      - apply list_elem_of_In, list_elem_of_fmap. eauto.
      - by apply negb_true_iff, bool_decide_eq_false. }
    congruence. }
  intros p q Hp Hq. by rewrite (Hall p Hp), (Hall q Hq).
Qed.

Lemma X6_create_nickname_one_extension_witness :
  DatasetInfo.create_nickname stack_files "s*.png" None
  = Ok ("s", ["/data/s0.png"; "/data/s1.png"]) /\
  DatasetInfo.expandPath stack_files "s*.png" None
  = Ok ["/data/s0.png"; "/data/s1.png"].
Proof.
  split; [reflexivity|].
  apply (X6_create_nickname_one_extension stack_files "s*.png" None "s").
  reflexivity.
Defined.

(** ** [str.split] undoes [str.join] *)

Lemma rev_app_rev_app (s t u : string) :
  String.rev_app (String.rev_app s t) u = String.rev_app t (s +:+ u).
Proof.
  revert t u. induction s as [|a s IH]; intros t u; simpl; [done|].
  by rewrite IH.
Qed.

Lemma append_empty_r (s : string) : s +:+ "" = s.
Proof.
  induction s as [|a s IH]; [done|].
  change (String a (s +:+ "") = String a s). by f_equal.
Qed.

Lemma rev_rev_app (s : string) : String.rev (String.rev_app s "") = s.
Proof.
  unfold String.rev. rewrite rev_app_rev_app. simpl. apply append_empty_r.
Qed.

Lemma split_go_piece (c : ascii) (cur s t : string) :
  contains c s = false ->
  split_go (String c "") cur 0 (s +:+ t)
  = split_go (String c "") (String.rev_app s cur) 0 t.
Proof.
  revert cur. induction s as [|a s IH]; intros cur; simpl; [done|].
  destruct (decide (c = a)) as [|Hne]; [done|].
  intros Hs. by rewrite IH.
Qed.

Lemma split_join (c : ascii) (parts : list string) :
  parts <> [] ->
  Forall (fun p => contains c p = false) parts ->
  split (String c "") (join (String c "") parts) = parts.
Proof.
  intros Hne Hall. unfold split.
  induction Hall as [|p rest Hp Hrest IH]; [done|].
  destruct rest as [|q rest].
  - simpl. rewrite <- (append_empty_r p) at 1.
    rewrite (split_go_piece c "" p "" Hp). simpl. by rewrite rev_rev_app.
  - change (join (String c "") (p :: q :: rest))
      with (p +:+ String c (join (String c "") (q :: rest))).
    rewrite (split_go_piece c "" p _ Hp).
    cbn [split_go is_prefix]. rewrite decide_True by done.
    rewrite rev_rev_app. f_equal. simpl. by apply IH.
Qed.



(** What [__init__] assigns on the file-system branch. *)
Lemma init_filesystem (env : DatasetInfo.Env) (args : DatasetInfo.InitArgs)
    (info : DatasetInfo.t) (path : string) :
  DatasetInfo.jsonNamespace args = None ->
  DatasetInfo.filepath args = Some path ->
  truthy (Some path) = true ->
  DatasetInfo.isUrl env path = false ->
  DatasetInfo.arg_location args = DatasetInfo.FileSystem ->
  DatasetInfo.init env args = Ok info ->
  exists nick paths,
    DatasetInfo.create_nickname env path
      (Some (DatasetInfo.cwd_or_getcwd env (DatasetInfo.cwd args)))
    = Ok (nick, paths) /\
    DatasetInfo.expanded_paths info = Some paths /\
    DatasetInfo.filePath info = Some (join pathsep paths) /\
    DatasetInfo.fromstack info = bool_decide (1 < length paths) /\
    DatasetInfo.location info = DatasetInfo.FileSystem /\
    DatasetInfo.sequenceAxis info = DatasetInfo.sequence_axis args /\
    (1 < length paths -> truthy (DatasetInfo.sequence_axis args) = true).
Proof.
  intros Hjson Hpath Htruthy Hurl Hloc.
  unfold DatasetInfo.init.
  destruct (DatasetInfo.init_precondition args) as [[]|] eqn:Hpre; [|done].
  cbn. unfold DatasetInfo.init_precondition, assert in Hpre.
  rewrite Hpath, Htruthy in Hpre. simpl in Hpre. rewrite orb_false_r in Hpre.
  destruct (bool_decide (DatasetInfo.arg_preloaded_array args = None)) eqn:Harr;
    [|done].
  apply bool_decide_eq_true in Harr.
  unfold DatasetInfo.init_location, DatasetInfo.init_fields. cbn.
  rewrite Harr. cbn. rewrite Hpath, Htruthy. cbn. rewrite Hurl, Hloc. cbn.
  rewrite (bool_decide_eq_true_2 (DatasetInfo.FileSystem = DatasetInfo.FileSystem))
    by done.
  destruct (DatasetInfo.create_nickname env path _) as [[nick paths]|] eqn:Hn;
    [|done].
  cbn. rewrite Hjson.
  destruct (bool_decide (1 < length paths)) eqn:Hlen;
    destruct (truthy (DatasetInfo.sequence_axis args)) eqn:Hseq; cbn;
    try done.
  all: intros [= <-]; exists nick, paths.
  all: destruct (DatasetInfo.arg_nickname args); cbn.
  all: repeat split; try done.
  all: intros Hl; apply bool_decide_eq_false in Hlen; done.
Qed.

Lemma create_nickname_nonempty (env : DatasetInfo.Env) (filepath : string)
    (cwd : option string) (nick : string) (paths : list string) :
  DatasetInfo.create_nickname env filepath cwd = Ok (nick, paths) ->
  paths <> [].
Proof.
  unfold DatasetInfo.create_nickname.
  destruct (DatasetInfo.expandPath env filepath cwd) as [[|p expanded]|];
    cbn; [done| |done].
  destruct (_ || _); [done|].
  unfold mbind, result_bind, Py.bind. repeat case_match; congruence.
Qed.

Lemma create_nickname_paths (env : DatasetInfo.Env) (filepath : string)
    (cwd : option string) (nick : string) (paths : list string) :
  DatasetInfo.create_nickname env filepath cwd = Ok (nick, paths) ->
  DatasetInfo.expandPath env filepath cwd = Ok paths.
Proof.
  unfold DatasetInfo.create_nickname.
  destruct (DatasetInfo.expandPath env filepath cwd) as [expanded|]; [|done].
  cbn. destruct (existsb _ _); [done|].
  unfold mbind, result_bind, Py.bind. repeat case_match; congruence.
Qed.

(** X8: a [DatasetInfo] constructed for a path on the file system stores
    the list [expandPath] returns for that path, which is not empty, and
    as its [filePath] the elements of that list joined by
    [os.path.pathsep]; splitting the [filePath] on that separator gives
    the list back, as long as none of the paths contains the separator.
    It is marked as a stack exactly when there is more than one path. *)
Theorem X8_filePath_splits_into_expanded_paths (env : DatasetInfo.Env)
    (args : DatasetInfo.InitArgs) (info : DatasetInfo.t) (path : string) :
  DatasetInfo.jsonNamespace args = None ->
  DatasetInfo.filepath args = Some path ->
  truthy (Some path) = true ->
  DatasetInfo.isUrl env path = false ->
  DatasetInfo.arg_location args = DatasetInfo.FileSystem ->
  DatasetInfo.init env args = Ok info ->
  exists paths,
    DatasetInfo.expandPath env path
      (Some (DatasetInfo.cwd_or_getcwd env (DatasetInfo.cwd args)))
    = Ok paths /\
    paths <> [] /\
    DatasetInfo.expanded_paths info = Some paths /\
    DatasetInfo.filePath info = Some (join pathsep paths) /\
    DatasetInfo.fromstack info = bool_decide (1 < length paths) /\
    (Forall (fun p => contains ":" p = false) paths ->
     split pathsep (join pathsep paths) = paths).
Proof.
  intros Hjson Hpath Htruthy Hurl Hloc Hinit.
  destruct (init_filesystem env args info path Hjson Hpath Htruthy Hurl Hloc
              Hinit)
    as (nick & paths & Hnick & Hexp & Hfile & Hstack & _).
  exists paths.
  pose proof (create_nickname_nonempty _ _ _ _ _ Hnick) as Hne.
  apply create_nickname_paths in Hnick.
  repeat split; try done.
  intros Hall. by apply (split_join ":"%char).
Qed.

Lemma X8_filePath_splits_into_expanded_paths_witness :
  exists info,
    DatasetInfo.init stack_files (args_for "s*.png") = Ok info /\
    DatasetInfo.expanded_paths info = Some ["/data/s0.png"; "/data/s1.png"] /\
    DatasetInfo.filePath info = Some "/data/s0.png:/data/s1.png" /\
    DatasetInfo.fromstack info = true /\
    split pathsep "/data/s0.png:/data/s1.png"
    = ["/data/s0.png"; "/data/s1.png"].
Proof.
  destruct (DatasetInfo.init stack_files (args_for "s*.png")) as [info|]
    eqn:Hinit; [|vm_compute in Hinit; discriminate].
  exists info. split; [reflexivity|].
  destruct (X8_filePath_splits_into_expanded_paths stack_files
              (args_for "s*.png") info "s*.png" eq_refl eq_refl eq_refl
              eq_refl eq_refl Hinit)
    as (paths & Hpaths & _ & Hexp & Hfile & Hstack & Hsplit).
  assert (paths = ["/data/s0.png"; "/data/s1.png"]) as ->
    by (vm_compute in Hpaths; injection Hpaths as <-; reflexivity).
  split; [exact Hexp|]. split; [exact Hfile|]. split; [exact Hstack|].
  apply Hsplit. repeat constructor.
Defined.

(** X9: the constructor never sets up a dataset from a preloaded array.
    When the array's truth value is true it raises [NameError]; when
    numpy gives none it raises [ValueError]; it returns only for an array
    whose truth value is false, and then the location is the one passed
    in, as if no array had been given. *)
Theorem X9_preloaded_array_never_located (env : DatasetInfo.Env)
    (args : DatasetInfo.InitArgs) (a : Array) :
  DatasetInfo.arg_preloaded_array args = Some a ->
  truthy (DatasetInfo.filepath args) = false ->
  match arr_truth a with
  | Some true => DatasetInfo.init env args = Raise (NameError "Location")
  | None => exists msg, DatasetInfo.init env args = Raise (ValueError msg)
  | Some false =>
      forall info,
        DatasetInfo.init env args = Ok info ->
        DatasetInfo.location info = DatasetInfo.arg_location args /\
        DatasetInfo.preloaded_array info = Some a
  end.
Proof.
  intros Harr Hpath.
  unfold DatasetInfo.init, DatasetInfo.init_precondition, assert.
  rewrite Hpath, orb_true_r. cbn.
  unfold DatasetInfo.init_location, DatasetInfo.init_fields. cbn.
  rewrite Harr. cbn.
  destruct (arr_truth a) as [[|]|]; cbn; [done| |by eexists].
  rewrite Hpath. cbn. intros info.
  destruct (DatasetInfo.jsonNamespace args) as [ns|]; cbn.
  - unfold DatasetInfo.updateFromJson. cbn.
    unfold mbind, result_bind, Py.bind.
    repeat case_match; simplify_eq/=; try done; intros [= <-]; by split.
  - destruct (DatasetInfo.arg_nickname args); intros [= <-]; by split.
Qed.

Lemma X9_preloaded_array_never_located_witness :
  DatasetInfo.init files (args_for_array array_true)
  = Raise (NameError "Location") /\
  (forall info,
     DatasetInfo.init files (args_for_array array_empty) = Ok info ->
     DatasetInfo.location info = DatasetInfo.FileSystem /\
     DatasetInfo.preloaded_array info = Some array_empty).
Proof.
  split.
  - apply (X9_preloaded_array_never_located files (args_for_array array_true)
             array_true); reflexivity.
  - apply (X9_preloaded_array_never_located files (args_for_array array_empty)
             array_empty); reflexivity.
Defined.

(** On the attributes other than [_datasetId], applying the same
    namespace a second time changes nothing. *)
Lemma updateFromJson_attributes_idempotent (self updated : DatasetInfo.t)
    (namespace : DatasetInfo.Namespace) :
  DatasetInfo.updateFromJson self namespace = Ok updated ->
  DatasetInfo.updateFromJson updated namespace = Ok updated.
Proof.
  destruct self, namespace. unfold DatasetInfo.updateFromJson. cbn.
  unfold mbind, result_bind, Py.bind, or_else.
  repeat case_match; simplify_eq/=; try done.
  all: intros [= <-]; cbn; repeat case_match; simplify_eq/=; done.
Qed.

(** X10: [updateFromJson] is idempotent up to the dataset id.  Applying
    the same namespace to the object it has already updated does not
    raise and leaves every attribute as it was, except [_datasetId]: the
    method assigns [filePath] on every call, so the id is replaced by the
    newly generated one, and the object is the same as before only if
    that id is the one it already had. *)
Theorem X10_updateFromJson_idempotent (self updated : DatasetInfo.instance)
    (namespace : DatasetInfo.Namespace) (fresh : string) :
  DatasetInfo.updateFromJson_id self namespace fresh = Ok updated ->
  DatasetInfo._datasetId updated = fresh /\
  forall fresh',
    DatasetInfo.updateFromJson_id updated namespace fresh'
    = Ok {| DatasetInfo.attributes := DatasetInfo.attributes updated;
            DatasetInfo._datasetId := fresh' |} /\
    (DatasetInfo.updateFromJson_id updated namespace fresh' = Ok updated
     <-> fresh' = fresh).
Proof.
  unfold DatasetInfo.updateFromJson_id.
  destruct (DatasetInfo.updateFromJson (DatasetInfo.attributes self) namespace)
    as [attrs|] eqn:Hup; [|done].
  cbn. intros [= <-]. simpl. split; [done|]. intros fresh'.
  rewrite (updateFromJson_attributes_idempotent _ _ _ Hup). cbn.
  split; [done|]. split.
  - by intros [= ->].
  - by intros ->.
Qed.

Lemma X10_updateFromJson_idempotent_witness :
  let self :=
    {| DatasetInfo.attributes := dataset "/data/volume.npy" "volume";
       DatasetInfo._datasetId := "id-0" |} in
  exists updated,
    DatasetInfo.updateFromJson_id self namespace_rename "id-1" = Ok updated /\
    DatasetInfo.nickname (DatasetInfo.attributes updated) = Some "renamed" /\
    DatasetInfo._datasetId updated = "id-1" /\
    DatasetInfo.updateFromJson_id updated namespace_rename "id-2"
    = Ok {| DatasetInfo.attributes := DatasetInfo.attributes updated;
            DatasetInfo._datasetId := "id-2" |}.
Proof.
  intros self.
  destruct (DatasetInfo.updateFromJson_id self namespace_rename "id-1")
    as [updated|] eqn:Hup; [|vm_compute in Hup; discriminate].
  exists updated. split; [reflexivity|].
  destruct (X10_updateFromJson_idempotent self updated namespace_rename "id-1"
              Hup) as [Hid Hagain].
  split; [vm_compute in Hup; by injection Hup as <-|].
  split; [exact Hid|]. apply (Hagain "id-2").
Defined.

(** ** [OpExportDvidVolume.run_export]: every run *)

Section ExportFacts.
Import OpExportDvidVolume.

Local Ltac run_export_cases :=
  unfold run_export, run_export_steps, andThen, call, progressSignal; simpl;
  repeat match goal with
         | |- context [match ?r with Ok _ => _ | Raise _ => _ end] =>
             destruct r as [?|?] eqn:?; simpl
         | x : (_ * _)%type |- _ => destruct x
         | x : unit |- _ => destruct x
         end.

Lemma run_export_trace_cases (env : Env) (self : Op) :
  let run := run_export env self in
  (run.2 = [0]%Z /\ raises run.1) \/
  (run.2 = [0; 5]%Z /\ raises run.1) \/
  (run.2 = [0; 5; 100]%Z /\ run.1 = Ok tt).
Proof.
  run_export_cases; auto.
Qed.

(** X11: in every run of [run_export] the progress signal is called with
    0, then possibly with 5, then possibly with 100, and it is called
    with 100 exactly when the export returns. *)
Theorem X11_run_export_trace (env : Env) (self : Op) :
  let run := run_export env self in
  (run.2 = [0]%Z /\ raises run.1) \/
  (run.2 = [0; 5]%Z /\ raises run.1) \/
  (run.2 = [0; 5; 100]%Z /\ run.1 = Ok tt).
Proof.
  apply run_export_trace_cases.
Qed.

(** The form [run_export] requires of [NodeDataUrl]. *)
Lemma run_export_beyond_start (env : Env) (self : Op) :
  (run_export env self).2 <> [0]%Z ->
  exists path hostname uuid dataname,
    url_path (NodeDataUrl self) = Ok path /\
    split "/" path = [hostname; "api"; "node"; uuid; dataname].
Proof.
  unfold run_export, run_export_steps, andThen, call, progressSignal. simpl.
  destruct (url_path (NodeDataUrl self)) as [path|]; [|done]. simpl.
  destruct (unpack5 (split "/" path))
    as [[[[[hostname api] node] uuid] dataname]|] eqn:Hun; [|done].
  simpl. unfold assert.
  destruct (bool_decide (api = "api")) eqn:Hapi; [|done]. simpl.
  destruct (bool_decide (node = "node")) eqn:Hnode; [|done]. simpl.
  apply bool_decide_eq_true in Hapi as ->.
  apply bool_decide_eq_true in Hnode as ->.
  intros _. exists path, hostname, uuid, dataname. split; [done|].
  unfold unpack5 in Hun. repeat case_match; congruence.
Qed.

End ExportFacts.

(** X12: unless the path of [NodeDataUrl] has the form
    [host/api/node/uuid/dataname], [run_export] raises right after
    reporting progress 0 and without any call to the upstream operator or
    to the server: the outcome is the same whatever they would answer. *)
Theorem X12_run_export_rejects_malformed_url (self : OpExportDvidVolume.Op) :
  ~ (exists path hostname uuid dataname,
       OpExportDvidVolume.url_path (OpExportDvidVolume.NodeDataUrl self)
       = Ok path /\
       split "/" path = [hostname; "api"; "node"; uuid; dataname]) ->
  forall env env' : OpExportDvidVolume.Env,
    raises (OpExportDvidVolume.run_export env self).1 /\
    (OpExportDvidVolume.run_export env self).2 = [0]%Z /\
    OpExportDvidVolume.run_export env self
    = OpExportDvidVolume.run_export env' self.
Proof.
  intros Hurl env env'.
  assert (forall e, (OpExportDvidVolume.run_export e self).2 = [0]%Z) as Hstart.
  { intros e. destruct (decide ((OpExportDvidVolume.run_export e self).2
                                = [0]%Z)) as [|Hne]; [done|].
    destruct Hurl. by apply (run_export_beyond_start e). }
  split; [|split; [apply Hstart|]].
  - pose proof (run_export_trace_cases env self) as Ht.
    cbv zeta in Ht. rewrite Hstart in Ht. destruct Ht as [[_ ?]|[[? _]|[? _]]]; done.
  - revert Hurl.
    unfold OpExportDvidVolume.run_export, OpExportDvidVolume.run_export_steps,
      OpExportDvidVolume.andThen, OpExportDvidVolume.call,
      OpExportDvidVolume.progressSignal. simpl.
    destruct (OpExportDvidVolume.url_path _) as [path|]; [|done]. simpl.
    destruct (OpExportDvidVolume.unpack5 (split "/" path))
      as [[[[[hostname api] node] uuid] dataname]|] eqn:Hun; [|done].
    simpl. unfold assert.
    destruct (bool_decide (api = "api")) eqn:Hapi; [|done]. simpl.
    destruct (bool_decide (node = "node")) eqn:Hnode; [|done]. simpl.
    apply bool_decide_eq_true in Hapi as ->.
    apply bool_decide_eq_true in Hnode as ->.
    intros []. exists path, hostname, uuid, dataname. split; [done|].
    unfold OpExportDvidVolume.unpack5 in Hun. repeat case_match; congruence.
Qed.

Lemma X12_run_export_rejects_malformed_url_witness :
  OpExportDvidVolume.run_export dvid exporter_bad_url
  = (Raise (AssertionError ""), [0]%Z) /\
  raises (OpExportDvidVolume.run_export dvid exporter_bad_url).1.
Proof.
  split; [reflexivity|].
  refine (proj1 (X12_run_export_rejects_malformed_url exporter_bad_url _
                   dvid dvid)).
  intros (path & hostname & uuid & dataname & Hpath & Hsplit).
  vm_compute in Hpath. injection Hpath as <-.
  vm_compute in Hsplit. discriminate Hsplit.
Defined.

(** ** [OpExportDvidVolume]: what is sent to the server *)




(** ** [OpDataSelection]: more on the injected metadata *)

Lemma inject_axistags_other_key (env : OpDataSelection.Env) (info : AxisTags)
    (m : MetaDict) (metadata metadata' : gmap string MetaValue) (key : string) :
  key <> "axistags" ->
  OpDataSelection.inject_axistags env info m metadata = Ok metadata' ->
  metadata' !! key = metadata !! key.
Proof.
  intros Hkey. unfold OpDataSelection.inject_axistags.
  destruct (OpDataSelection.squeezed_keys env _) as [squeezed|]; [|done].
  cbn. repeat case_match; try done.
  - intros [= <-]. by rewrite lookup_insert_ne.
  - intros [= <-]. by rewrite lookup_insert_ne.
  - destruct (OpDataSelection.reinterpret_axes _ _ _ _ _ _); [|done].
    cbn. intros [= <-]. by rewrite lookup_insert_ne.
Qed.

(** X14: the injected [channel_names] are the role name alone when the
    provider has at most one channel (or no channel axis), and otherwise
    one name per channel, the role name followed by the channel index. *)
Theorem X14_channel_names (env : OpDataSelection.Env) (role_name : string)
    (datasetInfo : DatasetInfo.t) (m : MetaDict)
    (metadata : gmap string MetaValue) :
  OpDataSelection.build_metadata env role_name datasetInfo m = Ok metadata ->
  exists names,
    metadata !! "channel_names" = Some (VNames names) /\
    let num_channels := default 0 (od_get "c"%char (getTaggedShape m)) in
    (num_channels <= 1 -> names = [role_name]) /\
    (1 < num_channels ->
     length names = num_channels /\
     forall i, i < num_channels ->
       names !! i = Some (role_name +:+ "-" +:+ str_of_nat i)).
Proof.
  unfold OpDataSelection.build_metadata.
  set (md0 := <["channel_names" := _]> _).
  assert (md0 !! "channel_names"
          = Some (VNames (OpDataSelection.channel_names role_name m))) as H0.
  { unfold md0. by rewrite lookup_insert_eq. }
  set (md1 := OpDataSelection.inject_drange datasetInfo m md0).
  assert (md1 !! "channel_names" = md0 !! "channel_names") as H1.
  { unfold md1, OpDataSelection.inject_drange.
    repeat case_match; by rewrite ?lookup_insert_ne. }
  set (md2 := match DatasetInfo.normalizeDisplay datasetInfo with
              | Some b => <["normalizeDisplay" := VBool b]> md1
              | None => md1
              end).
  assert (md2 !! "channel_names" = md1 !! "channel_names") as H2.
  { unfold md2. destruct (DatasetInfo.normalizeDisplay datasetInfo);
      [by rewrite lookup_insert_ne|done]. }
  destruct (match DatasetInfo.axistags datasetInfo with
            | Some info => OpDataSelection.inject_axistags env info m md2
            | None => Ok md2
            end) as [md3|] eqn:H3; [|done].
  assert (md3 !! "channel_names" = md2 !! "channel_names") as H3'.
  { destruct (DatasetInfo.axistags datasetInfo).
    - by eapply inject_axistags_other_key.
    - by injection H3 as <-. }
  cbn. intros [= <-].
  exists (OpDataSelection.channel_names role_name m). split.
  - rewrite <- H0, <- H1, <- H2, <- H3'.
    destruct (DatasetInfo.original_axistags datasetInfo),
      (DatasetInfo.subvolume_roi datasetInfo);
      by rewrite ?lookup_insert_ne.
  - unfold OpDataSelection.channel_names. cbv zeta. split.
    + intros Hle. rewrite bool_decide_eq_false_2 by lia. done.
    + intros Hlt. rewrite bool_decide_eq_true_2 by done.
      split; [by rewrite length_fmap, length_seq|].
      intros i Hi. rewrite list_lookup_fmap, lookup_seq_lt by done. done.
Qed.

Lemma X14_channel_names_witness :
  exists metadata names,
    OpDataSelection.build_metadata (env (Ok provider_tc)) "Raw Data"
      (dataset "/data/volume.npy" "volume") provider_tc = Ok metadata /\
    metadata !! "channel_names" = Some (VNames names) /\
    length names = 3 /\
    names !! 2 = Some "Raw Data-2".
Proof.
  destruct (X14_channel_names (env (Ok provider_tc)) "Raw Data"
              (dataset "/data/volume.npy" "volume") provider_tc _ eq_refl)
    as (names & Hnames & _ & Hmany).
  destruct Hmany as [Hlen Hith]; [vm_compute; lia|].
  eexists _, names. split; [reflexivity|]. split; [exact Hnames|].
  split; [exact Hlen|]. apply (Hith 2). vm_compute. lia.
Defined.

(** ** [OpDataSelection.setupOutputs]: failing runs *)

(** X16: a run of [setupOutputs] that raises never changes [ImageName],
    and changes [AllowLabels] only when what failed is the look-up of the
    nickname; so after a configuration that succeeded, a failing
    reconfiguration leaves these two outputs published while [Image] is
    not ready. *)
Theorem X16_failure_keeps_names (env : OpDataSelection.Env)
    (self self' : OpDataSelection.Op) (e : exn) :
  OpDataSelection.setupOutputs env self = (Raise e, self') ->
  OpDataSelection.ImageName self' = OpDataSelection.ImageName self /\
  (OpDataSelection.AllowLabels self' = OpDataSelection.AllowLabels self \/
   e = AttributeError "nickname" /\
   OpDataSelection.AllowLabels self'
   = Some (DatasetInfo.allowLabels (OpDataSelection.Dataset self))).
Proof.
  intros Hrun.
  destruct (internalCleanup_fields self)
    as (_ & Hds0 & _ & _ & _ & _ & _ & Ha0 & Hn0).
  simpl in *.
  destruct (OpDataSelection.provide env (OpDataSelection.internalCleanup self))
    as [[m|e1] st1] eqn:Hp.
  - rewrite (setupOutputs_after_provide _ _ _ _ Hp) in Hrun.
    apply provide_outcome in Hp as (_ & Hds1 & _ & Ha1 & Hn1 & _).
    destruct (OpDataSelection.normalize_axes m st1) as [r2 st2] eqn:Hn.
    apply normalize_axes_outcome in Hn as (_ & Hds2 & Ha2 & Hn2 & _).
    destruct r2 as [[]|e2].
    + destruct (OpDataSelection.publish_names st2) as [[[]|e3] st3] eqn:Hpub;
        [done|].
      injection Hrun as <- <-.
      apply publish_names_outcome in Hpub
        as (_ & _ & _ & _ & _ & _ & Ha3 & -> & _ & Hn3).
      destruct (internalCleanup_fields st3)
        as (_ & _ & _ & _ & _ & _ & _ & -> & ->).
      split; [congruence|]. right. split; [done|]. congruence.
    + injection Hrun as <- <-.
      destruct (internalCleanup_fields st2)
        as (_ & _ & _ & _ & _ & _ & _ & -> & ->).
      split; [congruence|]. left. congruence.
  - rewrite (setupOutputs_provide_raises _ _ _ _ Hp) in Hrun.
    injection Hrun as <- <-.
    apply provide_outcome in Hp as (_ & _ & _ & Ha1 & Hn1 & _).
    destruct (internalCleanup_fields st1)
      as (_ & _ & _ & _ & _ & _ & _ & -> & ->).
    split; [congruence|]. left. congruence.
Qed.

Lemma X16_failure_keeps_names_witness :
  let first := OpDataSelection.setupOutputs env_by_path operator_2d_3d in
  let second := OpDataSelection.setupOutputs (env unreadable) first.2 in
  raises second.1 /\
  OpDataSelection.Image second.2 = None /\
  OpDataSelection.ImageName second.2 = Some (Some "flat") /\
  OpDataSelection.AllowLabels second.2 = Some true.
Proof.
  intros first second.
  assert (OpDataSelection.setupOutputs (env unreadable) first.2
          = (Raise (OperatorError "OpInputDataReader" "Unable to open file"),
             second.2)) as Hrun by (vm_compute; reflexivity).
  destruct (X16_failure_keeps_names _ _ _ _ Hrun) as [Hname Hallow].
  split; [exact I|]. split; [reflexivity|]. split.
  - rewrite Hname. reflexivity.
  - destruct Hallow as [->|[? _]]; [reflexivity|done].
Defined.

(** X17: a [forceAxisOrder] that is true but not a list, such as the bare
    string the docstring of the constructor suggests, fails the assertion
    of [setupOutputs] once the provider slot is there with its spatial
    axes; the run raises [AssertionError] and [Image] is not ready. *)
Theorem X17_force_order_must_be_list (env : OpDataSelection.Env)
    (self st1 : OpDataSelection.Op) (m : MetaDict) :
  OpDataSelection.forceAxisOrder self = OpDataSelection.NotAList true ->
  OpDataSelection.provide env (OpDataSelection.internalCleanup self)
  = (Ok m, st1) ->
  "x"%char ∈ axistags m -> "y"%char ∈ axistags m ->
  exists self',
    OpDataSelection.setupOutputs env self
    = (Raise (AssertionError
                "forceAxisOrder should be a *list* of preferred axis orders"),
       self') /\
    OpDataSelection.Image self' = None /\
    OpDataSelection._NonTransposedImage self' = None /\
    OpDataSelection._opReaders self' = [].
Proof.
  intros Hforce Hp Hx Hy.
  rewrite (setupOutputs_after_provide _ _ _ _ Hp).
  destruct (OpDataSelection.normalize_axes m st1) as [r2 st2] eqn:Hn.
  pose proof Hp as Hp'.
  apply provide_outcome in Hp'
    as (Hset & _ & _ & _ & _ & _ & c0 & c1 & Hr1 & _).
  destruct (internalCleanup_fields self) as (Hset0 & _).
  simpl in Hset0.
  assert (OpDataSelection.forceAxisOrder st1 = OpDataSelection.NotAList true)
    as Hforce1.
  { unfold settings in Hset, Hset0. congruence. }
  apply normalize_axes_outcome in Hn as (_ & _ & _ & _ & _ & _ & Hn).
  rewrite (proj1 (require_xy_spec m) (conj Hx Hy)), Hforce1 in Hn.
  cbn in Hn. destruct Hn as [-> ->].
  eexists. split; [reflexivity|].
  destruct (internalCleanup_fields st1) as (_ & _ & -> & _ & _ & -> & -> & _).
  rewrite Hr1. destruct (decide (_ ++ [c0; c1] = [])) as [He|_]; [|done].
  by apply app_eq_nil in He as [_ ?].
Qed.

Lemma X17_force_order_must_be_list_witness :
  exists self',
    OpDataSelection.setupOutputs (env (Ok provider_A))
      (OpDataSelection.init (OpDataSelection.NotAList true) "Raw Data" None
         None "/data" (dataset "/data/volume.npy" "volume"))
    = (Raise (AssertionError
                "forceAxisOrder should be a *list* of preferred axis orders"),
       self') /\
    OpDataSelection.Image self' = None /\
    OpDataSelection._NonTransposedImage self' = None /\
    OpDataSelection._opReaders self' = [].
Proof.
  set (E := env (Ok provider_A)).
  set (O := OpDataSelection.init (OpDataSelection.NotAList true) "Raw Data"
              None None "/data" (dataset "/data/volume.npy" "volume")).
  apply (X17_force_order_must_be_list E O (after_provide E O) (provided E O)).
  - reflexivity.
  - vm_compute. reflexivity.
  - apply list_elem_of_In. vm_compute. tauto.
  - apply list_elem_of_In. vm_compute. tauto.
Defined.

(** ** [OpDataSelection]: the rank of the injected axis tags *)

Lemma length_list_ascii_of_string (s : string) :
  length (list_ascii_of_string s) = String.length s.
Proof. induction s as [|a s IH]; simpl; [done|]. by rewrite IH. Qed.

Lemma length_append_char (s : string) (a : ascii) :
  String.length (s +:+ String a "") = S (String.length s).
Proof.
  induction s as [|b s IH]; [done|].
  change (S (String.length (s +:+ String a "")) = S (S (String.length s))).
  by rewrite IH.
Qed.

Lemma length_string_of_list_ascii (l : list ascii) :
  String.length (string_of_list_ascii l) = length l.
Proof. induction l as [|a l IH]; simpl; [done|]. by rewrite IH. Qed.

Lemma reinterpret_axes_length (env : OpDataSelection.Env)
    (items : list (ascii * nat)) (squeezed info : list ascii)
    (dummy : gset ascii) (out out' : string) :
  OpDataSelection.reinterpret_axes env items squeezed info dummy out = Ok out' ->
  String.length out' = String.length out + length items.
Proof.
  revert info dummy out. induction items as [|[k v] items IH];
    intros info dummy out; simpl.
  - intros [= <-]. lia.
  - destruct (bool_decide (k ∈ squeezed)).
    + destruct info as [|a info]; [done|].
      intros H. apply IH in H. rewrite length_append_char in H. lia.
    + destruct (OpDataSelection.set_pop env dummy) as [[a dummy']|]; [|done].
      cbn. intros H. apply IH in H. rewrite length_append_char in H. lia.
Qed.

Lemma od_set_fresh (k : ascii) (v : nat) (d : list (ascii * nat)) :
  k ∉ map fst d -> od_set k v d = d ++ [(k, v)].
Proof.
  induction d as [|[k' v'] d IH]; simpl; [done|].
  intros Hk. apply not_elem_of_cons in Hk as [Hne Hk].
  rewrite decide_False by done. by rewrite IH.
Qed.

Lemma tagged_fold_length (kvs d : list (ascii * nat)) :
  NoDup (map fst d ++ map fst kvs) ->
  length (foldl (fun d kv => od_set kv.1 kv.2 d) d kvs)
  = length d + length kvs.
Proof.
  revert d. induction kvs as [|[k v] kvs IH]; intros d Hnd; simpl; [lia|].
  simpl in Hnd.
  assert (k ∉ map fst d) as Hk.
  { apply NoDup_app in Hnd as (_ & Hdis & _). intros Hin.
    apply (Hdis k Hin). apply list_elem_of_here. }
  rewrite (od_set_fresh k v d Hk). rewrite IH.
  - rewrite length_app. simpl. lia.
  - rewrite map_app. simpl. rewrite <- app_assoc. exact Hnd.
Qed.

Lemma getTaggedShape_length (m : MetaDict) :
  NoDup (axistags m) -> length (axistags m) = length (shape m) ->
  length (getTaggedShape m) = length (shape m).
Proof.
  intros Hnd Hlen. unfold getTaggedShape, getAxisKeys.
  rewrite tagged_fold_length.
  - simpl. rewrite length_zip_with. lia.
  - simpl. change (map fst (zip (axistags m) (shape m)))
      with ((zip (axistags m) (shape m)).*1).
    rewrite fst_zip by lia. exact Hnd.
Qed.

Lemma inject_axistags_rank (env : OpDataSelection.Env) (info : AxisTags)
    (m : MetaDict) (metadata metadata' : gmap string MetaValue) :
  NoDup (axistags m) -> length (axistags m) = length (shape m) ->
  OpDataSelection.inject_axistags env info m metadata = Ok metadata' ->
  exists tags,
    metadata' !! "axistags" = Some (VAxisTags tags) /\
    length tags = length (shape m).
Proof.
  intros Hnd Hlen. unfold OpDataSelection.inject_axistags.
  destruct (OpDataSelection.squeezed_keys env _) as [squeezed|]; [|done].
  cbn.
  repeat case_match; try done.
  - match goal with
    | H : bool_decide (length info = _) = true |- _ =>
        apply bool_decide_eq_true in H; rename H into H1
    end.
    intros [= <-]. exists info. by rewrite lookup_insert_eq.
  - match goal with
    | H : (_ && _) = true |- _ =>
        apply andb_true_iff in H as [H2 _]; apply bool_decide_eq_true in H2
    end.
    intros [= <-]. eexists. rewrite lookup_insert_eq. split; [done|].
    unfold defaultAxistags.
    by rewrite length_list_ascii_of_string, length_append_char,
      length_string_of_list_ascii.
  - destruct (OpDataSelection.reinterpret_axes _ _ _ _ _ _) as [out|] eqn:Hre;
      [|done].
    cbn. intros [= <-]. eexists. rewrite lookup_insert_eq. split; [done|].
    apply reinterpret_axes_length in Hre. unfold defaultAxistags.
    rewrite length_list_ascii_of_string, Hre. simpl.
    by apply getTaggedShape_length.
Qed.

(** The axis tags of the injector's output are as many as the extents of
    its shape, whichever way the axis tags of the dataset are taken
    over. *)
Lemma build_metadata_rank (env : OpDataSelection.Env)
    (role_name : string) (datasetInfo : DatasetInfo.t) (m : MetaDict)
    (metadata : gmap string MetaValue) :
  NoDup (axistags m) -> length (axistags m) = length (shape m) ->
  OpDataSelection.build_metadata env role_name datasetInfo m = Ok metadata ->
  length (axistags (OpMetadataInjector_Output metadata m))
  = length (shape (OpMetadataInjector_Output metadata m)).
Proof.
  intros Hnd Hlen. unfold OpDataSelection.build_metadata.
  set (md0 := <["channel_names" := _]> _).
  assert (md0 !! "axistags" = None) as H0.
  { unfold md0. by rewrite !lookup_insert_ne. }
  set (md1 := OpDataSelection.inject_drange datasetInfo m md0).
  assert (md1 !! "axistags" = None) as H1.
  { unfold md1, OpDataSelection.inject_drange.
    repeat case_match; by rewrite ?lookup_insert_ne. }
  set (md2 := match DatasetInfo.normalizeDisplay datasetInfo with
              | Some b => <["normalizeDisplay" := VBool b]> md1
              | None => md1
              end).
  assert (md2 !! "axistags" = None) as H2.
  { unfold md2. destruct (DatasetInfo.normalizeDisplay datasetInfo);
      by rewrite ?lookup_insert_ne. }
  destruct (match DatasetInfo.axistags datasetInfo with
            | Some info => OpDataSelection.inject_axistags env info m md2
            | None => Ok md2
            end) as [md3|] eqn:H3; [|done].
  cbn. intros [= <-]. unfold OpMetadataInjector_Output. simpl.
  assert (forall md4 : gmap string MetaValue,
            md4 !! "axistags" = md3 !! "axistags" ->
            length match md4 !! "axistags" with
                   | Some (VAxisTags tags) => tags
                   | _ => axistags m
                   end = length (shape m)) as Hfinal.
  { intros md4 ->. destruct (DatasetInfo.axistags datasetInfo) as [info|].
    - destruct (inject_axistags_rank _ _ _ _ _ Hnd Hlen H3)
        as (tags & -> & Htags). done.
    - injection H3 as <-. by rewrite H2. }
  apply Hfinal.
  destruct (DatasetInfo.original_axistags datasetInfo),
    (DatasetInfo.subvolume_roi datasetInfo);
    by rewrite ?lookup_insert_ne.
Qed.

(** X15: injecting the metadata keeps the rank.  When [setupOutputs]
    returns for a provider with as many distinct axis keys as its shape
    has extents, the slot published on [_NonTransposedImage] has the
    provider's shape and again as many axis tags as extents, whichever
    way the axis tags of the dataset were taken over: as they are, with a
    channel axis appended, or spread over the axes of extent above one. *)
Theorem X15_injection_keeps_rank (env : OpDataSelection.Env)
    (self self' : OpDataSelection.Op) (providerSlot : MetaDict) :
  (OpDataSelection.select_provider env
     (OpDataSelection.internalCleanup self)).1 = Ok providerSlot ->
  NoDup (axistags providerSlot) ->
  length (axistags providerSlot) = length (shape providerSlot) ->
  OpDataSelection.setupOutputs env self = (Ok tt, self') ->
  exists m,
    OpDataSelection._NonTransposedImage self' = Some m /\
    shape m = shape providerSlot /\
    length (axistags m) = length (shape m).
Proof.
  intros Hs Hnd Hlen Hrun.
  destruct (OpDataSelection.provide env (OpDataSelection.internalCleanup self))
    as [[m|e] st1] eqn:Hp.
  2: { rewrite (setupOutputs_provide_raises _ _ _ _ Hp) in Hrun. done. }
  destruct (setupOutputs_returns_provided _ _ _ _ _ Hp Hrun) as [Hnt _].
  destruct (provide_injects _ _ _ _ Hp) as (p & metadata & Hs' & Hb & -> & _).
  assert (p = providerSlot) as -> by congruence.
  eexists. split; [exact Hnt|]. split; [done|].
  by eapply build_metadata_rank.
Qed.

Lemma X15_injection_keeps_rank_witness :
  let same := OpDataSelection.setupOutputs (env (Ok provider_2d))
                (operator_with_axes ["yxc"] "xy") in
  let channel := OpDataSelection.setupOutputs (env (Ok provider_rgb))
                   (operator_with_axes ["yxc"] "xy") in
  let spread := OpDataSelection.setupOutputs (env (Ok provider_A))
                  (operator_with_axes ["tczyx"] "xy") in
  (exists m,
     OpDataSelection._NonTransposedImage same.2 = Some m /\
     axistags m = defaultAxistags "xy" /\
     length (axistags m) = length (shape m)) /\
  (exists m,
     OpDataSelection._NonTransposedImage channel.2 = Some m /\
     axistags m = defaultAxistags "xyc" /\
     length (axistags m) = length (shape m)) /\
  (exists m,
     OpDataSelection._NonTransposedImage spread.2 = Some m /\
     axistags m = defaultAxistags "czxyt" /\
     length (axistags m) = length (shape m)).
Proof.
  intros same channel spread.
  repeat split.
  - destruct (X15_injection_keeps_rank (env (Ok provider_2d))
                (operator_with_axes ["yxc"] "xy") same.2 provider_2d)
      as (m & Hm & _ & Hrank).
    + reflexivity.
    + refine (bool_decide_unpack (NoDup _) _). vm_compute. exact I.
    + reflexivity.
    + vm_compute. reflexivity.
    + exists m. split; [exact Hm|]. split; [|exact Hrank].
      vm_compute in Hm. injection Hm as <-. reflexivity.
  - destruct (X15_injection_keeps_rank (env (Ok provider_rgb))
                (operator_with_axes ["yxc"] "xy") channel.2 provider_rgb)
      as (m & Hm & _ & Hrank).
    + reflexivity.
    + refine (bool_decide_unpack (NoDup _) _). vm_compute. exact I.
    + reflexivity.
    + vm_compute. reflexivity.
    + exists m. split; [exact Hm|]. split; [|exact Hrank].
      vm_compute in Hm. injection Hm as <-. reflexivity.
  - destruct (X15_injection_keeps_rank (env (Ok provider_A))
                (operator_with_axes ["tczyx"] "xy") spread.2 provider_A)
      as (m & Hm & _ & Hrank).
    + reflexivity.
    + refine (bool_decide_unpack (NoDup _) _). vm_compute. exact I.
    + reflexivity.
    + vm_compute. reflexivity.
    + exists m. split; [exact Hm|]. split; [|exact Hrank].
      vm_compute in Hm. injection Hm as <-. reflexivity.
Defined.

(** ** [DatasetInfo.expandPath]: paths outside HDF5 and N5 files *)

Lemma insert_sorted_perm {A : Type} (le : A -> A -> bool) (x : A)
    (l : list A) :
  insert_sorted le x l ≡ₚ x :: l.
Proof.
  induction l as [|y l IH]; simpl; [done|].
  destruct (le x y); [done|].
  rewrite IH. apply Permutation_swap.
Qed.

Lemma sorted_perm {A : Type} (le : A -> A -> bool) (l : list A) :
  sorted le l ≡ₚ l.
Proof.
  unfold sorted. induction l as [|x l IH]; simpl; [done|].
  by rewrite insert_sorted_perm, IH.
Qed.

Lemma expand_unglobbed_plain (env : DatasetInfo.Env)
    (rec : string -> option string -> result (list string))
    (c : DatasetInfo.Components) (us acc : list string) :
  truthy (DatasetInfo.internalPath c) = false \/
  Forall (fun p => DatasetInfo.fileHasInternalPaths env p = false) us ->
  DatasetInfo.expand_unglobbed env rec c us acc = Ok (acc ++ us).
Proof.
  revert acc. induction us as [|u us IH]; intros acc Hplain; simpl.
  - by rewrite app_nil_r.
  - assert (negb (DatasetInfo.fileHasInternalPaths env u)
            || negb (truthy (DatasetInfo.internalPath c)) = true) as ->.
    { destruct Hplain as [->|Hus]; [by rewrite orb_true_r|].
      apply Forall_cons in Hus as [-> _]. done. }
    rewrite IH.
    + by rewrite <- app_assoc.
    + destruct Hplain as [?|Hus]; [by left|].
      right. by apply Forall_cons in Hus as [_ ?].
Qed.

Lemma expand_components_plain (env : DatasetInfo.Env)
    (rec : string -> option string -> result (list string)) (cwd : string)
    (comps : list DatasetInfo.Components) (acc : list string) :
  Forall (fun c =>
            DatasetInfo.glob env (glob_pattern env cwd c) <> [] /\
            (truthy (DatasetInfo.internalPath c) = false \/
             Forall (fun p => DatasetInfo.fileHasInternalPaths env p = false)
               (DatasetInfo.glob env (glob_pattern env cwd c)))) comps ->
  DatasetInfo.expand_components env rec cwd comps acc
  = Ok (acc ++ concat (map (fun c =>
                              DatasetInfo.glob env (glob_pattern env cwd c))
                         comps)).
Proof.
  revert acc. induction comps as [|c comps IH]; intros acc Hall; simpl.
  - by rewrite app_nil_r.
  - apply Forall_cons in Hall as [[Hne Hplain] Hall].
    fold (glob_pattern env cwd c).
    destruct (DatasetInfo.glob env (glob_pattern env cwd c)) as [|u us];
      [done|].
    rewrite (expand_unglobbed_plain env rec c (u :: us) acc Hplain).
    unfold mbind, result_bind, Py.bind.
    rewrite (IH _ Hall). by rewrite <- app_assoc.
Qed.

(** X18: outside HDF5 and N5 files, [expandPath] is the glob of its
    components.  When every component of the path matches at least one
    file and either has no internal part or matches no HDF5 or N5 file,
    and the interpreter allows one call, [expandPath] returns, in
    ascending order, exactly the matches of the components with their
    multiplicities: nothing is dropped, added or merged. *)
Theorem X18_expandPath_plain_files (env : DatasetInfo.Env)
    (file_path : string) (cwd : option string) :
  let comps :=
    map (DatasetInfo.PathComponents env)
      (DatasetInfo.splitPath env (Some file_path)) in
  let matches c :=
    DatasetInfo.glob env
      (glob_pattern env (DatasetInfo.cwd_or_getcwd env cwd) c) in
  DatasetInfo.recursion_limit env <> 0 ->
  Forall (fun c =>
            matches c <> [] /\
            (truthy (DatasetInfo.internalPath c) = false \/
             Forall (fun p => DatasetInfo.fileHasInternalPaths env p = false)
               (matches c))) comps ->
  exists paths,
    DatasetInfo.expandPath env file_path cwd = Ok paths /\
    paths ≡ₚ concat (map matches comps) /\
    StronglySorted String.le paths.
Proof.
  intros comps matches Hdepth Hall.
  unfold DatasetInfo.expandPath.
  destruct (DatasetInfo.recursion_limit env) as [|depth]; [done|].
  simpl. unfold DatasetInfo.expandPath_body.
  fold comps. rewrite (expand_components_plain _ _ _ _ _ Hall).
  cbn. eexists. split; [reflexivity|]. split.
  - apply sorted_perm.
  - apply Sorted_StronglySorted; [apply _|apply sorted_str_Sorted].
Qed.

Lemma X18_expandPath_plain_files_witness :
  exists paths,
    DatasetInfo.expandPath stack_files "s*.png" None = Ok paths /\
    paths ≡ₚ ["/data/s1.png"; "/data/s0.png"] /\
    StronglySorted String.le paths.
Proof.
  apply (X18_expandPath_plain_files stack_files "s*.png" None).
  - vm_compute. discriminate.
  - vm_compute. constructor; [|constructor].
    split; [discriminate|]. by left.
Defined.

(** ** [DatasetInfo.effective_uris] and [DatasetInfo.from_file_path] *)

Lemma init_outcome (env : DatasetInfo.Env) (args : DatasetInfo.InitArgs)
    (self : DatasetInfo.t) :
  DatasetInfo.init env args = Ok self ->
  DatasetInfo.original_paths self
  = DatasetInfo.splitPath env (DatasetInfo.filepath args) /\
  DatasetInfo.location self = DatasetInfo.arg_location args /\
  if truthy (DatasetInfo.filepath args)
     && negb (DatasetInfo.isUrl env (default "" (DatasetInfo.filepath args)))
     && bool_decide (DatasetInfo.arg_location args = DatasetInfo.FileSystem)
  then
    exists nick paths,
      DatasetInfo.create_nickname env (default "" (DatasetInfo.filepath args))
        (Some (DatasetInfo.cwd_or_getcwd env (DatasetInfo.cwd args)))
      = Ok (nick, paths) /\
      DatasetInfo.expanded_paths self = Some paths /\
      (1 < length paths -> truthy (DatasetInfo.sequence_axis args) = true) /\
      (DatasetInfo.jsonNamespace args = None ->
       DatasetInfo.filePath self = Some (join pathsep paths) /\
       DatasetInfo.nickname self
       = Some (if truthy (Some (DatasetInfo.arg_nickname args))
               then DatasetInfo.arg_nickname args else nick))
  else
    DatasetInfo.expanded_paths self = None /\
    (DatasetInfo.jsonNamespace args = None ->
     DatasetInfo.nickname self
     = if truthy (Some (DatasetInfo.arg_nickname args))
       then Some (DatasetInfo.arg_nickname args) else None).
Proof.
  unfold DatasetInfo.init.
  destruct (DatasetInfo.init_precondition args) as [[]|]; [|done].
  cbn. unfold DatasetInfo.init_location.
  destruct (DatasetInfo.array_truth _) as [[|]|]; cbn; [done| |done].
  destruct (truthy (DatasetInfo.filepath args) && _ && _) eqn:Hcond.
  - apply andb_true_iff in Hcond as [_ Hloc%bool_decide_eq_true].
    destruct (DatasetInfo.create_nickname env _ _) as [[nick paths]|] eqn:Hn;
      [|done].
    cbn.
    destruct (bool_decide (1 < length paths)
              && negb (truthy (DatasetInfo.sequence_axis args))) eqn:Hstack;
      [done|].
    cbn.
    assert (1 < length paths ->
            truthy (DatasetInfo.sequence_axis args) = true) as Hseq.
    { intros Hl. rewrite bool_decide_eq_true_2 in Hstack by done.
      simpl in Hstack. by destruct (truthy _). }
    destruct (DatasetInfo.jsonNamespace args) as [ns|]; cbn.
    + unfold DatasetInfo.updateFromJson.
      unfold mbind, result_bind, Py.bind.
      repeat case_match; simplify_eq/=; try done; intros [= <-]; cbn;
        (split; [done|]); (split; [by rewrite ?Hloc|]);
        eexists _, _; (split; [reflexivity|]); repeat split; done.
    + destruct (DatasetInfo.arg_nickname args); intros [= <-]; cbn;
        (split; [done|]); (split; [by rewrite ?Hloc|]);
        eexists _, _; (split; [reflexivity|]); repeat split; done.
  - destruct (DatasetInfo.jsonNamespace args) as [ns|]; cbn.
    + unfold DatasetInfo.updateFromJson.
      unfold mbind, result_bind, Py.bind.
      repeat case_match; simplify_eq/=; try done; intros [= <-]; cbn;
        repeat split; done.
    + destruct (DatasetInfo.arg_nickname args); intros [= <-]; cbn;
        repeat split; done.
Qed.

(** X19: [effective_uris] fails on datasets given by URL.  An object the
    constructor built for a URL with the file-system location (the
    default) never got the attribute [expanded_paths], and since the URL
    counts as an absolute path the property reads that attribute: it
    raises [AttributeError]. *)
Theorem X19_effective_uris_of_url (env : DatasetInfo.Env)
    (args : DatasetInfo.InitArgs) (self : DatasetInfo.t) (url : string) :
  DatasetInfo.init env args = Ok self ->
  DatasetInfo.filepath args = Some url ->
  DatasetInfo.isUrl env url = true ->
  DatasetInfo.arg_location args = DatasetInfo.FileSystem ->
  url ∈ DatasetInfo.splitPath env (Some url) ->
  DatasetInfo.effective_uris env self = Raise (AttributeError "expanded_paths").
Proof.
  intros Hinit Hpath Hurl Hloc Hin.
  apply init_outcome in Hinit as (Horig & Hl & Hexp).
  rewrite Hpath in Hexp, Horig. simpl in Hexp.
  rewrite Hurl, andb_false_r in Hexp. simpl in Hexp.
  destruct Hexp as [Hexp _].
  unfold DatasetInfo.effective_uris, DatasetInfo.is_path_absolute,
    DatasetInfo.is_path_relative.
  rewrite Hl, Hloc, Horig, Hexp.
  assert (existsb (fun p => DatasetInfo.isUrl env p || isabs p)
            (DatasetInfo.splitPath env (Some url)) = true) as ->.
  { apply existsb_exists. exists url. split.
    - by apply list_elem_of_In.
    - by rewrite Hurl. }
  done.
Qed.

Lemma X19_effective_uris_of_url_witness :
  exists self,
    DatasetInfo.init web (args_for "http://host/volume") = Ok self /\
    DatasetInfo.effective_uris web self
    = Raise (AttributeError "expanded_paths").
Proof.
  eexists. split; [reflexivity|].
  apply (X19_effective_uris_of_url web (args_for "http://host/volume") _
           "http://host/volume").
  - reflexivity.
  - reflexivity.
  - reflexivity.
  - reflexivity.
  - apply list_elem_of_In. vm_compute. tauto.
Defined.

(** X20: for an object the constructor built from files, [effective_uris]
    returns: when one of the paths as given is absolute, the sorted
    expanded paths; when all are relative, the paths as given, globs
    unexpanded. *)
Theorem X20_effective_uris_of_files (env : DatasetInfo.Env)
    (args : DatasetInfo.InitArgs) (self : DatasetInfo.t) (path : string) :
  DatasetInfo.init env args = Ok self ->
  DatasetInfo.filepath args = Some path ->
  truthy (Some path) = true ->
  DatasetInfo.isUrl env path = false ->
  DatasetInfo.arg_location args = DatasetInfo.FileSystem ->
  exists paths,
    DatasetInfo.expandPath env path
      (Some (DatasetInfo.cwd_or_getcwd env (DatasetInfo.cwd args)))
    = Ok paths /\
    DatasetInfo.effective_uris env self
    = Ok (Some <$>
            if existsb (fun p => DatasetInfo.isUrl env p || isabs p)
                 (DatasetInfo.splitPath env (Some path))
            then paths
            else DatasetInfo.splitPath env (Some path)).
Proof.
  intros Hinit Hpath Htruthy Hurl Hloc.
  apply init_outcome in Hinit as (Horig & Hl & Hexp).
  rewrite Hpath in Hexp, Horig. rewrite Htruthy in Hexp.
  simpl in Hexp. rewrite Hurl, Hloc in Hexp.
  rewrite bool_decide_eq_true_2 in Hexp by done. simpl in Hexp.
  destruct Hexp as (nick & paths & Hn & Hexp & _).
  exists paths. split; [by eapply create_nickname_paths|].
  unfold DatasetInfo.effective_uris, DatasetInfo.is_path_absolute,
    DatasetInfo.is_path_relative.
  rewrite Hl, Hloc, Horig, Hexp.
  by destruct (existsb _ _).
Qed.

Lemma X20_effective_uris_of_files_witness :
  exists self,
    DatasetInfo.init stack_files (args_for "s*.png") = Ok self /\
    DatasetInfo.effective_uris stack_files self = Ok [Some "s*.png"].
Proof.
  destruct (DatasetInfo.init stack_files (args_for "s*.png")) as [self|]
    eqn:Hinit; [|vm_compute in Hinit; discriminate].
  exists self. split; [reflexivity|].
  destruct (X20_effective_uris_of_files stack_files (args_for "s*.png") self
              "s*.png" Hinit eq_refl eq_refl eq_refl eq_refl)
    as (paths & _ & ->).
  reflexivity.
Defined.

Lemma init_of_path (env : DatasetInfo.Env) (file_path : string)
    (info : DatasetInfo.t) :
  DatasetInfo.init env (DatasetInfo.args_of_path file_path) = Ok info ->
  DatasetInfo.location info = DatasetInfo.FileSystem /\
  if truthy (Some file_path) && negb (DatasetInfo.isUrl env file_path)
  then
    exists nick paths,
      DatasetInfo.create_nickname env file_path
        (Some (DatasetInfo.cwd_or_getcwd env None)) = Ok (nick, paths) /\
      length paths <= 1 /\
      DatasetInfo.filePath info = Some (join pathsep paths) /\
      DatasetInfo.nickname info = Some nick
  else DatasetInfo.nickname info = None.
Proof.
  intros Hinit. apply init_outcome in Hinit as (_ & Hl & Hexp).
  split; [exact Hl|].
  change (DatasetInfo.filepath (DatasetInfo.args_of_path file_path))
    with (Some file_path) in Hexp.
  change (default "" (Some file_path)) with file_path in Hexp.
  change (DatasetInfo.arg_location (DatasetInfo.args_of_path file_path))
    with DatasetInfo.FileSystem in Hexp.
  rewrite (bool_decide_eq_true_2 (DatasetInfo.FileSystem = DatasetInfo.FileSystem))
    in Hexp by done.
  rewrite andb_true_r in Hexp.
  destruct (truthy (Some file_path)
            && negb (DatasetInfo.isUrl env file_path)).
  - destruct Hexp as (nick & paths & Hn & _ & Hseq & Hjson).
    destruct (Hjson eq_refl) as [Hfile Hnick].
    exists nick, paths. repeat split; try done.
    destruct (decide (1 < length paths)) as [Hlt|]; [|lia].
    by specialize (Hseq Hlt).
  - destruct Hexp as [_ Hnick]. exact (Hnick eq_refl).
Qed.

(** X21: [from_file_path] fails for a path the constructor does not look
    up on the file system.  For an empty path or a URL the fresh
    [DatasetInfo] has no [nickname], so copying it over raises
    [AttributeError], whatever the instance to copy. *)
Theorem X21_from_file_path_needs_files (env : DatasetInfo.Env)
    (instance : DatasetInfo.t) (file_path : string) :
  file_path = "" \/ DatasetInfo.isUrl env file_path = true ->
  DatasetInfo.from_file_path env instance file_path
  = Raise (AttributeError "nickname").
Proof.
  intros Hpath. unfold DatasetInfo.from_file_path.
  assert (truthy (Some file_path)
          && negb (DatasetInfo.isUrl env file_path) = false) as Hcond.
  { destruct Hpath as [-> | ->]; [done|by rewrite andb_false_r]. }
  destruct (DatasetInfo.init env (DatasetInfo.args_of_path file_path))
    as [info|e] eqn:Hinit.
  - apply init_of_path in Hinit as [_ Hnick].
    rewrite Hcond in Hnick. cbn. by rewrite Hnick.
  - exfalso. revert Hinit.
    unfold DatasetInfo.init, DatasetInfo.init_precondition, assert,
      DatasetInfo.init_location.
    cbn.
    change (match file_path with
            | "" => false
            | String _ _ => true
            end) with (truthy (Some file_path)).
    rewrite Hcond. done.
Qed.

Lemma X21_from_file_path_needs_files_witness :
  DatasetInfo.from_file_path web (dataset "/data/volume.npy" "volume")
    "http://host/volume"
  = Raise (AttributeError "nickname").
Proof.
  apply (X21_from_file_path_needs_files web
           (dataset "/data/volume.npy" "volume") "http://host/volume").
  right. reflexivity.
Defined.

(** X22: [from_file_path] returns only for a path that expands to exactly
    one file (a stack fails, as the fresh [DatasetInfo] is built without a
    sequence axis).  The copy then has that file as its [filePath] and the
    file-system location, while [expanded_paths], [original_paths],
    [fromstack] and [sequenceAxis] are still those of the instance that
    was copied. *)
Theorem X22_from_file_path_single_file (env : DatasetInfo.Env)
    (instance result : DatasetInfo.t) (file_path : string) :
  DatasetInfo.from_file_path env instance file_path = Ok result ->
  exists p,
    DatasetInfo.expandPath env file_path
      (Some (DatasetInfo.cwd_or_getcwd env None)) = Ok [p] /\
    DatasetInfo.filePath result = Some p /\
    DatasetInfo.location result = DatasetInfo.FileSystem /\
    DatasetInfo.expanded_paths result = DatasetInfo.expanded_paths instance /\
    DatasetInfo.original_paths result = DatasetInfo.original_paths instance /\
    DatasetInfo.fromstack result = DatasetInfo.fromstack instance /\
    DatasetInfo.sequenceAxis result = DatasetInfo.sequenceAxis instance.
Proof.
  unfold DatasetInfo.from_file_path.
  destruct (DatasetInfo.init env (DatasetInfo.args_of_path file_path))
    as [info|e] eqn:Hinit; [|done].
  apply init_of_path in Hinit as [Hl Hexp]. cbn.
  destruct (truthy (Some file_path)
            && negb (DatasetInfo.isUrl env file_path)).
  - destruct Hexp as (nick & paths & Hn & Hlen & Hfile & Hnick).
    rewrite Hnick. cbn. intros [= <-]. simpl.
    pose proof (create_nickname_nonempty _ _ _ _ _ Hn) as Hne.
    apply create_nickname_paths in Hn.
    destruct paths as [|p [|q paths]]; [done| |simpl in Hlen; lia].
    exists p. by rewrite Hfile.
  - by rewrite Hexp.
Qed.

Lemma X22_from_file_path_single_file_witness :
  exists result,
    DatasetInfo.from_file_path files (dataset "/data/volume.npy" "volume")
      "a.png" = Ok result /\
    DatasetInfo.filePath result = Some "/data/a.png" /\
    DatasetInfo.expanded_paths result
    = DatasetInfo.expanded_paths (dataset "/data/volume.npy" "volume").
Proof.
  destruct (DatasetInfo.from_file_path files
              (dataset "/data/volume.npy" "volume") "a.png") as [result|]
    eqn:Hcopy; [|vm_compute in Hcopy; discriminate].
  exists result. split; [reflexivity|].
  destruct (X22_from_file_path_single_file files
              (dataset "/data/volume.npy" "volume") result "a.png" Hcopy)
    as (p & Hp & -> & _ & Hexp & _).
  split; [|exact Hexp].
  assert (DatasetInfo.expandPath files "a.png"
            (Some (DatasetInfo.cwd_or_getcwd files None))
          = Ok ["/data/a.png"]) as Hq by (vm_compute; reflexivity).
  congruence.
Defined.
